(** * SmartRent plugin for Indigo: a shallow embedding of [plugin.py]

    The development follows the file [Server Plugin/plugin.py]:

    - the one-time-passcode wrapper [OTP] and the JSON encoder [OTPEncoder];
    - the binding lookup [get_smartrent_device_for_device];
    - the state synchroniser [update_device_from_smartrent];
    - the device life cycle ([deviceStartComm]) and the three action
      handlers.

    Python code that mutates the plugin object, the Indigo device and the log
    is written in a state-and-exception monad [M]; Python exceptions are the
    left injection of the result.  *)

From Stdlib Require Import ZArith Ascii String List Lia.
From stdpp Require Import gmap strings list pretty.

Local Open Scope string_scope.
Local Open Scope list_scope.
Local Open Scope Z_scope.

(** ** Python values and exceptions *)

(** The exception classes that the modelled code can raise.  [ValueError]
    also stands for its subclass [binascii.Error]. *)
Inductive exn : Type :=
  | ValueError
  | TypeError (msg : string)
  | KeyError (key : string)
  | IndexError
  | AttributeError (attr : string).

Definition result (A : Type) : Type := exn + A.

Definition Ok {A} (a : A) : result A := inr a.
Definition Raise {A} (e : exn) : result A := inl e.

Definition rbind {A B} (r : result A) (k : A -> result B) : result B :=
  match r with
  | inl e => inl e
  | inr a => k a
  end.

(** ** Bytes, words and SHA-1

    [pyotp.TOTP] computes an HMAC-SHA1 of the time counter.  [pyotp], [hmac],
    [hashlib] and [base64] are libraries the plugin imports; they are written
    here as their documents define them (FIPS 180-4, RFC 2104, RFC 4648,
    RFC 4226 and RFC 6238), with bytes as integers in [0, 256) and 32-bit
    words as integers reduced modulo [2^32]. *)

Module SHA1.

Definition w32 (x : Z) : Z := Z.land x 4294967295.

Definition add32 (x y : Z) : Z := w32 (x + y).

Definition rotl (n x : Z) : Z :=
  w32 (Z.lor (Z.shiftl x n) (Z.shiftr x (32 - n))).

Definition not32 (x : Z) : Z := Z.lxor x 4294967295.

(** Big-endian bytes of a word, most significant first. *)
Fixpoint be_bytes (n : nat) (x : Z) : list Z :=
  match n with
  | O => []
  | S n' => Z.land (Z.shiftr x (8 * Z.of_nat n')) 255 :: be_bytes n' x
  end.

Fixpoint be_value (acc : Z) (bs : list Z) : Z :=
  match bs with
  | [] => acc
  | b :: bs' => be_value (Z.lor (Z.shiftl acc 8) b) bs'
  end.

(** The message followed by the bit 1, zero bytes up to 56 modulo 64 and the
    bit length of the message on eight bytes. *)
Definition pad (msg : list Z) : list Z :=
  let l := Z.of_nat (length msg) in
  let zeros := Z.to_nat ((55 - l) mod 64) in
  msg ++ 128 :: repeat 0 zeros ++ be_bytes 8 (8 * l).

Fixpoint words (fuel : nat) (bs : list Z) : list Z :=
  match fuel with
  | O => []
  | S fuel' =>
      match bs with
      | [] => []
      | _ => be_value 0 (take 4 bs) :: words fuel' (drop 4 bs)
      end
  end.

(** The message schedule, kept most recent word first: [w] holds
    [W(t-1), W(t-2), ...]. *)
Fixpoint schedule (n : nat) (w : list Z) : list Z :=
  match n with
  | O => w
  | S n' =>
      let x := Z.lxor (Z.lxor (nth 2 w 0) (nth 7 w 0))
                      (Z.lxor (nth 13 w 0) (nth 15 w 0)) in
      schedule n' (rotl 1 x :: w)
  end.

Definition f (t : nat) (b c d : Z) : Z :=
  if (t <? 20)%nat then Z.lor (Z.land b c) (Z.land (not32 b) d)
  else if (t <? 40)%nat then Z.lxor (Z.lxor b c) d
  else if (t <? 60)%nat then
    Z.lor (Z.lor (Z.land b c) (Z.land b d)) (Z.land c d)
  else Z.lxor (Z.lxor b c) d.

Definition K (t : nat) : Z :=
  if (t <? 20)%nat then 1518500249
  else if (t <? 40)%nat then 1859775393
  else if (t <? 60)%nat then 2400959708
  else 3395469782.

Record state : Type := State { ha : Z; hb : Z; hc : Z; hd : Z; he : Z }.

Definition initial : state :=
  State 1732584193 4023233417 2562383102 271733878 3285377520.

Fixpoint rounds (t : nat) (ws : list Z) (s : state) : state :=
  match ws with
  | [] => s
  | w :: ws' =>
      let tmp :=
        add32 (add32 (add32 (add32 (rotl 5 (ha s)) (f t (hb s) (hc s) (hd s)))
                            (he s)) (K t)) w in
      rounds (S t) ws' (State tmp (ha s) (rotl 30 (hb s)) (hc s) (hd s))
  end.

Definition compress (s : state) (block : list Z) : state :=
  let w := rev (schedule 64 (rev (words 16 block))) in
  let s' := rounds 0 w s in
  State (add32 (ha s) (ha s')) (add32 (hb s) (hb s')) (add32 (hc s) (hc s'))
        (add32 (hd s) (hd s')) (add32 (he s) (he s')).

Fixpoint blocks (fuel : nat) (s : state) (bs : list Z) : state :=
  match fuel with
  | O => s
  | S fuel' =>
      match bs with
      | [] => s
      | _ => blocks fuel' (compress s (take 64 bs)) (drop 64 bs)
      end
  end.

Definition digest (msg : list Z) : list Z :=
  let p := pad msg in
  let s := blocks (length p) initial p in
  be_bytes 4 (ha s) ++ be_bytes 4 (hb s) ++ be_bytes 4 (hc s)
    ++ be_bytes 4 (hd s) ++ be_bytes 4 (he s).

End SHA1.

(** [hmac.new(key, msg, hashlib.sha1).digest()] *)
Module HMAC.

Definition block_size : nat := 64.

Definition xor_with (c : Z) (bs : list Z) : list Z :=
  map (fun b => Z.lxor b c) bs.

Definition digest (key msg : list Z) : list Z :=
  let key := if (block_size <? length key)%nat then SHA1.digest key else key in
  let key := key ++ repeat 0 (block_size - length key)%nat in
  SHA1.digest (xor_with 92 key ++ SHA1.digest (xor_with 54 key ++ msg)).

End HMAC.

Definition bytes_of_string (s : string) : list Z :=
  map (fun c => Z.of_N (N_of_ascii c)) (list_ascii_of_string s).

Definition hex_digit (d : Z) : ascii :=
  ascii_of_N (Z.to_N (if d <? 10 then 48 + d else 87 + d)).

Definition hexdigest (bs : list Z) : string :=
  string_of_list_ascii
    (flat_map (fun b => [hex_digit (Z.shiftr b 4); hex_digit (Z.land b 15)]) bs).

(** ** [base64.b32decode(s, casefold=True)] *)
Module base64.

Definition upper (c : Z) : Z :=
  if (97 <=? c) && (c <=? 122) then c - 32 else c.

Fixpoint lstrip_eq (s : list Z) : list Z :=
  match s with
  | [] => []
  | c :: s' => if c =? 61 then lstrip_eq s' else s
  end.

(** [s.rstrip(b'=')] *)
Definition rstrip_eq (s : list Z) : list Z := rev (lstrip_eq (rev s)).

(** The reverse alphabet: [A-Z] are 0..25 and [2-7] are 26..31. *)
Definition b32rev (c : Z) : option Z :=
  if (65 <=? c) && (c <=? 90) then Some (c - 65)
  else if (50 <=? c) && (c <=? 55) then Some (c - 24)
  else None.

Fixpoint quantum (acc : Z) (q : list Z) : result Z :=
  match q with
  | [] => Ok acc
  | c :: q' =>
      match b32rev c with
      | Some v => quantum (Z.shiftl acc 5 + v) q'
      | None => Raise ValueError
      end
  end.

(** The loop over the full quanta; it returns the decoded bytes and the
    value of [acc] left by the last iteration. *)
Fixpoint quanta (fuel : nat) (acc : Z) (s : list Z) : result (list Z * Z) :=
  match fuel with
  | O => Ok ([], acc)
  | S fuel' =>
      match s with
      | [] => Ok ([], acc)
      | _ =>
          rbind (quantum 0 (take 8 s)) (fun acc' =>
          rbind (quanta fuel' acc' (drop 8 s)) (fun '(decoded, last) =>
          Ok (SHA1.be_bytes 5 acc' ++ decoded, last)))
      end
  end.

Definition b32decode (s : list Z) : result (list Z) :=
  if negb (length s mod 8 =? 0)%nat then Raise ValueError
  else
    let s := map upper s in
    let l := length s in
    let s := rstrip_eq s in
    let padchars := (l - length s)%nat in
    rbind (quanta (length s) 0 s) (fun '(decoded, acc) =>
    if negb (l mod 8 =? 0)%nat
       || negb (bool_decide (padchars ∈ [0; 1; 3; 4; 6]%nat))
    then Raise ValueError
    else if negb (padchars =? 0)%nat && negb (length decoded =? 0)%nat then
      let acc := Z.shiftl acc (5 * Z.of_nat padchars) in
      let last := SHA1.be_bytes 5 acc in
      let leftover := ((43 - 5 * padchars) / 8)%nat in
      Ok (take (length decoded - 5) decoded ++ take leftover last)
    else Ok decoded).

End base64.

(** ** [pyotp.TOTP] *)
Module pyotp.

(** The plugin builds every [TOTP] from a secret alone, so that [digits]
    and [interval] have their default values, 6 and 30, in every object. *)
Record TOTP : Type := { secret : string }.

Definition digits (self : TOTP) : nat := 6.

Definition interval (self : TOTP) : Z := 30.

(** [TOTP(s)] *)
Definition new (s : string) : TOTP := {| secret := s |}.

Definition byte_secret (self : TOTP) : result (list Z) :=
  let secret := bytes_of_string (secret self) in
  let missing_padding := (length secret mod 8)%nat in
  let secret :=
    if negb (missing_padding =? 0)%nat
    then secret ++ repeat 61 (8 - missing_padding)%nat
    else secret in
  base64.b32decode secret.

(** The bytes of [i], least significant first, as the loop
    [while i != 0: result.append(i & 0xFF); i >>= 8] appends them. *)
Fixpoint int_bytes (fuel : nat) (i : Z) : list Z :=
  match fuel with
  | O => []
  | S fuel' =>
      if i =? 0 then [] else Z.land i 255 :: int_bytes fuel' (Z.shiftr i 8)
  end.

Definition int_to_bytestring (i : Z) : list Z :=
  let result := rev (int_bytes (Z.to_nat (Z.log2 i + 1)) i) in
  repeat 0 (8 - length result)%nat ++ result.

(** [hmac_hash[i]] on a [bytearray] *)
Definition getitem (bs : list Z) (i : Z) : result Z :=
  match bs !! Z.to_nat i with
  | Some b => Ok b
  | None => Raise IndexError
  end.

(** [s[-n:]] *)
Definition suffix (n : nat) (s : string) : string :=
  string_of_list_ascii
    (drop (String.length s - n)%nat (list_ascii_of_string s)).

Definition generate_otp (self : TOTP) (input : Z) : result string :=
  if input <? 0 then Raise ValueError
  else
    rbind (byte_secret self) (fun key =>
    let hmac_hash := HMAC.digest key (int_to_bytestring input) in
    rbind (getitem hmac_hash (Z.of_nat (length hmac_hash) - 1)) (fun last =>
    let offset := Z.land last 15 in
    rbind (getitem hmac_hash offset) (fun b0 =>
    rbind (getitem hmac_hash (offset + 1)) (fun b1 =>
    rbind (getitem hmac_hash (offset + 2)) (fun b2 =>
    rbind (getitem hmac_hash (offset + 3)) (fun b3 =>
    let code :=
      Z.lor (Z.lor (Z.lor (Z.shiftl (Z.land b0 127) 24)
                          (Z.shiftl (Z.land b1 255) 16))
                   (Z.shiftl (Z.land b2 255) 8))
            (Z.land b3 255) in
    let str_code := pretty (10000000000 + code mod 10 ^ Z.of_nat (digits self)) in
    Ok (suffix (digits self) str_code))))))).

(** [timecode(for_time)]: [for_time] stands for the time stamp of the clock
    reading, in whole seconds since the epoch, as [time.mktime] returns it;
    it is divided by the interval and truncated by [int]. *)
Definition timecode (self : TOTP) (for_time : Z) : Z :=
  Z.quot for_time (interval self).

(** [now()], with the reading of the system clock as an argument. *)
Definition now (self : TOTP) (clock : Z) : result string :=
  generate_otp self (timecode self clock).

End pyotp.

(** ** [class OTP] and [class OTPEncoder] *)

Module OTP.

Record t : Type := { _totp : pyotp.TOTP }.

Definition __init__ (secret : string) : t := {| _totp := pyotp.new secret |}.

Definition __str__ (self : t) (clock : Z) : result string :=
  pyotp.now (_totp self) clock.

Definition __repr__ (self : t) (clock : Z) : result string :=
  __str__ self clock.

End OTP.

(** The Python objects of a request payload.  [OObject] is an object of any
    class other than [OTP] and the JSON types; it carries its class name. *)
#[local] Unset Elimination Schemes.

Inductive pyobj : Type :=
  | ONone
  | OBool (b : bool)
  | OInt (z : Z)
  | OStr (s : string)
  | OList (items : list pyobj)
  | ODict (items : list (string * pyobj))
  | OOTP (o : OTP.t)
  | OObject (class_name : string).

(** The document the encoder writes. *)
Inductive json : Type :=
  | JNull
  | JBool (b : bool)
  | JNumber (z : Z)
  | JString (s : string)
  | JArray (items : list json)
  | JObject (items : list (string * json)).

#[local] Set Elimination Schemes.

Module OTPEncoder.

(** [default(o)]: the code of an [OTP], [JSONEncoder.default] otherwise,
    which raises. *)
Definition default (clock : Z) (o : pyobj) : result string :=
  match o with
  | OOTP otp => OTP.__str__ otp clock
  | OObject class_name =>
      Raise (TypeError ("Object of type " +:+ class_name
                          +:+ " is not JSON serializable"))
  | _ => Raise (TypeError "Object is not JSON serializable")
  end.

(** [dumps(o, cls=OTPEncoder)] up to the rendering of the document as text:
    the encoder walks the payload, and hands every object that is not of a
    JSON type to [default], whose string it writes in its place. *)
Fixpoint encode (clock : Z) (o : pyobj) : result json :=
  match o with
  | ONone => Ok JNull
  | OBool b => Ok (JBool b)
  | OInt z => Ok (JNumber z)
  | OStr s => Ok (JString s)
  | OList items =>
      rbind
        ((fix each (l : list pyobj) : result (list json) :=
            match l with
            | [] => Ok []
            | x :: l' =>
                rbind (encode clock x) (fun j =>
                rbind (each l') (fun js => Ok (j :: js)))
            end) items)
        (fun js => Ok (JArray js))
  | ODict items =>
      rbind
        ((fix each (l : list (string * pyobj)) : result (list (string * json)) :=
            match l with
            | [] => Ok []
            | (k, x) :: l' =>
                rbind (encode clock x) (fun j =>
                rbind (each l') (fun js => Ok ((k, j) :: js)))
            end) items)
        (fun js => Ok (JObject js))
  | OOTP _ | OObject _ =>
      rbind (default clock o) (fun s => Ok (JString s))
  end.

End OTPEncoder.

(** ** Python values held by devices *)

(** The values a remote attribute or a configuration property holds. *)
Inductive pyval : Type :=
  | PyNone
  | PyBool (b : bool)
  | PyInt (z : Z)
  | PyStr (s : string).

#[global] Instance pyval_eq_dec : EqDecision pyval.
Proof. solve_decision. Defined.

(** Truth value of an object, as [if] and [or] test it. *)
Definition truthy (v : pyval) : bool :=
  match v with
  | PyNone => false
  | PyBool b => b
  | PyInt z => negb (z =? 0)
  | PyStr s => negb (bool_decide (s = ""))
  end.

(** [v == s] for a string literal [s]. *)
Definition eq_str (v : pyval) (s : string) : bool :=
  match v with
  | PyStr s' => bool_decide (s' = s)
  | _ => false
  end.

(** *** Strings and code points

    A Python [str] is a sequence of code points.  A [str] is written here as
    the string of the bytes of its UTF-8 encoding, which is also how a
    string literal of this file is read; the methods of [str] that look at
    single characters ([int], [str.strip]) work on the code points.  A byte
    that is not part of a well-formed UTF-8 sequence stands for the lone
    surrogate [U+DC00 + byte], as the [surrogateescape] handler of Python
    has it; such a code point is neither a digit nor white space. *)
Module unicode.

Definition continuation (b : N) : bool := ((128 <=? b) && (b <? 192))%N.

Definition two_bytes (b0 b1 : N) : bool :=
  ((194 <=? b0) && (b0 <=? 223))%N && continuation b1.

Definition point2 (b0 b1 : N) : N := ((b0 - 192) * 64 + (b1 - 128))%N.

Definition point3 (b0 b1 b2 : N) : N :=
  ((b0 - 224) * 4096 + (b1 - 128) * 64 + (b2 - 128))%N.

(** Three bytes: not an overlong form and not a surrogate. *)
Definition three_bytes (b0 b1 b2 : N) : bool :=
  ((224 <=? b0) && (b0 <=? 239))%N && continuation b1 && continuation b2
  && (2048 <=? point3 b0 b1 b2)%N
  && negb ((55296 <=? point3 b0 b1 b2) && (point3 b0 b1 b2 <=? 57343))%N.

Definition point4 (b0 b1 b2 b3 : N) : N :=
  ((b0 - 240) * 262144 + (b1 - 128) * 4096 + (b2 - 128) * 64 + (b3 - 128))%N.

Definition four_bytes (b0 b1 b2 b3 : N) : bool :=
  ((240 <=? b0) && (b0 <=? 244))%N
  && continuation b1 && continuation b2 && continuation b3
  && ((65536 <=? point4 b0 b1 b2 b3) && (point4 b0 b1 b2 b3 <=? 1114111))%N.

Definition escape (b : N) : N := (56320 + b)%N.

Fixpoint decode (bs : list N) : list N :=
  match bs with
  | [] => []
  | b0 :: t0 =>
      if (b0 <? 128)%N then b0 :: decode t0
      else
        match t0 with
        | [] => escape b0 :: decode t0
        | b1 :: t1 =>
            if two_bytes b0 b1 then point2 b0 b1 :: decode t1
            else
              match t1 with
              | [] => escape b0 :: decode t0
              | b2 :: t2 =>
                  if three_bytes b0 b1 b2 then point3 b0 b1 b2 :: decode t2
                  else
                    match t2 with
                    | [] => escape b0 :: decode t0
                    | b3 :: t3 =>
                        if four_bytes b0 b1 b2 b3
                        then point4 b0 b1 b2 b3 :: decode t3
                        else escape b0 :: decode t0
                    end
              end
        end
  end.

Definition encode_point (c : N) : list N :=
  (if c <? 128 then [c]
   else if (56448 <=? c) && (c <=? 56575) then [c - 56320]
   else if c <? 2048 then [192 + c / 64; 128 + c mod 64]
   else if c <? 65536 then
     [224 + c / 4096; 128 + (c / 64) mod 64; 128 + c mod 64]
   else
     [240 + c / 262144; 128 + (c / 4096) mod 64; 128 + (c / 64) mod 64;
      128 + c mod 64])%N.

(** The code points of a [str], and the [str] of a sequence of code
    points. *)
Definition code_points (s : list ascii) : list N := decode (map N_of_ascii s).

Definition of_code_points (cs : list N) : list ascii :=
  map ascii_of_N (concat (map encode_point cs)).

(** [Py_UNICODE_ISSPACE]: the characters of bidirectional type WS, B or S
    and of category Zs. *)
Definition Py_UNICODE_ISSPACE (c : N) : bool :=
  ((0x9 <=? c) && (c <=? 0xD) || (0x1C <=? c) && (c <=? 0x20)
   || (c =? 0x85) || (c =? 0xA0) || (c =? 0x1680)
   || (0x2000 <=? c) && (c <=? 0x200A)
   || (c =? 0x2028) || (c =? 0x2029) || (c =? 0x202F) || (c =? 0x205F)
   || (c =? 0x3000))%N.

(** The digits zero of the decimal digits (category Nd) of Unicode 14.0,
    the version of CPython 3.11; the digits of a script follow its zero. *)
Definition decimal_zeros : list N :=
  [ 0x30; 0x660; 0x6F0; 0x7C0; 0x966; 0x9E6; 0xA66; 0xAE6; 0xB66; 0xBE6;
    0xC66; 0xCE6; 0xD66; 0xDE6; 0xE50; 0xED0; 0xF20; 0x1040; 0x1090; 0x17E0;
    0x1810; 0x1946; 0x19D0; 0x1A80; 0x1A90; 0x1B50; 0x1BB0; 0x1C40; 0x1C50;
    0xA620; 0xA8D0; 0xA900; 0xA9D0; 0xA9F0; 0xAA50; 0xABF0; 0xFF10; 0x104A0;
    0x10D30; 0x11066; 0x110F0; 0x11136; 0x111D0; 0x112F0; 0x11450; 0x114D0;
    0x11650; 0x116C0; 0x11730; 0x118E0; 0x11950; 0x11C50; 0x11D50; 0x11DA0;
    0x16A60; 0x16AC0; 0x16B50; 0x1D7CE; 0x1D7D8; 0x1D7E2; 0x1D7EC; 0x1D7F6;
    0x1E140; 0x1E2F0; 0x1E950; 0x1FBF0 ]%N.

(** [Py_UNICODE_TODECIMAL]: the value of a decimal digit, or nothing. *)
Definition Py_UNICODE_TODECIMAL (c : N) : option N :=
  (fun zero => c - zero)%N
    <$> List.find (fun zero => (zero <=? c) && (c <? zero + 10))%N
                  decimal_zeros.

End unicode.

(** *** [int(x)] on a string or an integer *)

(** [int] of a [str] first turns the string into ASCII
    ([_PyUnicode_TransformDecimalAndSpaceToASCII]): characters below 127
    are kept, white space becomes a space, a decimal digit of any script
    becomes the ASCII digit of its value, and the string ends with a
    question mark at the first character that is none of these. *)
Fixpoint transform_decimal_and_space (cs : list N) : list ascii :=
  match cs with
  | [] => []
  | ch :: cs' =>
      if (ch <? 127)%N then ascii_of_N ch :: transform_decimal_and_space cs'
      else if unicode.Py_UNICODE_ISSPACE ch
      then " "%char :: transform_decimal_and_space cs'
      else
        match unicode.Py_UNICODE_TODECIMAL ch with
        | Some decimal =>
            ascii_of_N (48 + decimal) :: transform_decimal_and_space cs'
        | None => ["?"%char]
        end
  end.

(** The ASCII string is then read in base 10 ([PyLong_FromString]).  The
    white space that is skipped on both sides is that of [Py_ISSPACE]: tab
    to carriage return, and the space. *)
Definition is_space (c : ascii) : bool :=
  let n := N_of_ascii c in
  ((9 <=? n) && (n <=? 13))%N || (n =? 32)%N.

Definition is_digit (c : ascii) : bool :=
  let n := N_of_ascii c in ((48 <=? n) && (n <=? 57))%N.

Fixpoint lstrip (s : list ascii) : list ascii :=
  match s with
  | [] => []
  | c :: s' => if is_space c then lstrip s' else s
  end.

Definition strip (s : list ascii) : list ascii := rev (lstrip (rev (lstrip s))).

(** Decimal digits, with single underscores allowed between digits. *)
Fixpoint int_digits (acc : Z) (after_digit : bool) (s : list ascii) : option Z :=
  match s with
  | [] => if after_digit then Some acc else None
  | c :: s' =>
      if is_digit c
      then int_digits (10 * acc + (Z.of_N (N_of_ascii c) - 48)) true s'
      else if bool_decide (c = "_"%char) && after_digit
      then int_digits acc false s'
      else None
  end.

Definition PyLong_FromString (s : list ascii) : result Z :=
  let body := strip s in
  let parsed :=
    match body with
    | "-"%char :: ds => Z.opp <$> int_digits 0 false ds
    | "+"%char :: ds => int_digits 0 false ds
    | ds => int_digits 0 false ds
    end in
  match parsed with
  | Some z => Ok z
  | None => Raise ValueError
  end.

Definition int_of_str (s : string) : result Z :=
  PyLong_FromString
    (transform_decimal_and_space
       (unicode.code_points (list_ascii_of_string s))).

Definition int (v : pyval) : result Z :=
  match v with
  | PyInt z => Ok z
  | PyBool b => Ok (if b then 1 else 0)
  | PyStr s => int_of_str s
  | PyNone => Raise (TypeError "int() argument must be a string, a bytes-like object or a real number, not 'NoneType'")
  end.

(** *** [x - y] and [x + y] for a number [y]

    Numbers are integers here, and [True] and [False] are the numbers 1 and
    0; [None] and a string have no difference or sum with a number. *)
Definition type_name (v : pyval) : string :=
  match v with
  | PyNone => "NoneType"
  | PyBool _ => "bool"
  | PyInt _ => "int"
  | PyStr _ => "str"
  end.

Definition __sub__ (x : pyval) (y : Z) : result Z :=
  match x with
  | PyInt z => Ok (z - y)
  | PyBool b => Ok ((if b then 1 else 0) - y)
  | _ =>
      Raise (TypeError ("unsupported operand type(s) for -: '"
                        +:+ type_name x +:+ "' and 'int'"))
  end.

Definition __add__ (x : pyval) (y : Z) : result Z :=
  match x with
  | PyInt z => Ok (z + y)
  | PyBool b => Ok ((if b then 1 else 0) + y)
  | PyNone =>
      Raise (TypeError "unsupported operand type(s) for +: 'NoneType' and 'int'")
  | PyStr _ =>
      Raise (TypeError ("can only concatenate str (not "
                        +:+ String "034"%char "int"
                        +:+ String "034"%char ") to str"))
  end.

(** ** The Indigo object model

    Only the enumeration members the plugin names are listed one by one
    where Indigo has many more. *)
Module indigo.

Module kFanMode.
Inductive t : Type := AlwaysOn | Auto.
End kFanMode.

Module kHvacMode.
Inductive t : Type :=
  | Cool | Heat | HeatCool | Off | ProgramCool | ProgramHeat | ProgramHeatCool.
End kHvacMode.

Module kStateImageSel.
Inductive t : Type := Locked | Unlocked | Other (name : string).
End kStateImageSel.

Module kDeviceAction.
Inductive t : Type := TurnOn | TurnOff | Toggle | Other (name : string).
End kDeviceAction.

Module kUniversalAction.
Inductive t : Type := RequestStatus | Beep | EnergyUpdate | EnergyReset.
End kUniversalAction.

Module kThermostatAction.
Inductive t : Type :=
  | SetHvacMode | SetFanMode | SetCoolSetpoint | SetHeatSetpoint
  | DecreaseCoolSetpoint | IncreaseCoolSetpoint
  | DecreaseHeatSetpoint | IncreaseHeatSetpoint
  | RequestStatusAll | RequestMode | RequestEquipmentState
  | RequestTemperatures | RequestHumidities | RequestSetpoints.
End kThermostatAction.

(** A value of one of the two mode enumerations ([action.actionMode]).
    Members of different enumerations are different values. *)
Inductive mode : Type :=
  | HvacMode (m : kHvacMode.t)
  | FanMode (m : kFanMode.t).

(** The value of a device state: a plain value or an enumeration member. *)
Inductive state_value : Type :=
  | Val (v : pyval)
  | Mode (m : mode).

(** A device state as the last write left it: the value and the [uiValue]
    passed with it, if any. *)
Definition state : Type := (state_value * option string)%type.

(** [pluginProps] holds the fields of the device's configuration dialog,
    which Indigo stores as strings. *)
Record Device : Type := {
  id : Z;
  name : string;
  deviceTypeId : string;
  pluginProps : gmap string string;
  states : gmap string state;
  stateImage : option kStateImageSel.t
}.

Definition set_states (f : gmap string state -> gmap string state)
    (d : Device) : Device :=
  {| id := id d; name := name d; deviceTypeId := deviceTypeId d;
     pluginProps := pluginProps d; states := f (states d);
     stateImage := stateImage d |}.

Definition set_stateImage (i : kStateImageSel.t) (d : Device) : Device :=
  {| id := id d; name := name d; deviceTypeId := deviceTypeId d;
     pluginProps := pluginProps d; states := states d;
     stateImage := Some i |}.

(** [device.coolSetpoint] and [device.heatSetpoint]: a thermostat device of
    Indigo shows its states [setpointCool] and [setpointHeat] under these
    names, so they hold what the last write of the state left.  A state
    that was never written, or that holds an enumeration member, reads as
    [None]. *)
Definition state_attribute (key : string) (d : Device) : pyval :=
  match states d !! key with
  | Some (Val v, _) => v
  | _ => PyNone
  end.

Definition coolSetpoint (d : Device) : pyval := state_attribute "setpointCool" d.

Definition heatSetpoint (d : Device) : pyval := state_attribute "setpointHeat" d.

Module DeviceAction.
Record t : Type := { deviceAction : kDeviceAction.t }.
End DeviceAction.

Module UniversalAction.
Record t : Type := { deviceAction : kUniversalAction.t }.
End UniversalAction.

Module ThermostatAction.
Record t : Type := {
  thermostatAction : kThermostatAction.t;
  actionMode : mode;
  actionValue : Z
}.
End ThermostatAction.

End indigo.

#[global] Instance kFanMode_eq_dec : EqDecision indigo.kFanMode.t.
Proof. solve_decision. Defined.
#[global] Instance kHvacMode_eq_dec : EqDecision indigo.kHvacMode.t.
Proof. solve_decision. Defined.
#[global] Instance mode_eq_dec : EqDecision indigo.mode.
Proof. solve_decision. Defined.

(** ** The SmartRent client library: devices and their accessors *)
Module smartrent.

Record Thermostat : Type := {
  get_current_humidity : pyval;
  get_current_temp : pyval;
  get_cooling_setpoint : pyval;
  get_heating_setpoint : pyval;
  get_mode : pyval;
  get_fan_mode : pyval;
  get_operating_state : pyval
}.

Record DoorLock : Type := {
  get_locked : pyval;
  get_battery_level : pyval
}.

(** The class of a device object with the attributes of that class. *)
Inductive device_class : Type :=
  | IsThermostat (t : Thermostat)
  | IsDoorLock (l : DoorLock)
  | IsLeakSensor
  | IsBinarySwitch
  | IsMultilevelSwitch
  | IsMotionSensor.

Record Device : Type := {
  _device_id : Z;
  get_name : string;
  get_online : pyval;
  class : device_class
}.

(** The coroutines of the library that the plugin submits to its loop: the
    login, and the methods of a device with the identifier of the device
    they are called on. *)
Inductive coroutine : Type :=
  | async_login (email password : string) (tfa_token : OTP.t)
  | async_set_locked (device : Z) (value : bool)
  | _async_fetch_state (device : Z)
  | async_set_mode (device : Z) (mode : string)
  | async_set_fan_mode (device : Z) (mode : string)
  | async_set_cooling_setpoint (device : Z) (value : Z)
  | async_set_heating_setpoint (device : Z) (value : Z)
  | _start_updater (device : Z).

End smartrent.

(** [isinstance(d, SmartRentThermostat)] and [isinstance(d, SmartRentDoorLock)] *)
Definition isinstance_Thermostat (d : smartrent.Device) : bool :=
  match smartrent.class d with
  | smartrent.IsThermostat _ => true
  | _ => false
  end.

Definition isinstance_DoorLock (d : smartrent.Device) : bool :=
  match smartrent.class d with
  | smartrent.IsDoorLock _ => true
  | _ => false
  end.

(** ** Module constants: the four mode tables *)

Definition SMARTRENT_INDIGO_HVAC_FAN_MODES : list (string * indigo.kFanMode.t) :=
  [ ("on", indigo.kFanMode.AlwaysOn);
    ("auto", indigo.kFanMode.Auto) ].

Definition INDIGO_SMARTRENT_HVAC_FAN_MODES : list (indigo.mode * string) :=
  [ (indigo.FanMode indigo.kFanMode.AlwaysOn, "on");
    (indigo.FanMode indigo.kFanMode.Auto, "auto") ].

Definition SMARTRENT_INDIGO_HVAC_MODES : list (string * indigo.kHvacMode.t) :=
  [ ("cool", indigo.kHvacMode.Cool);
    ("heat", indigo.kHvacMode.Heat);
    ("auto", indigo.kHvacMode.HeatCool);
    ("off", indigo.kHvacMode.Off) ].

Definition INDIGO_SMARTRENT_HVAC_MODES : list (indigo.mode * string) :=
  [ (indigo.HvacMode indigo.kHvacMode.Cool, "cool");
    (indigo.HvacMode indigo.kHvacMode.Heat, "heat");
    (indigo.HvacMode indigo.kHvacMode.HeatCool, "auto");
    (indigo.HvacMode indigo.kHvacMode.Off, "off") ].

(** *** Dictionaries in insertion order *)

Fixpoint dict_lookup {K V} `{EqDecision K} (d : list (K * V)) (k : K) : option V :=
  match d with
  | [] => None
  | (k', v) :: d' => if decide (k' = k) then Some v else dict_lookup d' k
  end.

(** [d[key]] on a table with string keys, for a key that is any value: a key
    that is not a string, or not in the table, raises [KeyError]. *)
Definition dict_getitem {V} (d : list (string * V)) (key : pyval) : result V :=
  match key with
  | PyStr s =>
      match dict_lookup d s with
      | Some v => Ok v
      | None => Raise (KeyError s)
      end
  | PyNone => Raise (KeyError "None")
  | PyBool b => Raise (KeyError (if b then "True" else "False"))
  | PyInt z => Raise (KeyError (pretty z))
  end.

(** [d.get(key)]: [None] when the key is absent. *)
Definition dict_get {K V} `{EqDecision K} (d : list (K * V)) (key : K) : option V :=
  dict_lookup d key.

(** [d[k] = v]: an existing key keeps its place. *)
Fixpoint dict_setitem {K V} `{EqDecision K} (k : K) (v : V) (d : list (K * V))
    : list (K * V) :=
  match d with
  | [] => [(k, v)]
  | (k', v') :: d' =>
      if decide (k' = k) then (k, v) :: d' else (k', v') :: dict_setitem k v d'
  end.

(** [d.update(other)] *)
Definition dict_update {K V} `{EqDecision K} (d other : list (K * V))
    : list (K * V) :=
  fold_left (fun acc kv => dict_setitem kv.1 kv.2 acc) other d.

(** ** The plugin object, the log and the monad of the methods *)

Inductive level : Type := DEBUG | INFO | WARNING | ERROR.

(** What a format string interpolates. *)
Inductive log_arg : Type :=
  | ArgStr (s : string)
  | ArgMode (m : indigo.mode)
  | ArgVars (d : smartrent.Device).

(** A call of [self.logger]: the level, the format string with [{}] for
    each interpolated expression, and the values of these expressions. *)
Record LogRecord : Type := {
  levelname : level;
  msg : string;
  args : list log_arg
}.

(** The attributes of [self] that the modelled methods use.  [api] is unset
    until [startup] has logged in; [loop] lists the coroutines handed to
    [self.run], oldest first; [update_callbacks] lists the handlers
    installed with [set_update_callback], as pairs of the SmartRent device
    and the Indigo device whose synchronisation the handler runs. *)
Record Plugin : Type := {
  api : option (list smartrent.Device);
  logger : list LogRecord;
  loop : list smartrent.coroutine;
  update_callbacks : list (Z * Z)
}.

(** The plugin object together with the Indigo device a method is called
    with: the two objects the methods mutate. *)
Record world : Type := {
  self : Plugin;
  device : indigo.Device
}.

Definition M (A : Type) : Type := world -> result A * world.

#[global] Instance M_ret : MRet M := fun A a w => (Ok a, w).

#[global] Instance M_bind : MBind M := fun A B k m w =>
  match m w with
  | (inl e, w') => (inl e, w')
  | (inr a, w') => k a w'
  end.

Definition raise {A} (e : exn) : M A := fun w => (Raise e, w).

Definition lift {A} (r : result A) : M A := fun w => (r, w).

(** [try: body except ValueError: handler] *)
Definition try_except_ValueError {A} (body handler : M A) : M A := fun w =>
  match body w with
  | (inl ValueError, w') => handler w'
  | r => r
  end.

Definition get_device : M indigo.Device := fun w => (Ok (device w), w).

Definition get_self : M Plugin := fun w => (Ok (self w), w).

Definition modify_device (f : indigo.Device -> indigo.Device) : M unit :=
  fun w => (Ok tt, {| self := self w; device := f (device w) |}).

Definition modify_self (f : Plugin -> Plugin) : M unit :=
  fun w => (Ok tt, {| self := f (self w); device := device w |}).

Definition log (l : level) (msg : string) (args : list log_arg) : M unit :=
  modify_self (fun p =>
    {| api := api p;
       logger := logger p ++ [{| levelname := l; msg := msg; args := args |}];
       loop := loop p;
       update_callbacks := update_callbacks p |}).

(** [self.run(coro)]: the coroutine is handed to the loop of the asyncio
    thread; the call returns at once. *)
Definition run (coro : smartrent.coroutine) : M unit :=
  modify_self (fun p =>
    {| api := api p; logger := logger p; loop := loop p ++ [coro];
       update_callbacks := update_callbacks p |}).

Definition set_update_callback (remote : Z) : M unit :=
  d ← get_device;
  modify_self (fun p =>
    {| api := api p; logger := logger p; loop := loop p;
       update_callbacks := update_callbacks p ++ [(remote, indigo.id d)] |}).

(** *** The calls on the Indigo device *)

Definition updateStateOnServer (key : string) (value : indigo.state_value)
    (uiValue : option string) : M unit :=
  modify_device (indigo.set_states (insert key (value, uiValue))).

Definition updateStateImageOnServer (i : indigo.kStateImageSel.t) : M unit :=
  modify_device (indigo.set_stateImage i).

(** [updateStatesOnServer(list)]: the states of the list are written in the
    order of the list. *)
Definition updateStatesOnServer
    (updates : list (string * indigo.state_value)) : M unit :=
  modify_device (indigo.set_states (fun st =>
    fold_left (fun acc kv => <[kv.1 := (kv.2, None)]> acc) updates st)).

(** ** MARK: SmartRent *)

(** [more_itertools.first(iterable)] without a default *)
Definition first {A} (l : list A) : result A :=
  match l with
  | x :: _ => Ok x
  | [] => Raise ValueError
  end.

Definition get_smartrent_device_for_device : M smartrent.Device :=
  device ← get_device;
  smartrent_device_id ←
    lift (int (default (PyInt 0)
                 (PyStr <$> indigo.pluginProps device !! "smartrent-device")));
  self ← get_self;
  smartrent_devices ←
    match api self with
    | Some devices => mret devices
    | None => raise (AttributeError "api")
    end;
  lift (first (filter
    (fun d => smartrent._device_id d = smartrent_device_id) smartrent_devices)).

Definition update_device_from_smartrent
    (smartrent_device : option smartrent.Device) : M unit :=
  smartrent_device ←
    match smartrent_device with
    | Some d => mret d
    | None => get_smartrent_device_for_device
    end;
  log DEBUG "Received device update: {}" [ArgVars smartrent_device];;
  let state_updates :=
    [("online", indigo.Val (smartrent.get_online smartrent_device))] in
  device ← get_device;
  state_updates ←
    (if bool_decide (indigo.deviceTypeId device = "thermostat") then
       match smartrent.class smartrent_device with
       | smartrent.IsThermostat t =>
           hvacFanMode ← lift (dict_getitem SMARTRENT_INDIGO_HVAC_FAN_MODES
                                 (smartrent.get_fan_mode t));
           hvacOperationMode ← lift (dict_getitem SMARTRENT_INDIGO_HVAC_MODES
                                       (smartrent.get_mode t));
           mret (dict_update state_updates
             [ ("humidityInput1", indigo.Val (smartrent.get_current_humidity t));
               ("hvacCoolerIsOn", indigo.Val (PyBool
                  (eq_str (smartrent.get_operating_state t) "cooling")));
               ("hvacFanMode", indigo.Mode (indigo.FanMode hvacFanMode));
               ("hvacHeaterIsOn", indigo.Val (PyBool
                  (eq_str (smartrent.get_operating_state t) "heating")));
               ("hvacOperationMode",
                  indigo.Mode (indigo.HvacMode hvacOperationMode));
               ("setpointCool", indigo.Val (smartrent.get_cooling_setpoint t));
               ("setpointHeat", indigo.Val (smartrent.get_heating_setpoint t));
               ("temperatureInput1", indigo.Val (smartrent.get_current_temp t)) ])
       | _ =>
           raise (TypeError ("Thermostat '" +:+ indigo.name device
                    +:+ "' not linked with a SmartRent thermostat!"))
       end
     else if bool_decide (indigo.deviceTypeId device = "lock") then
       match smartrent.class smartrent_device with
       | smartrent.IsDoorLock l =>
           let state_updates := dict_update state_updates
             [ ("batteryLevel", indigo.Val (smartrent.get_battery_level l));
               ("onOffState", indigo.Val (smartrent.get_locked l)) ] in
           (if truthy (smartrent.get_locked l) then
              updateStateImageOnServer indigo.kStateImageSel.Locked;;
              updateStateOnServer "lockStatus" (indigo.Val (PyStr "locked"))
                (Some "Locked")
            else
              updateStateImageOnServer indigo.kStateImageSel.Unlocked;;
              updateStateOnServer "lockStatus" (indigo.Val (PyStr "unlocked"))
                (Some "Unlocked"));;
           mret state_updates
       | _ =>
           raise (TypeError ("Thermostat '" +:+ indigo.name device
                    +:+ "' not linked with a SmartRent lock!"))
       end
     else mret state_updates);
  updateStatesOnServer state_updates.

(** ** MARK: Device Lifecycle *)

(** The value a method returns to Indigo: [PyBool false] for [return False],
    [PyNone] when the method runs to its end. *)
Definition deviceStartComm : M pyval :=
  device ← get_device;
  log DEBUG "Starting {}..." [ArgStr (indigo.name device)];;
  try_except_ValueError
    (smartrent_device ← get_smartrent_device_for_device;
     mret (Some smartrent_device))
    (log ERROR "No SmartRent device linked to '{}'!"
       [ArgStr (indigo.name device)];;
     mret None)
  ≫= fun found =>
  match found with
  | None => mret (PyBool false)
  | Some smartrent_device =>
      update_device_from_smartrent (Some smartrent_device);;
      set_update_callback (smartrent._device_id smartrent_device);;
      run (smartrent._start_updater (smartrent._device_id smartrent_device));;
      mret PyNone
  end.

Definition didDeviceCommPropertyChange
    (original_device updated_device : indigo.Device) : bool :=
  negb (bool_decide
    (indigo.pluginProps original_device !! "smartrent-device"
     = indigo.pluginProps updated_device !! "smartrent-device")).

(** ** MARK: Device Actions *)

#[global] Instance kDeviceAction_eq_dec : EqDecision indigo.kDeviceAction.t.
Proof. solve_decision. Defined.
#[global] Instance kUniversalAction_eq_dec :
  EqDecision indigo.kUniversalAction.t.
Proof. solve_decision. Defined.
#[global] Instance kThermostatAction_eq_dec :
  EqDecision indigo.kThermostatAction.t.
Proof. solve_decision. Defined.

Definition actionControlDevice (action : indigo.DeviceAction.t) : M unit :=
  smartrent_device ← get_smartrent_device_for_device;
  device ← get_device;
  if bool_decide (indigo.deviceTypeId device = "lock") then
    if negb (isinstance_DoorLock smartrent_device) then
      log ERROR
        "The SmartRent device associated with '{}' was not found to be a Thermostat!"
        [ArgStr (indigo.name device)]
    else if bool_decide (indigo.DeviceAction.deviceAction action
                         = indigo.kDeviceAction.TurnOn) then
      run (smartrent.async_set_locked (smartrent._device_id smartrent_device) true)
    else if bool_decide (indigo.DeviceAction.deviceAction action
                         = indigo.kDeviceAction.TurnOff) then
      run (smartrent.async_set_locked (smartrent._device_id smartrent_device) false)
    else mret tt
  else mret tt.

Definition actionControlUniversal (action : indigo.UniversalAction.t) : M unit :=
  smartrent_device ← get_smartrent_device_for_device;
  if bool_decide (indigo.UniversalAction.deviceAction action
                  = indigo.kUniversalAction.RequestStatus) then
    run (smartrent._async_fetch_state (smartrent._device_id smartrent_device))
  else mret tt.

Definition actionControlThermostat (action : indigo.ThermostatAction.t) : M unit :=
  let thermostatAction := indigo.ThermostatAction.thermostatAction action in
  let actionMode := indigo.ThermostatAction.actionMode action in
  let actionValue := indigo.ThermostatAction.actionValue action in
  smartrent_device ← get_smartrent_device_for_device;
  device ← get_device;
  let remote := smartrent._device_id smartrent_device in
  if negb (isinstance_Thermostat smartrent_device) then
    log ERROR
      "The SmartRent device associated with '{}' was not found to be a Thermostat!"
      [ArgStr (indigo.name device)]
  else if bool_decide (thermostatAction = indigo.kThermostatAction.SetHvacMode) then
    match dict_get INDIGO_SMARTRENT_HVAC_MODES actionMode with
    | Some mode =>
        if truthy (PyStr mode) then run (smartrent.async_set_mode remote mode)
        else log WARNING "Unsupported Hvac mode: {}" [ArgMode actionMode]
    | None => log WARNING "Unsupported Hvac mode: {}" [ArgMode actionMode]
    end
  else if bool_decide (thermostatAction = indigo.kThermostatAction.SetFanMode) then
    match dict_get INDIGO_SMARTRENT_HVAC_FAN_MODES actionMode with
    | Some mode =>
        if truthy (PyStr mode) then run (smartrent.async_set_fan_mode remote mode)
        else log WARNING "Unsupported fan mode: {}" [ArgMode actionMode]
    | None => log WARNING "Unsupported fan mode: {}" [ArgMode actionMode]
    end
  else if bool_decide (thermostatAction = indigo.kThermostatAction.SetCoolSetpoint) then
    run (smartrent.async_set_cooling_setpoint remote actionValue)
  else if bool_decide (thermostatAction = indigo.kThermostatAction.SetHeatSetpoint) then
    run (smartrent.async_set_heating_setpoint remote actionValue)
  else if bool_decide (thermostatAction = indigo.kThermostatAction.DecreaseCoolSetpoint) then
    value ← lift (__sub__ (indigo.coolSetpoint device) actionValue);
    run (smartrent.async_set_cooling_setpoint remote value)
  else if bool_decide (thermostatAction = indigo.kThermostatAction.IncreaseCoolSetpoint) then
    value ← lift (__add__ (indigo.coolSetpoint device) actionValue);
    run (smartrent.async_set_cooling_setpoint remote value)
  else if bool_decide (thermostatAction = indigo.kThermostatAction.DecreaseHeatSetpoint) then
    value ← lift (__sub__ (indigo.heatSetpoint device) actionValue);
    run (smartrent.async_set_heating_setpoint remote value)
  else if bool_decide (thermostatAction = indigo.kThermostatAction.IncreaseHeatSetpoint) then
    value ← lift (__add__ (indigo.heatSetpoint device) actionValue);
    run (smartrent.async_set_heating_setpoint remote value)
  else mret tt.

(** ** MARK: Callbacks *)

(** [generate_2fa_code]: the code written to the [tfa-code] field of the
    dialog, with the reading of the clock as an argument.  A dialog without
    a [tfa-secret] field hands [None] to [TOTP], whose secret then has no
    length. *)
Definition generate_2fa_code (valuesDict : gmap string string) (clock : Z)
    : result (gmap string string) :=
  match valuesDict !! "tfa-secret" with
  | Some secret =>
      rbind (pyotp.now (pyotp.new secret) clock) (fun code =>
      Ok (<["tfa-code" := code]> valuesDict))
  | None => Raise (TypeError "object of type 'NoneType' has no len()")
  end.

(** ** Running a method *)

Definition outcome {A} (m : M A) (w : world) : result A := (m w).1.
Definition after {A} (m : M A) (w : world) : world := (m w).2.

(** ** MARK: Plugin Lifecycle *)

(** The attributes that [startup] sets besides [api]. *)
Record Credentials : Type := {
  email : option string;
  password : option string;
  tfa_secret : option string;
  tfa_token : option OTP.t
}.

(** [self.logger.<level>(msg)] on the plugin object alone. *)
Definition Plugin_log (l : level) (msg : string) (args : list log_arg)
    (p : Plugin) : Plugin :=
  {| api := api p;
     logger := logger p ++ [{| levelname := l; msg := msg; args := args |}];
     loop := loop p;
     update_callbacks := update_callbacks p |}.

Definition Plugin_set_api (devices : list smartrent.Device) (p : Plugin)
    : Plugin :=
  {| api := Some devices; logger := logger p; loop := loop p;
     update_callbacks := update_callbacks p |}.

(** [not x] for the value of [pluginPrefs.get(key)]: a missing preference
    and the empty string are false. *)
Definition not_set (v : option string) : bool :=
  match v with
  | None => true
  | Some s => negb (truthy (PyStr s))
  end.

(** [self.run(coro)] on the plugin object alone. *)
Definition Plugin_run (coro : smartrent.coroutine) (p : Plugin) : Plugin :=
  {| api := api p; logger := logger p; loop := loop p ++ [coro];
     update_callbacks := update_callbacks p |}.

(** [startup].  The login is submitted with [self.run] like every other
    coroutine, and [startup] then waits for it: [api_login.result()]
    returns what the coroutine returned or raises what it raised.  What the
    client library answers is the argument [login], a function of the
    arguments of the call; the session that [startup] opens hands every
    request body to [OTPEncoder], which is where the token becomes a
    code. *)
Definition startup
    (login : string -> string -> OTP.t -> result (list smartrent.Device))
    (pluginPrefs : gmap string string) (self : Plugin)
    : result unit * Plugin * Credentials :=
  let self := Plugin_log DEBUG "Starting SmartRent..." [] self in
  let email := pluginPrefs !! "email" in
  let password := pluginPrefs !! "password" in
  let tfa_secret := pluginPrefs !! "tfa-secret" in
  match email, password, tfa_secret with
  | Some e, Some p, Some s =>
      if not_set email || not_set password || not_set tfa_secret then
        (Ok tt,
         Plugin_log ERROR
           "The email, password, and 2FA secrets are not configured!" [] self,
         {| email := email; password := password; tfa_secret := tfa_secret;
            tfa_token := None |})
      else
        let tfa_token := OTP.__init__ s in
        let self := Plugin_log INFO "Connecting to SmartRent API..." [] self in
        let attrs :=
          {| email := email; password := password; tfa_secret := tfa_secret;
             tfa_token := Some tfa_token |} in
        let self := Plugin_run (smartrent.async_login e p tfa_token) self in
        match login e p tfa_token with
        | inl exception => (Raise exception, self, attrs)
        | inr devices =>
            (Ok tt,
             Plugin_log INFO "Successfully connected to SmartRent API!" []
               (Plugin_set_api devices self),
             attrs)
        end
  | _, _, _ =>
      (Ok tt,
       Plugin_log ERROR
         "The email, password, and 2FA secrets are not configured!" [] self,
       {| email := email; password := password; tfa_secret := tfa_secret;
          tfa_token := None |})
  end.

Definition shutdown (self : Plugin) : Plugin :=
  Plugin_log DEBUG "Stopping SmartRent..." [] self.

(** [deviceStopComm] *)
Definition deviceStopComm : M unit :=
  device ← get_device;
  log DEBUG "Stopping {}..." [ArgStr (indigo.name device)].

(** ** MARK: UI Validation *)

(** What a validation method returns: [True], or the triple
    [(False, valuesDict, errors)]. *)
Inductive validation : Type :=
  | Valid
  | Invalid (valuesDict errors : gmap string string).

Definition validatePrefsConfigUi (valuesDict : gmap string string) : validation :=
  let required_fields := ["email"; "password"; "tfa-secret"] in
  let errors :=
    fold_left
      (fun (errors : gmap string string) field =>
         if (String.length (default "" (valuesDict !! field)) =? 0)%nat
         then <[field := "A value is required!"]> errors
         else errors)
      required_fields ∅ in
  if (size errors =? 0)%nat then Valid else Invalid valuesDict errors.

(** ** MARK: Utilities *)

(** [setLogLevel(level)]: the plugin object and the level of
    [self.indigo_log_handler] before, and after. *)
Definition setLogLevel (level_name : string) (self : Plugin) (handler : level)
    : Plugin * level :=
  let valid_log_levels := ["debug"; "info"; "warning"] in
  let self :=
    if negb (bool_decide (level_name ∈ valid_log_levels)) then
      Plugin_log ERROR
        "Attempted to set the log level to an unhandled value: {}"
        [ArgStr level_name] self
    else self in
  if bool_decide (level_name = "debug") then
    (Plugin_log DEBUG "Log level set to debug" [] self, DEBUG)
  else if bool_decide (level_name = "info") then
    (Plugin_log INFO "Log level set to info" [] self, INFO)
  else if bool_decide (level_name = "warning") then
    (Plugin_log WARNING "Log level set to warning" [] self, WARNING)
  else (self, handler).

(** ** MARK: UI Close *)

Definition closedPrefsConfigUi (valuesDict : gmap string string)
    (userCancelled : bool) (self : Plugin) (handler : level) : Plugin * level :=
  if userCancelled then (self, handler)
  else
    let '(self, handler) :=
      setLogLevel (default "info" (valuesDict !! "log-level")) self handler in
    (Plugin_log INFO "Restart the plugin if credentials have changed." [] self,
     handler).

(** ** MARK: List Generators *)

(** [s.split(",")] on the characters of a string: [cur] holds the piece
    being read, last character first. *)
Fixpoint split_comma (cur : list ascii) (s : list ascii) : list (list ascii) :=
  match s with
  | [] => [rev cur]
  | c :: s' =>
      if bool_decide (c = ","%char) then rev cur :: split_comma [] s'
      else split_comma (c :: cur) s'
  end.

(** [item.strip()]: the white space that [str.strip] removes from both
    ends is that of [Py_UNICODE_ISSPACE], read on the code points of the
    string. *)
Fixpoint str_lstrip (s : list N) : list N :=
  match s with
  | [] => []
  | c :: s' => if unicode.Py_UNICODE_ISSPACE c then str_lstrip s' else s
  end.

Definition str_strip (s : list ascii) : list ascii :=
  unicode.of_code_points
    (rev (str_lstrip (rev (str_lstrip (unicode.code_points s))))).

(** The typed accessors of the client library: the devices of the
    directory that are of one class, in the order of the directory. *)
Definition get_locks (devices : list smartrent.Device) : list smartrent.Device :=
  filter (fun d => isinstance_DoorLock d = true) devices.

Definition get_thermostats (devices : list smartrent.Device)
    : list smartrent.Device :=
  filter (fun d => isinstance_Thermostat d = true) devices.

Definition isinstance_BinarySwitch (d : smartrent.Device) : bool :=
  match smartrent.class d with
  | smartrent.IsBinarySwitch => true
  | _ => false
  end.

Definition isinstance_MultilevelSwitch (d : smartrent.Device) : bool :=
  match smartrent.class d with
  | smartrent.IsMultilevelSwitch => true
  | _ => false
  end.

Definition isinstance_LeakSensor (d : smartrent.Device) : bool :=
  match smartrent.class d with
  | smartrent.IsLeakSensor => true
  | _ => false
  end.

Definition isinstance_MotionSensor (d : smartrent.Device) : bool :=
  match smartrent.class d with
  | smartrent.IsMotionSensor => true
  | _ => false
  end.

Definition get_binary_switches (devices : list smartrent.Device)
    : list smartrent.Device :=
  filter (fun d => isinstance_BinarySwitch d = true) devices.

Definition get_multilevel_switches (devices : list smartrent.Device)
    : list smartrent.Device :=
  filter (fun d => isinstance_MultilevelSwitch d = true) devices.

Definition get_leak_sensors (devices : list smartrent.Device)
    : list smartrent.Device :=
  filter (fun d => isinstance_LeakSensor d = true) devices.

Definition get_motion_sensors (devices : list smartrent.Device)
    : list smartrent.Device :=
  filter (fun d => isinstance_MotionSensor d = true) devices.

(** [get_smartrent_devices(filter)].  [self.api] is either unset, and
    reading it raises, or the object that the login returned, which is not
    [None]. *)
Definition get_smartrent_devices (filter_ : string) (self : Plugin)
    : result (list (Z * string)) :=
  match api self with
  | None => Raise (AttributeError "api")
  | Some directory =>
      let filter_ :=
        map (fun item => string_of_list_ascii (str_strip item))
            (split_comma [] (list_ascii_of_string filter_)) in
      let devices :=
        if (length filter_ =? 0)%nat then directory
        else
          (if bool_decide ("lock" ∈ filter_) then get_locks directory else [])
          ++ (if bool_decide ("thermostat" ∈ filter_)
              then get_thermostats directory else [])
          ++ (if bool_decide ("binary_switch" ∈ filter_)
              then get_binary_switches directory else [])
          ++ (if bool_decide ("multilevel_switch" ∈ filter_)
              then get_multilevel_switches directory else [])
          ++ (if bool_decide ("leak_sensor" ∈ filter_)
              then get_leak_sensors directory else [])
          ++ (if bool_decide ("motion_sensor" ∈ filter_)
              then get_motion_sensors directory else []) in
      if (length devices =? 0)%nat then
        Ok [(-1, "%%disabled:No SmartRent devices found!%%")]
      else
        Ok (map (fun device =>
                   (smartrent._device_id device, smartrent.get_name device))
                devices)
  end.

(** * Vocabulary of the statements *)

(** The identifier a device declares: the argument of the lookup. *)
Definition declared_binding (d : indigo.Device) : result Z :=
  int (default (PyInt 0) (PyStr <$> indigo.pluginProps d !! "smartrent-device")).

(** The plugin is logged in, with directory [devices], and no device of the
    directory has the identifier that the Indigo device declares. *)
Definition unbound (w : world) (devices : list smartrent.Device) : Prop :=
  api (self w) = Some devices /\
  forall i, declared_binding (device w) = Ok i ->
    Forall (fun r => smartrent._device_id r <> i) devices.

(** The SmartRent device a synchronisation works on: its argument, or the
    device the lookup returns when it is called without one. *)
Definition resolves (w : world) (smartrent_device : option smartrent.Device)
    (r : smartrent.Device) : Prop :=
  match smartrent_device with
  | Some d => d = r
  | None => outcome get_smartrent_device_for_device w = Ok r
  end.

(** The declared type of the Indigo device is [thermostat] or [lock] and
    the SmartRent device is not of that class. *)
Definition category_mismatch (d : indigo.Device) (r : smartrent.Device) : bool :=
  bool_decide (indigo.deviceTypeId d = "thermostat")
    && negb (isinstance_Thermostat r)
  || bool_decide (indigo.deviceTypeId d = "lock")
    && negb (isinstance_DoorLock r).

(** The message of the [TypeError] of a mismatch. *)
Definition mismatch_message (d : indigo.Device) : string :=
  if bool_decide (indigo.deviceTypeId d = "thermostat")
  then "Thermostat '" +:+ indigo.name d
         +:+ "' not linked with a SmartRent thermostat!"
  else "Thermostat '" +:+ indigo.name d
         +:+ "' not linked with a SmartRent lock!".

(** The time-step of a reading of the clock, for the interval of 30 s. *)
Definition time_step (clock : Z) : Z := clock `div` 30.

(** The states a synchronisation writes in one call of
    [updateStatesOnServer]. *)
Definition write_all (updates : list (string * indigo.state_value))
    (st : gmap string indigo.state) : gmap string indigo.state :=
  fold_left (fun acc kv => <[kv.1 := (kv.2, None)]> acc) updates st.

(** *** Sample objects *)

Definition scenario_thermostat : smartrent.Thermostat :=
  {| smartrent.get_current_humidity := PyInt 40;
     smartrent.get_current_temp := PyInt 66;
     smartrent.get_cooling_setpoint := PyInt 72;
     smartrent.get_heating_setpoint := PyInt 68;
     smartrent.get_mode := PyStr "heat";
     smartrent.get_fan_mode := PyStr "auto";
     smartrent.get_operating_state := PyStr "heating" |}.

Definition hall_thermostat : smartrent.Device :=
  {| smartrent._device_id := 7;
     smartrent.get_name := "Hall";
     smartrent.get_online := PyBool true;
     smartrent.class := smartrent.IsThermostat scenario_thermostat |}.

Definition front_door (locked : bool) : smartrent.Device :=
  {| smartrent._device_id := 12;
     smartrent.get_name := "Front door";
     smartrent.get_online := PyBool true;
     smartrent.class := smartrent.IsDoorLock
       {| smartrent.get_locked := PyBool locked;
          smartrent.get_battery_level := PyInt 85 |} |}.

Definition indigo_device (type binding : string) : indigo.Device :=
  {| indigo.id := 1001;
     indigo.name := "Indigo device";
     indigo.deviceTypeId := type;
     indigo.pluginProps := {[ "smartrent-device" := binding ]};
     indigo.states := {[ "note" := (indigo.Val (PyStr "kept"), None) ]};
     indigo.stateImage := None |}.

Definition logged_in : Plugin :=
  {| api := Some [hall_thermostat; front_door true];
     logger := [];
     loop := [];
     update_callbacks := [] |}.

Definition sample_world (type binding : string) : world :=
  {| self := logged_in; device := indigo_device type binding |}.

(** *** One-time codes *)

(** A secret is valid when it decodes as base32. *)
Definition valid_secret (secret : string) : Prop :=
  exists key, pyotp.byte_secret (pyotp.new secret) = Ok key.

Definition is_valid_secret (secret : string) : bool :=
  match pyotp.byte_secret (pyotp.new secret) with
  | inr _ => true
  | inl _ => false
  end.

(** The one-time code of a secret for the time-step of a reading of the
    clock. *)
Definition current_code (secret : string) (clock : Z) : result string :=
  pyotp.generate_otp (pyotp.new secret) (time_step clock).

(** The specification of the encoder: the document is the payload in which
    every [OTP] object is replaced by the string of its current code, and
    everything else is kept. *)
#[local] Unset Elimination Schemes.

Inductive replaced (clock : Z) : pyobj -> json -> Prop :=
  | replaced_None : replaced clock ONone JNull
  | replaced_Bool b : replaced clock (OBool b) (JBool b)
  | replaced_Int z : replaced clock (OInt z) (JNumber z)
  | replaced_Str s : replaced clock (OStr s) (JString s)
  | replaced_List items js :
      Forall2 (replaced clock) items js ->
      replaced clock (OList items) (JArray js)
  | replaced_Dict items js :
      Forall2 (fun kv kj => kv.1 = kj.1 /\ replaced clock kv.2 kj.2) items js ->
      replaced clock (ODict items) (JObject js)
  | replaced_OTP o code :
      current_code (pyotp.secret (OTP._totp o)) clock = Ok code ->
      replaced clock (OOTP o) (JString code).

#[local] Set Elimination Schemes.

(** A payload that the encoder can write: its objects are of the JSON types
    or [OTP] objects with a valid secret. *)
Fixpoint serialisable (o : pyobj) : bool :=
  match o with
  | ONone | OBool _ | OInt _ | OStr _ => true
  | OList items => forallb serialisable items
  | ODict items => forallb (fun kv => serialisable kv.2) items
  | OOTP otp => is_valid_secret (pyotp.secret (OTP._totp otp))
  | OObject _ => false
  end.

(** The payload of a login: the one-time code is a field of the body. *)
Definition login_payload (secret : string) : pyobj :=
  ODict [ ("email", OStr "resident@example.org");
          ("password", OStr "hunter2");
          ("tfa", ODict [ ("token", OOTP (OTP.__init__ secret)) ]) ].

(** *** Vocabulary for the rest of the plugin *)

(** The SmartRent device a coroutine is called on; the login is called on
    none. *)
Definition coroutine_device (c : smartrent.coroutine) : option Z :=
  match c with
  | smartrent.async_login _ _ _ => None
  | smartrent.async_set_locked d _
  | smartrent._async_fetch_state d
  | smartrent.async_set_mode d _
  | smartrent.async_set_fan_mode d _
  | smartrent.async_set_cooling_setpoint d _
  | smartrent.async_set_heating_setpoint d _
  | smartrent._start_updater d => Some d
  end.

(** The states that a synchronisation of a thermostat, and of a lock, can
    write. *)
Definition thermostat_keys : list string :=
  [ "online"; "humidityInput1"; "hvacCoolerIsOn"; "hvacFanMode";
    "hvacHeaterIsOn"; "hvacOperationMode"; "setpointCool"; "setpointHeat";
    "temperatureInput1" ].

Definition lock_keys : list string :=
  [ "online"; "batteryLevel"; "onOffState"; "lockStatus" ].

(** The numeric levels of the [logging] module; a handler lets a record
    through when the level of the record is at least its own. *)
Definition levelno (l : level) : Z :=
  match l with
  | DEBUG => 10
  | INFO => 20
  | WARNING => 30
  | ERROR => 40
  end.

Definition emitted (handler : level) (r : LogRecord) : bool :=
  levelno handler <=? levelno (levelname r).

(** The records that a method added to the log. *)
Definition new_records (before after : Plugin) : list LogRecord :=
  drop (length (logger before)) (logger after).

(** A login that succeeds with a fixed directory, and one that fails. *)
Definition login_ok (devices : list smartrent.Device)
    : string -> string -> OTP.t -> result (list smartrent.Device) :=
  fun _ _ _ => Ok devices.

Definition login_refused
    : string -> string -> OTP.t -> result (list smartrent.Device) :=
  fun _ _ _ => Raise ValueError.

Definition fresh_plugin : Plugin :=
  {| api := None; logger := []; loop := []; update_callbacks := [] |}.

Definition sample_prefs : gmap string string :=
  {[ "email" := "resident@example.org";
     "password" := "hunter2";
     "tfa-secret" := "JBSWY3DPEHPK3PXP" ]}.

(** A thermostat whose attributes have not been fetched yet. *)
Definition blank_thermostat : smartrent.Device :=
  {| smartrent._device_id := 7;
     smartrent.get_name := "Hall";
     smartrent.get_online := PyNone;
     smartrent.class := smartrent.IsThermostat
       {| smartrent.get_current_humidity := PyNone;
          smartrent.get_current_temp := PyNone;
          smartrent.get_cooling_setpoint := PyNone;
          smartrent.get_heating_setpoint := PyNone;
          smartrent.get_mode := PyNone;
          smartrent.get_fan_mode := PyNone;
          smartrent.get_operating_state := PyNone |} |}.

Definition thermostat_action (a : indigo.kThermostatAction.t) (m : indigo.mode)
    (v : Z) : indigo.ThermostatAction.t :=
  {| indigo.ThermostatAction.thermostatAction := a;
     indigo.ThermostatAction.actionMode := m;
     indigo.ThermostatAction.actionValue := v |}.

(** The states that a successful synchronisation hands to
    [updateStatesOnServer], in the order of the dictionary: for a
    thermostat with the Indigo fan mode [fan] and mode [mode], and for a
    lock. *)
Definition thermostat_updates (r : smartrent.Device) (t : smartrent.Thermostat)
    (fan : indigo.kFanMode.t) (mode : indigo.kHvacMode.t)
    : list (string * indigo.state_value) :=
  [ ("online", indigo.Val (smartrent.get_online r));
    ("humidityInput1", indigo.Val (smartrent.get_current_humidity t));
    ("hvacCoolerIsOn",
       indigo.Val (PyBool (eq_str (smartrent.get_operating_state t) "cooling")));
    ("hvacFanMode", indigo.Mode (indigo.FanMode fan));
    ("hvacHeaterIsOn",
       indigo.Val (PyBool (eq_str (smartrent.get_operating_state t) "heating")));
    ("hvacOperationMode", indigo.Mode (indigo.HvacMode mode));
    ("setpointCool", indigo.Val (smartrent.get_cooling_setpoint t));
    ("setpointHeat", indigo.Val (smartrent.get_heating_setpoint t));
    ("temperatureInput1", indigo.Val (smartrent.get_current_temp t)) ].

Definition lock_updates (r : smartrent.Device) (l : smartrent.DoorLock)
    : list (string * indigo.state_value) :=
  [ ("online", indigo.Val (smartrent.get_online r));
    ("batteryLevel", indigo.Val (smartrent.get_battery_level l));
    ("onOffState", indigo.Val (smartrent.get_locked l)) ].

(** The world after the debug record of a synchronisation. *)
Definition received (r : smartrent.Device) (w : world) : world :=
  {| self := Plugin_log DEBUG "Received device update: {}" [ArgVars r] (self w);
     device := device w |}.

(** What an action handler may do to the world [w]: it leaves the device,
    the directory and the update handlers alone, and either submits one
    coroutine, on the device that the binding resolves to, or logs one
    record, or does nothing. *)
Definition well_behaved_action (m : M unit) (w : world) : Prop :=
  let w' := after m w in
  device w' = device w
  /\ api (self w') = api (self w)
  /\ update_callbacks (self w') = update_callbacks (self w)
  /\ exists submitted logged,
       loop (self w') = loop (self w) ++ submitted
       /\ logger (self w') = logger (self w) ++ logged
       /\ (length submitted + length logged <= 1)%nat
       /\ forall c r,
            c ∈ submitted ->
            outcome get_smartrent_device_for_device w = Ok r ->
            coroutine_device c = Some (smartrent._device_id r).

(** A required preference is missing when it is absent or empty. *)
Definition missing (valuesDict : gmap string string) (field : string) : Prop :=
  default "" (valuesDict !! field) = "".

Definition required_fields : list string := ["email"; "password"; "tfa-secret"].

(** The items of a filter, as [get_smartrent_devices] reads them. *)
Definition filter_items (filter_ : string) : list string :=
  map (fun item => string_of_list_ascii (str_strip item))
      (split_comma [] (list_ascii_of_string filter_)).

(** The name of a class of SmartRent devices in a filter. *)
Definition class_keyword (c : smartrent.device_class) : string :=
  match c with
  | smartrent.IsThermostat _ => "thermostat"
  | smartrent.IsDoorLock _ => "lock"
  | smartrent.IsLeakSensor => "leak_sensor"
  | smartrent.IsBinarySwitch => "binary_switch"
  | smartrent.IsMultilevelSwitch => "multilevel_switch"
  | smartrent.IsMotionSensor => "motion_sensor"
  end.

Definition selected (filter_ : string) (d : smartrent.Device) : Prop :=
  class_keyword (smartrent.class d) ∈ filter_items filter_.

Definition no_devices_found : Z * string :=
  (-1, "%%disabled:No SmartRent devices found!%%").

(** A string in upper case, letter by letter as [bytes.upper] does it. *)
Definition str_upper (s : string) : string :=
  string_of_list_ascii
    (map (fun c => ascii_of_N (Z.to_N (base64.upper (Z.of_N (N_of_ascii c)))))
         (list_ascii_of_string s)).

(** * Properties *)

(** ** The library model against published test vectors *)

(** FIPS 180 examples for SHA-1. *)
Example SHA1_abc :
  hexdigest (SHA1.digest (bytes_of_string "abc"))
  = "a9993e364706816aba3e25717850c26c9cd0d89d".
Proof. vm_compute. reflexivity. Qed.

Example SHA1_two_blocks :
  hexdigest (SHA1.digest (bytes_of_string
    "abcdbcdecdefdefgefghfghighijhijkijkljklmklmnlmnomnopnopq"))
  = "84983e441c3bd26ebaae4aa1f95129e5e54670f1".
Proof. vm_compute. reflexivity. Qed.

(** RFC 4226, appendix D: the codes of the secret [12345678901234567890],
    here in base32, for the counters 0 to 9. *)
Example HOTP_rfc4226 :
  map (pyotp.generate_otp (pyotp.new "GEZDGNBVGY3TQOJQGEZDGNBVGY3TQOJQ"))
      [0; 1; 2; 3; 4; 5; 6; 7; 8; 9]
  = map Ok [ "755224"; "287082"; "359152"; "969429"; "338314";
             "254676"; "287922"; "162583"; "399871"; "520489" ].
Proof. vm_compute. reflexivity. Qed.

(** RFC 6238, appendix B (SHA-1 rows, last six digits). *)
Example TOTP_rfc6238 :
  map (pyotp.now (pyotp.new "GEZDGNBVGY3TQOJQGEZDGNBVGY3TQOJQ"))
      [59; 1111111109; 1111111111; 1234567890; 2000000000]
  = map Ok [ "287082"; "081804"; "050471"; "005924"; "279037" ].
Proof. vm_compute. reflexivity. Qed.

(** A secret with a character outside the base32 alphabet, or of a length
    that no padding completes, has no code. *)
Example TOTP_invalid_secret :
  pyotp.now (pyotp.new "JBSWY3D1") 59 = Raise ValueError
  /\ pyotp.now (pyotp.new "JBSWY3DPEHPK3P") 59 = Raise ValueError.
Proof. vm_compute. split; reflexivity. Qed.

Example int_of_str_examples :
  int (PyStr " 42 ") = Ok 42
  /\ int (PyStr "-1_000") = Ok (-1000)
  /\ int (PyStr "") = Raise ValueError
  /\ int (PyStr "4 2") = Raise ValueError
  /\ int (PyStr "1__0") = Raise ValueError.
Proof. vm_compute. repeat split; reflexivity. Qed.

(** Digits and white space outside ASCII: full-width and Arabic-Indic
    digits, and a no-break space; a superscript two is no decimal digit. *)
Example int_of_str_unicode :
  int (PyStr "１２") = Ok 12
  /\ int (PyStr "٤٢") = Ok 42
  /\ int (PyStr " 7") = Ok 7
  /\ int (PyStr "²") = Raise ValueError
  /\ int (PyStr "é") = Raise ValueError.
Proof. vm_compute. repeat split; reflexivity. Qed.

(** A binding written with full-width digits is the identifier 12. *)
Example get_smartrent_device_for_device_full_width :
  outcome get_smartrent_device_for_device (sample_world "lock" "１２")
  = Ok (front_door true).
Proof. vm_compute. reflexivity. Qed.

(** ** The binding lookup *)

Lemma int_str_or_int (v : option string) :
  int (default (PyInt 0) (PyStr <$> v)) = Raise ValueError \/
  exists i, int (default (PyInt 0) (PyStr <$> v)) = Ok i.
Proof.
  destruct v as [s|]; cbn.
  - unfold int_of_str, PyLong_FromString. cbv zeta. case_match; eauto.
  - eauto.
Qed.

Lemma first_filter_none (i : Z) (devices : list smartrent.Device) :
  Forall (fun r => smartrent._device_id r <> i) devices ->
  first (filter (fun d => smartrent._device_id d = i) devices) = Raise ValueError.
Proof.
  induction 1 as [|r l Hr _ IH]; [reflexivity|].
  rewrite filter_cons_False by exact Hr. exact IH.
Qed.

Ltac unfold_M :=
  unfold mbind, M_bind, mret, M_ret, get_device, get_self, lift, raise,
    modify_device, modify_self.

(** The lookup reads the plugin and the device and changes neither. *)
Lemma get_smartrent_device_for_device_frame (w : world) :
  (get_smartrent_device_for_device w).2 = w.
Proof.
  unfold get_smartrent_device_for_device. unfold_M.
  cbn. repeat case_match; simplify_eq/=; reflexivity.
Qed.

Lemma get_smartrent_device_for_device_unbound (w : world) devices :
  unbound w devices ->
  get_smartrent_device_for_device w = (Raise ValueError, w).
Proof.
  intros [Hapi Hnone].
  unfold get_smartrent_device_for_device. unfold_M. cbn.
  unfold declared_binding in Hnone.
  destruct (int_str_or_int (indigo.pluginProps (device w) !! "smartrent-device"))
    as [E|[i E]]; rewrite E.
  - reflexivity.
  - cbn. rewrite Hapi. cbn. rewrite (first_filter_none i devices (Hnone i E)).
    reflexivity.
Qed.

(** Its outcome depends on the directory of the plugin and on the properties
    of the device only. *)
Lemma get_smartrent_device_for_device_ext (w w' : world) :
  api (self w) = api (self w') ->
  indigo.pluginProps (device w) = indigo.pluginProps (device w') ->
  outcome get_smartrent_device_for_device w
  = outcome get_smartrent_device_for_device w'.
Proof.
  intros Ha Hp. unfold outcome, get_smartrent_device_for_device. unfold_M.
  cbn. rewrite Ha, Hp.
  destruct (int _); [reflexivity|].
  destruct (api (self w')); reflexivity.
Qed.

(** ** C4: a device whose binding does not resolve does not start *)

(** C4.  If no device of the remote directory has the identifier that the
    local device declares, [deviceStartComm] returns [False]; the device,
    and with it its state vector, is left as it was, no coroutine is
    submitted and no update handler is installed; the failure is logged as
    an error after the debug record of the start. *)
Theorem deviceStartComm_unbound (w : world) (devices : list smartrent.Device) :
  unbound w devices ->
  outcome deviceStartComm w = Ok (PyBool false)
  /\ device (after deviceStartComm w) = device w
  /\ loop (self (after deviceStartComm w)) = loop (self w)
  /\ update_callbacks (self (after deviceStartComm w)) = update_callbacks (self w)
  /\ logger (self (after deviceStartComm w))
     = logger (self w)
       ++ [ {| levelname := DEBUG; msg := "Starting {}...";
               args := [ArgStr (indigo.name (device w))] |};
            {| levelname := ERROR; msg := "No SmartRent device linked to '{}'!";
               args := [ArgStr (indigo.name (device w))] |} ].
Proof.
  intros Hu.
  assert (Hu' : unbound
    {| self := {| api := api (self w);
                  logger := logger (self w)
                    ++ [ {| levelname := DEBUG; msg := "Starting {}...";
                            args := [ArgStr (indigo.name (device w))] |} ];
                  loop := loop (self w);
                  update_callbacks := update_callbacks (self w) |};
       device := device w |} devices).
  { destruct Hu as [Ha Hb]. split; [exact Ha | exact Hb]. }
  unfold outcome, after, deviceStartComm, try_except_ValueError, log.
  unfold_M. cbn.
  rewrite (get_smartrent_device_for_device_unbound _ _ Hu'). cbn.
  rewrite <- app_assoc. repeat split; reflexivity.
Qed.

Lemma deviceStartComm_unbound_witness :
  unbound (sample_world "thermostat" "9") [hall_thermostat; front_door true]
  /\ outcome deviceStartComm (sample_world "thermostat" "9") = Ok (PyBool false)
  /\ device (after deviceStartComm (sample_world "thermostat" "9"))
     = indigo_device "thermostat" "9".
Proof.
  assert (H : unbound (sample_world "thermostat" "9")
                [hall_thermostat; front_door true]).
  { split; [reflexivity|]. intros i Hi. vm_compute in Hi.
    injection Hi as <-. repeat constructor; vm_compute; discriminate. }
  split; [exact H|].
  destruct (deviceStartComm_unbound _ _ H) as (H1 & H2 & _).
  split; [exact H1 | exact H2].
Defined.

(** ** C10: the action handlers let the failed lookup through *)

(** C10.  On a device whose binding does not resolve, each of the three
    action handlers raises the [ValueError] of the lookup: nothing is
    logged, no coroutine is submitted, the plugin and the device are as
    before.  [deviceStartComm] is the one caller that catches the error: it
    returns [False]. *)
Theorem action_handlers_propagate_ValueError (w : world)
    (devices : list smartrent.Device) :
  unbound w devices ->
  (forall action,
     actionControlDevice action w = (Raise ValueError, w))
  /\ (forall action,
     actionControlUniversal action w = (Raise ValueError, w))
  /\ (forall action,
     actionControlThermostat action w = (Raise ValueError, w))
  /\ outcome deviceStartComm w = Ok (PyBool false).
Proof.
  intros Hu.
  pose proof (get_smartrent_device_for_device_unbound _ _ Hu) as E.
  repeat split.
  - intros action. unfold actionControlDevice. unfold_M. rewrite E. reflexivity.
  - intros action. unfold actionControlUniversal. unfold_M. rewrite E.
    reflexivity.
  - intros action. unfold actionControlThermostat. unfold_M. rewrite E.
    reflexivity.
  - unfold outcome, deviceStartComm, try_except_ValueError, log.
    unfold_M. cbn.
    rewrite (get_smartrent_device_for_device_unbound _ devices).
    + reflexivity.
    + destruct Hu as [Ha Hb]. split; [exact Ha | exact Hb].
Qed.

Lemma action_handlers_propagate_ValueError_witness :
  unbound (sample_world "lock" "not a number") [hall_thermostat; front_door true]
  /\ actionControlDevice
       {| indigo.DeviceAction.deviceAction := indigo.kDeviceAction.TurnOn |}
       (sample_world "lock" "not a number")
     = (Raise ValueError, sample_world "lock" "not a number").
Proof.
  assert (H : unbound (sample_world "lock" "not a number")
                [hall_thermostat; front_door true]).
  { split; [reflexivity|]. intros i Hi. vm_compute in Hi. discriminate Hi. }
  split; [exact H|].
  destruct (action_handlers_propagate_ValueError _ _ H) as (H1 & _).
  apply H1.
Defined.

(** ** The synchroniser *)

Lemma get_smartrent_device_for_device_resolved (w : world) r :
  outcome get_smartrent_device_for_device w = Ok r ->
  get_smartrent_device_for_device w = (Ok r, w).
Proof.
  intros H. pose proof (get_smartrent_device_for_device_frame w) as F.
  unfold outcome in H. destruct (get_smartrent_device_for_device w) as [o w'].
  cbn in *. congruence.
Qed.

(** A call without SmartRent device works on the device the lookup finds. *)
Lemma update_device_from_smartrent_resolved (w : world) sr r :
  resolves w sr r ->
  update_device_from_smartrent sr w = update_device_from_smartrent (Some r) w.
Proof.
  destruct sr as [d|]; cbn; intros H.
  - by subst.
  - unfold update_device_from_smartrent. unfold_M.
    rewrite (get_smartrent_device_for_device_resolved _ _ H). reflexivity.
Qed.

Ltac unfold_sync :=
  unfold outcome, after, update_device_from_smartrent, updateStatesOnServer,
    updateStateOnServer, updateStateImageOnServer, log;
  unfold_M; cbn.

(** ** C7: a device of another type *)

(** C7.  For a local device whose declared type is neither [thermostat] nor
    [lock], a synchronisation returns normally and writes the state
    [online], from the online flag of the SmartRent device, and nothing
    else: every other state, the state image and the other fields of the
    device are as before. *)
Theorem update_device_from_smartrent_other_type (w : world) sr r :
  indigo.deviceTypeId (device w) <> "thermostat" ->
  indigo.deviceTypeId (device w) <> "lock" ->
  resolves w sr r ->
  outcome (update_device_from_smartrent sr) w = Ok tt
  /\ device (after (update_device_from_smartrent sr) w)
     = indigo.set_states
         (insert "online" (indigo.Val (smartrent.get_online r), None))
         (device w)
  /\ (forall key, key <> "online" ->
        indigo.states (device (after (update_device_from_smartrent sr) w)) !! key
        = indigo.states (device w) !! key)
  /\ indigo.stateImage (device (after (update_device_from_smartrent sr) w))
     = indigo.stateImage (device w).
Proof.
  intros Ht Hl Hr. unfold outcome, after.
  rewrite (update_device_from_smartrent_resolved _ _ _ Hr).
  unfold_sync.
  rewrite (bool_decide_eq_false_2 _ Ht), (bool_decide_eq_false_2 _ Hl). cbn.
  repeat split.
  intros key Hk. by rewrite lookup_insert_ne.
Qed.

Lemma update_device_from_smartrent_other_type_witness :
  indigo.states
    (device (after (update_device_from_smartrent (Some hall_thermostat))
                   (sample_world "leak_sensor" "7")))
  = <[ "online" := (indigo.Val (PyBool true), None) ]>
      {[ "note" := (indigo.Val (PyStr "kept"), None) ]}.
Proof.
  assert (H1 : indigo.deviceTypeId (device (sample_world "leak_sensor" "7"))
               <> "thermostat") by (vm_compute; discriminate).
  assert (H2 : indigo.deviceTypeId (device (sample_world "leak_sensor" "7"))
               <> "lock") by (vm_compute; discriminate).
  destruct (update_device_from_smartrent_other_type
              (sample_world "leak_sensor" "7") (Some hall_thermostat)
              hall_thermostat H1 H2 eq_refl) as (_ & E & _).
  rewrite E. reflexivity.
Defined.

(** ** C1: the thermostat scenario *)

(** C1.  A local device of type [thermostat], synchronised with a SmartRent
    thermostat that reports mode [heat], fan mode [auto], operating state
    [heating], cooling setpoint 72, heating setpoint 68, temperature 66 and
    humidity 40: the call returns normally, and afterwards the states hold
    [hvacOperationMode = Heat], [hvacFanMode = Auto], [hvacHeaterIsOn = True],
    [hvacCoolerIsOn = False], [setpointCool = 72], [setpointHeat = 68],
    [temperatureInput1 = 66] and [humidityInput1 = 40] (and [online]). *)
Theorem update_device_from_smartrent_thermostat_scenario (w : world) sr r :
  indigo.deviceTypeId (device w) = "thermostat" ->
  resolves w sr r ->
  smartrent.class r = smartrent.IsThermostat scenario_thermostat ->
  let st := indigo.states (device (after (update_device_from_smartrent sr) w)) in
  outcome (update_device_from_smartrent sr) w = Ok tt
  /\ st !! "hvacOperationMode"
     = Some (indigo.Mode (indigo.HvacMode indigo.kHvacMode.Heat), None)
  /\ st !! "hvacFanMode"
     = Some (indigo.Mode (indigo.FanMode indigo.kFanMode.Auto), None)
  /\ st !! "hvacHeaterIsOn" = Some (indigo.Val (PyBool true), None)
  /\ st !! "hvacCoolerIsOn" = Some (indigo.Val (PyBool false), None)
  /\ st !! "setpointCool" = Some (indigo.Val (PyInt 72), None)
  /\ st !! "setpointHeat" = Some (indigo.Val (PyInt 68), None)
  /\ st !! "temperatureInput1" = Some (indigo.Val (PyInt 66), None)
  /\ st !! "humidityInput1" = Some (indigo.Val (PyInt 40), None)
  /\ st !! "online" = Some (indigo.Val (smartrent.get_online r), None)
  /\ st = write_all
            [ ("online", indigo.Val (smartrent.get_online r));
              ("humidityInput1", indigo.Val (PyInt 40));
              ("hvacCoolerIsOn", indigo.Val (PyBool false));
              ("hvacFanMode", indigo.Mode (indigo.FanMode indigo.kFanMode.Auto));
              ("hvacHeaterIsOn", indigo.Val (PyBool true));
              ("hvacOperationMode",
                 indigo.Mode (indigo.HvacMode indigo.kHvacMode.Heat));
              ("setpointCool", indigo.Val (PyInt 72));
              ("setpointHeat", indigo.Val (PyInt 68));
              ("temperatureInput1", indigo.Val (PyInt 66)) ]
            (indigo.states (device w)).
Proof.
  intros Ht Hr Hc st. subst st. unfold outcome, after.
  rewrite (update_device_from_smartrent_resolved _ _ _ Hr).
  unfold_sync. rewrite Ht, Hc. cbn.
  repeat split; by simplify_map_eq.
Qed.

Lemma update_device_from_smartrent_thermostat_scenario_witness :
  indigo.states
    (device (after (update_device_from_smartrent None)
                   (sample_world "thermostat" "7")))
  !! "hvacOperationMode"
  = Some (indigo.Mode (indigo.HvacMode indigo.kHvacMode.Heat), None).
Proof.
  assert (H1 : indigo.deviceTypeId (device (sample_world "thermostat" "7"))
               = "thermostat") by reflexivity.
  assert (H2 : resolves (sample_world "thermostat" "7") None hall_thermostat)
    by (vm_compute; reflexivity).
  exact (proj1 (proj2 (update_device_from_smartrent_thermostat_scenario
                  (sample_world "thermostat" "7") None hall_thermostat
                  H1 H2 eq_refl))).
Defined.

(** ** C3: the lock *)

(** C3.  A local device of type [lock], synchronised with a SmartRent door
    lock: when the lock reports [locked = True] the state [onOffState] is
    true, [lockStatus] is ["locked"] and the state image is [Locked]; when
    it reports [locked = False], [onOffState] is false, [lockStatus] is
    ["unlocked"] and the image is [Unlocked].  Either way [batteryLevel] is
    the battery level the lock reports, and the call returns normally. *)
Theorem update_device_from_smartrent_lock (w : world) sr r l (locked : bool) :
  indigo.deviceTypeId (device w) = "lock" ->
  resolves w sr r ->
  smartrent.class r = smartrent.IsDoorLock l ->
  smartrent.get_locked l = PyBool locked ->
  let d' := device (after (update_device_from_smartrent sr) w) in
  outcome (update_device_from_smartrent sr) w = Ok tt
  /\ indigo.states d' !! "onOffState" = Some (indigo.Val (PyBool locked), None)
  /\ indigo.states d' !! "lockStatus"
     = Some (indigo.Val (PyStr (if locked then "locked" else "unlocked")),
             Some (if locked then "Locked" else "Unlocked"))
  /\ indigo.stateImage d'
     = Some (if locked then indigo.kStateImageSel.Locked
             else indigo.kStateImageSel.Unlocked)
  /\ indigo.states d' !! "batteryLevel"
     = Some (indigo.Val (smartrent.get_battery_level l), None)
  /\ indigo.states d' !! "online"
     = Some (indigo.Val (smartrent.get_online r), None).
Proof.
  intros Ht Hr Hc Hl d'. subst d'. unfold outcome, after.
  rewrite (update_device_from_smartrent_resolved _ _ _ Hr).
  unfold_sync. rewrite Ht, Hc, Hl. cbn.
  destruct locked; cbn; repeat split; by simplify_map_eq.
Qed.

Lemma update_device_from_smartrent_lock_witness :
  (let d' := device (after (update_device_from_smartrent (Some (front_door true)))
                           (sample_world "lock" "12")) in
   indigo.states d' !! "lockStatus"
     = Some (indigo.Val (PyStr "locked"), Some "Locked")
   /\ indigo.stateImage d' = Some indigo.kStateImageSel.Locked)
  /\
  (let d' := device (after (update_device_from_smartrent (Some (front_door false)))
                           (sample_world "lock" "12")) in
   indigo.states d' !! "lockStatus"
     = Some (indigo.Val (PyStr "unlocked"), Some "Unlocked")
   /\ indigo.stateImage d' = Some indigo.kStateImageSel.Unlocked).
Proof.
  assert (H1 : indigo.deviceTypeId (device (sample_world "lock" "12")) = "lock")
    by reflexivity.
  split.
  - destruct (update_device_from_smartrent_lock
                (sample_world "lock" "12") (Some (front_door true))
                (front_door true) _ true H1 eq_refl eq_refl eq_refl)
      as (_ & _ & E1 & E2 & _).
    split; [exact E1 | exact E2].
  - destruct (update_device_from_smartrent_lock
                (sample_world "lock" "12") (Some (front_door false))
                (front_door false) _ false H1 eq_refl eq_refl eq_refl)
      as (_ & _ & E1 & E2 & _).
    split; [exact E1 | exact E2].
Defined.

(** ** C2: a device bound to a SmartRent device of the wrong class *)

Lemma category_mismatch_cases (d : indigo.Device) (r : smartrent.Device) :
  category_mismatch d r = true ->
  (indigo.deviceTypeId d = "thermostat" /\ isinstance_Thermostat r = false)
  \/ (indigo.deviceTypeId d <> "thermostat" /\ indigo.deviceTypeId d = "lock"
      /\ isinstance_DoorLock r = false).
Proof.
  unfold category_mismatch. intros H.
  destruct (decide (indigo.deviceTypeId d = "thermostat")) as [E|E].
  - left. split; [exact E|].
    rewrite E in H. cbn in H. by destruct (isinstance_Thermostat r).
  - right. rewrite (bool_decide_eq_false_2 _ E) in H. cbn in H.
    apply andb_true_iff in H as [H1 H2].
    apply bool_decide_eq_true_1 in H1.
    repeat split; [exact E | exact H1 | by destruct (isinstance_DoorLock r)].
Qed.

Lemma update_device_from_smartrent_mismatch (w : world) r :
  category_mismatch (device w) r = true ->
  update_device_from_smartrent (Some r) w
  = (Raise (TypeError (mismatch_message (device w))),
     {| self := {| api := api (self w);
                   logger := logger (self w)
                     ++ [ {| levelname := DEBUG;
                             msg := "Received device update: {}";
                             args := [ArgVars r] |} ];
                   loop := loop (self w);
                   update_callbacks := update_callbacks (self w) |};
        device := device w |}).
Proof.
  intros H. unfold mismatch_message.
  destruct (category_mismatch_cases _ _ H) as [[Ht Hi]|(Hn & Hl & Hi)].
  - unfold_sync. rewrite Ht. cbn.
    unfold isinstance_Thermostat in Hi.
    destruct (smartrent.class r); try discriminate Hi; reflexivity.
  - unfold_sync. rewrite (bool_decide_eq_false_2 _ Hn), Hl. cbn.
    unfold isinstance_DoorLock in Hi.
    destruct (smartrent.class r); try discriminate Hi; reflexivity.
Qed.

(** With a binding that resolves, [deviceStartComm] logs its start, runs the
    synchronisation, installs the update handler and starts the updater. *)
Lemma deviceStartComm_resolved (w : world) r :
  outcome get_smartrent_device_for_device w = Ok r ->
  deviceStartComm w
  = (update_device_from_smartrent (Some r);;
     set_update_callback (smartrent._device_id r);;
     run (smartrent._start_updater (smartrent._device_id r));;
     mret PyNone)
      {| self := {| api := api (self w);
                    logger := logger (self w)
                      ++ [ {| levelname := DEBUG; msg := "Starting {}...";
                              args := [ArgStr (indigo.name (device w))] |} ];
                    loop := loop (self w);
                    update_callbacks := update_callbacks (self w) |};
         device := device w |}.
Proof.
  intros H.
  unfold deviceStartComm, try_except_ValueError, log. unfold_M.
  cbn -[update_device_from_smartrent get_smartrent_device_for_device].
  match goal with
  | |- context [get_smartrent_device_for_device ?w'] =>
      rewrite (get_smartrent_device_for_device_resolved w' r)
  end.
  - reflexivity.
  - rewrite <- H. by apply get_smartrent_device_for_device_ext.
Qed.

(** C2, as the code has it.  When the declared type of the local device
    ([thermostat] or [lock]) does not match the class of the SmartRent
    device, the synchronisation raises [TypeError]: the exception leaves the
    call.  Nothing but the debug record of the update is logged, the device
    is not written, and no coroutine is submitted.  [deviceStartComm], which
    catches [ValueError] only, lets the exception through as well. *)
Theorem update_device_from_smartrent_mismatch_raises (w : world) sr r :
  resolves w sr r ->
  category_mismatch (device w) r = true ->
  outcome (update_device_from_smartrent sr) w
    = Raise (TypeError (mismatch_message (device w)))
  /\ device (after (update_device_from_smartrent sr) w) = device w
  /\ logger (self (after (update_device_from_smartrent sr) w))
     = logger (self w)
       ++ [ {| levelname := DEBUG; msg := "Received device update: {}";
               args := [ArgVars r] |} ]
  /\ loop (self (after (update_device_from_smartrent sr) w)) = loop (self w)
  /\ (outcome get_smartrent_device_for_device w = Ok r ->
      outcome deviceStartComm w
        = Raise (TypeError (mismatch_message (device w)))
      /\ device (after deviceStartComm w) = device w).
Proof.
  intros Hr Hm. unfold outcome, after.
  rewrite (update_device_from_smartrent_resolved _ _ _ Hr).
  rewrite (update_device_from_smartrent_mismatch _ _ Hm). cbn.
  repeat split.
  all: rewrite (deviceStartComm_resolved _ _ H); unfold_M;
    match goal with
    | |- context [update_device_from_smartrent (Some ?r') ?w'] =>
        rewrite (update_device_from_smartrent_mismatch w' r' Hm)
    end; reflexivity.
Qed.

Lemma update_device_from_smartrent_mismatch_raises_witness :
  category_mismatch (device (sample_world "lock" "7")) hall_thermostat = true
  /\ outcome (update_device_from_smartrent None) (sample_world "lock" "7")
     = Raise (TypeError "Thermostat 'Indigo device' not linked with a SmartRent lock!")
  /\ device (after (update_device_from_smartrent None) (sample_world "lock" "7"))
     = indigo_device "lock" "7".
Proof.
  assert (H1 : resolves (sample_world "lock" "7") None hall_thermostat)
    by (vm_compute; reflexivity).
  assert (H2 : category_mismatch (device (sample_world "lock" "7"))
                 hall_thermostat = true) by reflexivity.
  split; [exact H2|].
  destruct (update_device_from_smartrent_mismatch_raises
              (sample_world "lock" "7") None hall_thermostat H1 H2)
    as (E1 & E2 & _).
  split; [exact E1 | exact E2].
Defined.

(** C2, as the specification words it, fails: a local [thermostat] bound to
    the SmartRent door lock 12.  The synchronisation does not return: it
    raises [TypeError], and so does [deviceStartComm]; the log holds debug
    records only. *)
Lemma update_device_from_smartrent_mismatch_escapes :
  let w := sample_world "thermostat" "12" in
  category_mismatch (device w) (front_door true) = true
  /\ outcome get_smartrent_device_for_device w = Ok (front_door true)
  /\ outcome (update_device_from_smartrent (Some (front_door true))) w
     = Raise (TypeError
         "Thermostat 'Indigo device' not linked with a SmartRent thermostat!")
  /\ outcome (update_device_from_smartrent None) w
     = Raise (TypeError
         "Thermostat 'Indigo device' not linked with a SmartRent thermostat!")
  /\ outcome deviceStartComm w
     = Raise (TypeError
         "Thermostat 'Indigo device' not linked with a SmartRent thermostat!")
  /\ map levelname (logger (self (after deviceStartComm w))) = [DEBUG; DEBUG].
Proof. vm_compute. repeat split; reflexivity. Qed.

(** ** C5: a thermostat action with a mode outside the tables *)

Lemma actionControlThermostat_frame (action : indigo.ThermostatAction.t)
    (w : world) :
  device (after (actionControlThermostat action) w) = device w.
Proof.
  unfold after, actionControlThermostat. unfold_M.
  pose proof (get_smartrent_device_for_device_frame w) as F.
  destruct (get_smartrent_device_for_device w) as [[e|r] w']; cbn in F;
    subst w'; [reflexivity|].
  unfold log, run. unfold_M.
  repeat (case_match; try reflexivity).
Qed.

(** C5.  A [SetHvacMode] action whose mode is not a key of
    [INDIGO_SMARTRENT_HVAC_MODES], or a [SetFanMode] action whose mode is
    not a key of [INDIGO_SMARTRENT_HVAC_FAN_MODES]: the handler submits no
    coroutine and leaves the device as it was, whatever the binding.  What
    it logs depends on the lookup, which comes first: on a device bound to
    a SmartRent thermostat it returns normally and logs one record, the
    warning of the unsupported mode; on a device bound to a SmartRent
    device of another class it returns normally and logs one record, the
    error of the wrong class; when the lookup raises, the handler raises
    the same exception and logs nothing. *)
Theorem actionControlThermostat_unsupported_mode (w : world)
    (action : indigo.ThermostatAction.t) :
  let mode := indigo.ThermostatAction.actionMode action in
  (indigo.ThermostatAction.thermostatAction action
     = indigo.kThermostatAction.SetHvacMode
   /\ dict_get INDIGO_SMARTRENT_HVAC_MODES mode = None)
  \/ (indigo.ThermostatAction.thermostatAction action
        = indigo.kThermostatAction.SetFanMode
      /\ dict_get INDIGO_SMARTRENT_HVAC_FAN_MODES mode = None) ->
  let w' := after (actionControlThermostat action) w in
  loop (self w') = loop (self w)
  /\ device w' = device w
  /\ (forall r,
        outcome get_smartrent_device_for_device w = Ok r ->
        isinstance_Thermostat r = true ->
        outcome (actionControlThermostat action) w = Ok tt
        /\ logger (self w')
           = logger (self w)
             ++ [ {| levelname := WARNING;
                     msg := if bool_decide
                                 (indigo.ThermostatAction.thermostatAction action
                                  = indigo.kThermostatAction.SetHvacMode)
                            then "Unsupported Hvac mode: {}"
                            else "Unsupported fan mode: {}";
                     args := [ArgMode mode] |} ])
  /\ (forall r,
        outcome get_smartrent_device_for_device w = Ok r ->
        isinstance_Thermostat r = false ->
        outcome (actionControlThermostat action) w = Ok tt
        /\ logger (self w')
           = logger (self w)
             ++ [ {| levelname := ERROR;
                     msg := "The SmartRent device associated with '{}' was not found to be a Thermostat!";
                     args := [ArgStr (indigo.name (device w))] |} ])
  /\ (forall e,
        outcome get_smartrent_device_for_device w = Raise e ->
        outcome (actionControlThermostat action) w = Raise e
        /\ logger (self w') = logger (self w)).
Proof.
  intros mode H w'. subst mode w'.
  split; [|split; [apply actionControlThermostat_frame|split; [|split]]].
  - unfold after, actionControlThermostat. unfold_M.
    pose proof (get_smartrent_device_for_device_frame w) as F.
    destruct (get_smartrent_device_for_device w) as [[e|r] w0]; cbn in F;
      subst w0; [reflexivity|].
    unfold log, run. unfold_M.
    destruct (isinstance_Thermostat r); [|reflexivity].
    destruct H as [[E1 E2]|[E1 E2]]; cbv zeta; rewrite E1, E2; reflexivity.
  - intros r Hr Hi. unfold outcome, after, actionControlThermostat. unfold_M.
    rewrite (get_smartrent_device_for_device_resolved _ _ Hr).
    cbv beta iota delta [Ok]. rewrite Hi.
    unfold log. unfold_M.
    destruct H as [[E1 E2]|[E1 E2]]; cbv zeta; rewrite E1, E2;
      split; reflexivity.
  - intros r Hr Hi. unfold outcome, after, actionControlThermostat. unfold_M.
    rewrite (get_smartrent_device_for_device_resolved _ _ Hr).
    cbv beta iota delta [Ok]. rewrite Hi.
    unfold log. unfold_M. split; reflexivity.
  - intros e He. unfold outcome in He.
    pose proof (get_smartrent_device_for_device_frame w) as F.
    unfold outcome, after, actionControlThermostat. unfold_M.
    destruct (get_smartrent_device_for_device w) as [o w0]; cbn in F, He;
      subst w0 o.
    split; reflexivity.
Qed.

Lemma actionControlThermostat_unsupported_mode_witness :
  (let action :=
     {| indigo.ThermostatAction.thermostatAction :=
          indigo.kThermostatAction.SetHvacMode;
        indigo.ThermostatAction.actionMode :=
          indigo.HvacMode indigo.kHvacMode.ProgramHeat;
        indigo.ThermostatAction.actionValue := 0 |} in
   let w := sample_world "thermostat" "7" in
   loop (self (after (actionControlThermostat action) w)) = []
   /\ map levelname (logger (self (after (actionControlThermostat action) w)))
      = [WARNING]).
Proof.
  cbv zeta.
  destruct (actionControlThermostat_unsupported_mode
              (sample_world "thermostat" "7")
              {| indigo.ThermostatAction.thermostatAction :=
                   indigo.kThermostatAction.SetHvacMode;
                 indigo.ThermostatAction.actionMode :=
                   indigo.HvacMode indigo.kHvacMode.ProgramHeat;
                 indigo.ThermostatAction.actionValue := 0 |}
              (or_introl (conj eq_refl eq_refl)))
    as (E1 & _ & E3 & _).
  split; [exact E1|].
  destruct (E3 hall_thermostat) as [_ E4]; [vm_compute; reflexivity
                                           | reflexivity |].
  rewrite E4. reflexivity.
Defined.

(** C5, as the specification words it, fails: the same action on a device
    bound to the door lock 12 logs an error and no warning, and on a device
    whose binding matches no device of the directory it raises
    [ValueError] and logs nothing. *)
Lemma actionControlThermostat_unsupported_mode_unwarned :
  let action :=
    {| indigo.ThermostatAction.thermostatAction :=
         indigo.kThermostatAction.SetHvacMode;
       indigo.ThermostatAction.actionMode :=
         indigo.HvacMode indigo.kHvacMode.ProgramHeat;
       indigo.ThermostatAction.actionValue := 0 |} in
  dict_get INDIGO_SMARTRENT_HVAC_MODES
    (indigo.ThermostatAction.actionMode action) = None
  /\ outcome (actionControlThermostat action) (sample_world "thermostat" "12")
     = Ok tt
  /\ map levelname
       (logger (self (after (actionControlThermostat action)
                        (sample_world "thermostat" "12"))))
     = [ERROR]
  /\ outcome (actionControlThermostat action) (sample_world "thermostat" "99")
     = Raise ValueError
  /\ logger (self (after (actionControlThermostat action)
                     (sample_world "thermostat" "99")))
     = [].
Proof. vm_compute. repeat split; reflexivity. Qed.

(** ** C6: the synchronisation is idempotent *)

Lemma write_all_snoc updates key value (st : gmap string indigo.state) :
  write_all (updates ++ [(key, value)]) st
  = <[key := (value, None)]> (write_all updates st).
Proof. unfold write_all. by rewrite fold_left_app. Qed.

(** Writing a list of states is a left-biased union with the map of the
    states of the list. *)
Lemma write_all_union updates (st : gmap string indigo.state) :
  write_all updates st = write_all updates ∅ ∪ st.
Proof.
  induction updates as [|[key value] updates IH] using rev_ind.
  - cbn. by rewrite (left_id_L ∅ (∪)).
  - rewrite !write_all_snoc, IH. by rewrite insert_union_l.
Qed.

Lemma write_all_idempotent updates (st : gmap string indigo.state) :
  write_all updates (write_all updates st) = write_all updates st.
Proof.
  rewrite (write_all_union updates (write_all updates st)).
  rewrite (write_all_union updates st).
  by rewrite (assoc_L (∪)), (idemp_L (∪)).
Qed.

Lemma write_all_insert_idempotent updates key x (st : gmap string indigo.state) :
  write_all updates (<[key := x]> (write_all updates (<[key := x]> st)))
  = write_all updates (<[key := x]> st).
Proof.
  rewrite (write_all_union updates (<[key := x]> (write_all _ _))).
  rewrite (write_all_union updates (<[key := x]> st)).
  apply map_eq. intros j.
  rewrite !lookup_union.
  destruct (decide (key = j)) as [->|Hne].
  - rewrite !lookup_insert_eq. by destruct (write_all updates ∅ !! j).
  - rewrite !lookup_insert_ne by done. rewrite lookup_union.
    rewrite lookup_insert_ne by done.
    by destruct (write_all updates ∅ !! j), (st !! j).
Qed.

(** What a synchronisation does to the device is a function [f] of the
    declared type of the device and of the SmartRent device; [f] is
    idempotent, keeps the type, the name and the properties, and acts on
    the states and the state image only.  The outcome depends, in
    addition, on the name of the device, through the message of the
    exception. *)
Lemma update_device_from_smartrent_shape (type : string) (r : smartrent.Device) :
  exists f : indigo.Device -> indigo.Device,
    (forall d, f (f d) = f d)
    /\ (forall d, indigo.deviceTypeId (f d) = indigo.deviceTypeId d
                  /\ indigo.name (f d) = indigo.name d
                  /\ indigo.pluginProps (f d) = indigo.pluginProps d)
    /\ (forall d d', indigo.states d = indigo.states d' ->
           indigo.stateImage d = indigo.stateImage d' ->
           indigo.states (f d) = indigo.states (f d')
           /\ indigo.stateImage (f d) = indigo.stateImage (f d'))
    /\ forall nm, exists o, forall w,
         indigo.deviceTypeId (device w) = type ->
         indigo.name (device w) = nm ->
         outcome (update_device_from_smartrent (Some r)) w = o
         /\ device (after (update_device_from_smartrent (Some r)) w)
            = f (device w).
Proof.
  destruct (decide (type = "thermostat")) as [Ht|Ht];
    [|destruct (decide (type = "lock")) as [Hl|Hl]].
  - (* thermostat *)
    destruct (smartrent.class r) as [t| | | | |] eqn:Hc.
    1: destruct (dict_getitem SMARTRENT_INDIGO_HVAC_FAN_MODES
                   (smartrent.get_fan_mode t)) as [e1|fan] eqn:Hfan.
    2: destruct (dict_getitem SMARTRENT_INDIGO_HVAC_MODES
                   (smartrent.get_mode t)) as [e2|mode] eqn:Hmode.
    3: { eexists (indigo.set_states (write_all _)).
         split; [|split; [|split]].
         - intros d. unfold indigo.set_states. cbn.
           by rewrite write_all_idempotent.
         - done.
         - intros d d' E1 E2. cbn. by rewrite E1.
         - intros nm. exists (Ok tt). intros w Hw Hn. unfold_sync.
           rewrite Hw, Ht, Hc. cbn. rewrite Hfan, Hmode.
           split; reflexivity. }
    1: exists (fun d => d); split; [done|split; [done|split; [done|]]];
      intros nm; exists (inl e1); intros w Hw Hn; unfold_sync;
      rewrite Hw, Ht, Hc; cbn; rewrite Hfan; split; reflexivity.
    1: exists (fun d => d); split; [done|split; [done|split; [done|]]];
      intros nm; exists (inl e2); intros w Hw Hn; unfold_sync;
      rewrite Hw, Ht, Hc; cbn; rewrite Hfan, Hmode; split; reflexivity.
    all: exists (fun d => d); split; [done|split; [done|split; [done|]]];
      intros nm;
      exists (Raise (TypeError ("Thermostat '" +:+ nm
                +:+ "' not linked with a SmartRent thermostat!")));
      intros w Hw Hn; unfold_sync;
      rewrite Hw, Ht, Hc, Hn; split; reflexivity.
  - (* lock *)
    destruct (smartrent.class r) as [|l| | | |] eqn:Hc.
    2: { destruct (truthy (smartrent.get_locked l)) eqn:Hlocked.
         all: eexists (fun d => indigo.set_states (write_all _)
                (indigo.set_states (insert "lockStatus" _)
                   (indigo.set_stateImage _ d))).
         all: split; [|split; [|split]].
         all: try done.
         1,4: intros d; unfold indigo.set_states, indigo.set_stateImage; cbn;
           by rewrite write_all_insert_idempotent.
         1,3: intros d d' E1 E2; cbn; by rewrite E1.
         all: intros nm; exists (Ok tt); intros w Hw Hn; unfold_sync;
           rewrite Hw, Hl, Hc; cbn; rewrite Hlocked; split; reflexivity. }
    all: exists (fun d => d); split; [done|split; [done|split; [done|]]];
      intros nm;
      exists (Raise (TypeError ("Thermostat '" +:+ nm
                +:+ "' not linked with a SmartRent lock!")));
      intros w Hw Hn; unfold_sync;
      rewrite Hw, Hl, Hc, Hn; split; reflexivity.
  - (* any other type *)
    eexists (indigo.set_states (write_all _)).
    split; [|split; [|split]].
    + intros d. unfold indigo.set_states. cbn. by rewrite write_all_idempotent.
    + done.
    + intros d d' E1 E2. cbn. by rewrite E1.
    + intros nm. exists (Ok tt). intros w Hw Hn. unfold_sync.
      rewrite Hw, (bool_decide_eq_false_2 _ Ht), (bool_decide_eq_false_2 _ Hl).
      split; reflexivity.
Qed.

(** The synchronisation does not touch the directory of the plugin. *)
Lemma update_device_from_smartrent_api (w : world) r :
  api (self (after (update_device_from_smartrent (Some r)) w)) = api (self w).
Proof.
  unfold_sync. repeat case_match; by simplify_eq/=.
Qed.

Lemma update_device_from_smartrent_failed_lookup (w : world) e :
  outcome get_smartrent_device_for_device w = Raise e ->
  update_device_from_smartrent None w = (Raise e, w).
Proof.
  intros H. pose proof (get_smartrent_device_for_device_frame w) as F.
  unfold update_device_from_smartrent. unfold_M. unfold outcome in H.
  destruct (get_smartrent_device_for_device w) as [o w']. cbn in *.
  by subst.
Qed.

(** C6.  Applied a second time with the same SmartRent device, the
    synchronisation leaves the device exactly as the first application left
    it, and ends the same way (it returns, or raises the same exception).
    What it writes is a function of the SmartRent device and of the declared
    type of the local device: two devices of the same type that agree on
    their states and state image before the call agree on them after it. *)
Theorem update_device_from_smartrent_idempotent (w : world)
    (sr : option smartrent.Device) :
  let once := after (update_device_from_smartrent sr) w in
  let twice := after (update_device_from_smartrent sr) once in
  device twice = device once
  /\ outcome (update_device_from_smartrent sr) once
     = outcome (update_device_from_smartrent sr) w
  /\ (forall r w',
        sr = Some r ->
        indigo.deviceTypeId (device w') = indigo.deviceTypeId (device w) ->
        indigo.states (device w') = indigo.states (device w) ->
        indigo.stateImage (device w') = indigo.stateImage (device w) ->
        let once' := after (update_device_from_smartrent sr) w' in
        indigo.states (device once') = indigo.states (device once)
        /\ indigo.stateImage (device once') = indigo.stateImage (device once)).
Proof.
  assert (Hsome : forall r,
    let once := after (update_device_from_smartrent (Some r)) w in
    let twice := after (update_device_from_smartrent (Some r)) once in
    device twice = device once
    /\ outcome (update_device_from_smartrent (Some r)) once
       = outcome (update_device_from_smartrent (Some r)) w
    /\ indigo.pluginProps (device once) = indigo.pluginProps (device w)).
  { intros r once twice. subst twice once.
    destruct (update_device_from_smartrent_shape
                (indigo.deviceTypeId (device w)) r)
      as (f & Hidem & Hkeep & _ & Hrun).
    destruct (Hrun (indigo.name (device w))) as [o Ho].
    destruct (Ho w eq_refl eq_refl) as [O1 D1].
    destruct (Hkeep (device w)) as (K1 & K2 & K3).
    destruct (Ho (after (update_device_from_smartrent (Some r)) w))
      as [O2 D2]; [by rewrite D1| by rewrite D1|].
    rewrite D2, D1, O2, O1. by rewrite Hidem. }
  intros once twice. subst twice once. split; [|split].
  - destruct sr as [r|]; [apply Hsome|].
    destruct (outcome get_smartrent_device_for_device w) as [e|r] eqn:E.
    + unfold after.
      rewrite !(update_device_from_smartrent_failed_lookup _ _ E). cbn [snd].
      by rewrite !(update_device_from_smartrent_failed_lookup _ _ E).
    + assert (R : resolves w None r) by exact E.
      unfold after at 2 3.
      rewrite (update_device_from_smartrent_resolved _ _ _ R).
      fold (after (update_device_from_smartrent (Some r)) w).
      assert (R' : resolves (after (update_device_from_smartrent (Some r)) w)
                     None r).
      { unfold resolves. etrans; [|exact E].
        apply get_smartrent_device_for_device_ext.
        - apply update_device_from_smartrent_api.
        - apply Hsome. }
      unfold after at 1.
      rewrite (update_device_from_smartrent_resolved _ _ _ R').
      apply Hsome.
  - destruct sr as [r|]; [apply Hsome|].
    destruct (outcome get_smartrent_device_for_device w) as [e|r] eqn:E.
    + unfold after, outcome.
      rewrite !(update_device_from_smartrent_failed_lookup _ _ E). cbn [snd].
      by rewrite !(update_device_from_smartrent_failed_lookup _ _ E).
    + assert (R : resolves w None r) by exact E.
      unfold after, outcome.
      rewrite (update_device_from_smartrent_resolved _ _ _ R).
      fold (after (update_device_from_smartrent (Some r)) w).
      assert (R' : resolves (after (update_device_from_smartrent (Some r)) w)
                     None r).
      { unfold resolves. etrans; [|exact E].
        apply get_smartrent_device_for_device_ext.
        - apply update_device_from_smartrent_api.
        - apply Hsome. }
      rewrite (update_device_from_smartrent_resolved _ _ _ R').
      apply Hsome.
  - intros r w' -> Hty Hst Him once'. subst once'.
    destruct (update_device_from_smartrent_shape
                (indigo.deviceTypeId (device w)) r)
      as (f & _ & _ & Hact & Hrun).
    destruct (Hrun (indigo.name (device w))) as [o Ho].
    destruct (Hrun (indigo.name (device w'))) as [o' Ho'].
    destruct (Ho w eq_refl eq_refl) as [_ ->].
    destruct (Ho' w' Hty eq_refl) as [_ ->].
    by apply Hact.
Qed.

(** ** One-time codes *)

Lemma be_bytes_length (n : nat) (x : Z) : length (SHA1.be_bytes n x) = n.
Proof. induction n as [|n IH]; cbn; [reflexivity | by rewrite IH]. Qed.

Lemma SHA1_digest_length (m : list Z) : length (SHA1.digest m) = 20%nat.
Proof. unfold SHA1.digest. cbv zeta. by rewrite !length_app, !be_bytes_length. Qed.

Lemma HMAC_digest_length (key m : list Z) : length (HMAC.digest key m) = 20%nat.
Proof. unfold HMAC.digest. cbv zeta. apply SHA1_digest_length. Qed.

Lemma getitem_in_range (bs : list Z) (i : Z) :
  0 <= i < Z.of_nat (length bs) -> exists b, pyotp.getitem bs i = Ok b.
Proof.
  intros H. unfold pyotp.getitem.
  destruct (lookup_lt_is_Some_2 bs (Z.to_nat i)) as [b ->]; [lia|]. eauto.
Qed.

Lemma land_15_range (x : Z) : 0 <= Z.land x 15 <= 15.
Proof.
  change 15 with (Z.ones 4) at 1 2. rewrite Z.land_ones by lia.
  change (2 ^ 4) with 16. pose proof (Z.mod_pos_bound x 16). lia.
Qed.

(** A valid secret has a code for every counter from 0 on. *)
Lemma generate_otp_total (self : pyotp.TOTP) (key : list Z) (input : Z) :
  pyotp.byte_secret self = Ok key -> 0 <= input ->
  exists code, pyotp.generate_otp self input = Ok code.
Proof.
  intros Hkey Hin. unfold pyotp.generate_otp.
  destruct (Z.ltb_spec input 0) as [?|_]; [lia|].
  rewrite Hkey. cbn [rbind Ok].
  set (h := HMAC.digest key (pyotp.int_to_bytestring input)).
  assert (Hlen : length h = 20%nat) by apply HMAC_digest_length.
  rewrite Hlen.
  destruct (getitem_in_range h (Z.of_nat 20 - 1)) as [last ->]; [lia|].
  cbn [rbind Ok].
  pose proof (land_15_range last) as Hoff.
  destruct (getitem_in_range h (Z.land last 15)) as [b0 ->]; [lia|].
  destruct (getitem_in_range h (Z.land last 15 + 1)) as [b1 ->]; [lia|].
  destruct (getitem_in_range h (Z.land last 15 + 2)) as [b2 ->]; [lia|].
  destruct (getitem_in_range h (Z.land last 15 + 3)) as [b3 ->]; [lia|].
  cbn [rbind Ok]. eauto.
Qed.

(** From the epoch on, [timecode] is the time-step of the clock. *)
Lemma timecode_time_step (self : pyotp.TOTP) (clock : Z) :
  0 <= clock -> pyotp.timecode self clock = time_step clock.
Proof.
  intros H. unfold pyotp.timecode, pyotp.interval, time_step.
  apply Z.quot_div_nonneg; lia.
Qed.

Lemma time_step_nonneg (clock : Z) : 0 <= clock -> 0 <= time_step clock.
Proof. intros H. unfold time_step. apply Z.div_pos; lia. Qed.

Lemma OTP_str_current_code (o : OTP.t) (clock : Z) :
  0 <= clock ->
  OTP.__str__ o clock = current_code (pyotp.secret (OTP._totp o)) clock.
Proof.
  intros H. destruct o as [[secret]].
  unfold OTP.__str__, pyotp.now, current_code. cbn.
  by rewrite timecode_time_step.
Qed.

(** ** C9: codes of one time-step *)

(** C9, as the code has it.  For a valid secret, two codes generated at
    readings of the clock that lie in the same time-step are equal: both
    calls return, and they return the code that [generate_otp] gives for
    the secret and that time-step.  The same holds for the code that
    [generate_2fa_code] writes to the dialog.  (Codes of different
    time-steps are not compared: they can be equal.) *)
Theorem OTP_same_time_step (secret : string) (clock1 clock2 : Z) :
  valid_secret secret ->
  0 <= clock1 -> 0 <= clock2 ->
  time_step clock1 = time_step clock2 ->
  exists code,
    pyotp.generate_otp (pyotp.new secret) (time_step clock1) = Ok code
    /\ OTP.__str__ (OTP.__init__ secret) clock1 = Ok code
    /\ OTP.__str__ (OTP.__init__ secret) clock2 = Ok code
    /\ forall valuesDict : gmap string string,
         valuesDict !! "tfa-secret" = Some secret ->
         generate_2fa_code valuesDict clock1
           = Ok (<["tfa-code" := code]> valuesDict)
         /\ generate_2fa_code valuesDict clock2
           = Ok (<["tfa-code" := code]> valuesDict).
Proof.
  intros [key Hkey] H1 H2 Hstep.
  destruct (generate_otp_total (pyotp.new secret) key (time_step clock1) Hkey
              (time_step_nonneg _ H1)) as [code Hcode].
  exists code. split; [exact Hcode|].
  assert (E1 : pyotp.now (pyotp.new secret) clock1 = Ok code).
  { unfold pyotp.now. by rewrite timecode_time_step. }
  assert (E2 : pyotp.now (pyotp.new secret) clock2 = Ok code).
  { unfold pyotp.now. rewrite timecode_time_step by done. by rewrite <- Hstep. }
  repeat split; try assumption.
  - unfold generate_2fa_code. rewrite H, E1. reflexivity.
  - unfold generate_2fa_code. rewrite H, E2. reflexivity.
Qed.

Lemma OTP_same_time_step_witness :
  OTP.__str__ (OTP.__init__ "JBSWY3DPEHPK3PXP") 1700005500
  = OTP.__str__ (OTP.__init__ "JBSWY3DPEHPK3PXP") 1700005529.
Proof.
  assert (V : valid_secret "JBSWY3DPEHPK3PXP")
    by (eexists; vm_compute; reflexivity).
  destruct (OTP_same_time_step "JBSWY3DPEHPK3PXP" 1700005500 1700005529 V)
    as (code & _ & E1 & E2 & _); [lia | lia | reflexivity |].
  rewrite E1, E2. reflexivity.
Defined.

(** C9, as the specification words it, fails: codes have six digits, and
    the codes of two time-steps that are far apart can be equal.  For the
    secret [JBSWY3DPEHPK3PXP] the readings 1700002440 and 1700053800 of the
    clock are 1712 time-steps apart and both give the code 304433. *)
Lemma OTP_codes_of_distant_time_steps_equal :
  valid_secret "JBSWY3DPEHPK3PXP"
  /\ time_step 1700053800 - time_step 1700002440 = 1712
  /\ OTP.__str__ (OTP.__init__ "JBSWY3DPEHPK3PXP") 1700002440 = Ok "304433"
  /\ OTP.__str__ (OTP.__init__ "JBSWY3DPEHPK3PXP") 1700053800 = Ok "304433".
Proof.
  split; [eexists; vm_compute; reflexivity|].
  repeat split; vm_compute; reflexivity.
Qed.

(** ** C8: the encoder *)

(** Induction on payloads, through the lists of lists and dictionaries. *)
Lemma pyobj_nested_ind (P : pyobj -> Prop) :
  P ONone ->
  (forall b, P (OBool b)) ->
  (forall z, P (OInt z)) ->
  (forall s, P (OStr s)) ->
  (forall items, Forall P items -> P (OList items)) ->
  (forall items, Forall (fun kv => P kv.2) items -> P (ODict items)) ->
  (forall o, P (OOTP o)) ->
  (forall c, P (OObject c)) ->
  forall o, P o.
Proof.
  intros HNone HBool HInt HStr HList HDict HOTP HObject.
  fix IH 1. intros [ |b|z|s|items|items|o|c].
  - exact HNone.
  - apply HBool.
  - apply HInt.
  - apply HStr.
  - apply HList. induction items as [|x items IHitems]; constructor.
    + apply IH.
    + exact IHitems.
  - apply HDict. induction items as [|[k x] items IHitems]; constructor.
    + apply IH.
    + exact IHitems.
  - apply HOTP.
  - apply HObject.
Qed.

Lemma rbind_Ok {A B} (r : result A) (k : A -> result B) (b : B) :
  rbind r k = Ok b -> exists a, r = Ok a /\ k a = Ok b.
Proof. destruct r as [e|a]; cbn; [discriminate | eauto]. Qed.

(** What the encoder writes is the payload with the codes in the place of
    the [OTP] objects. *)
Lemma encode_replaced (clock : Z) (payload : pyobj) :
  0 <= clock ->
  forall j, OTPEncoder.encode clock payload = Ok j -> replaced clock payload j.
Proof.
  intros Hclock. induction payload as [ |b|z|s|items IH|items IH|o|c]
    using pyobj_nested_ind; intros j Hj; cbn in Hj.
  - injection Hj as <-. constructor.
  - injection Hj as <-. constructor.
  - injection Hj as <-. constructor.
  - injection Hj as <-. constructor.
  - apply rbind_Ok in Hj as (js & Hjs & Hj). injection Hj as <-.
    constructor. revert js Hjs.
    induction IH as [|x items Hx _ IHitems]; intros js Hjs.
    + injection Hjs as <-. constructor.
    + apply rbind_Ok in Hjs as (jx & Hjx & Hjs).
      apply rbind_Ok in Hjs as (js' & Hjs' & Hjs). injection Hjs as <-.
      constructor; [by apply Hx | by apply IHitems].
  - apply rbind_Ok in Hj as (js & Hjs & Hj). injection Hj as <-.
    constructor. revert js Hjs.
    induction IH as [|[k x] items Hx _ IHitems]; intros js Hjs.
    + injection Hjs as <-. constructor.
    + apply rbind_Ok in Hjs as (jx & Hjx & Hjs).
      apply rbind_Ok in Hjs as (js' & Hjs' & Hjs). injection Hjs as <-.
      constructor; [split; [reflexivity | by apply Hx] | by apply IHitems].
  - apply rbind_Ok in Hj as (code & Hcode & Hj). injection Hj as <-.
    constructor. by rewrite <- OTP_str_current_code.
  - discriminate Hj.
Qed.

(** A serialisable payload is written, at any time from the epoch on. *)
Lemma encode_total (clock : Z) (payload : pyobj) :
  0 <= clock -> serialisable payload = true ->
  exists j, OTPEncoder.encode clock payload = Ok j.
Proof.
  intros Hclock. induction payload as [ |b|z|s|items IH|items IH|o|c]
    using pyobj_nested_ind; intros Hs; cbn in Hs |- *; eauto.
  - assert (exists js,
      (fix each (l : list pyobj) : result (list json) :=
         match l with
         | [] => Ok []
         | x :: l' =>
             rbind (OTPEncoder.encode clock x) (fun j =>
             rbind (each l') (fun js => Ok (j :: js)))
         end) items = Ok js) as [js ->].
    { induction IH as [|x items Hx _ IHitems]; [eauto|].
      cbn in Hs. apply andb_true_iff in Hs as [Hs1 Hs2].
      destruct (Hx Hs1) as [j ->]. destruct (IHitems Hs2) as [js ->].
      cbn. eauto. }
    cbn. eauto.
  - assert (exists js,
      (fix each (l : list (string * pyobj)) : result (list (string * json)) :=
         match l with
         | [] => Ok []
         | (k, x) :: l' =>
             rbind (OTPEncoder.encode clock x) (fun j =>
             rbind (each l') (fun js => Ok ((k, j) :: js)))
         end) items = Ok js) as [js ->].
    { induction IH as [|[k x] items Hx _ IHitems]; [eauto|].
      cbn in Hs. apply andb_true_iff in Hs as [Hs1 Hs2].
      destruct (Hx Hs1) as [j Ej]. simpl in Ej. rewrite Ej.
      destruct (IHitems Hs2) as [js ->].
      cbn. eauto. }
    cbn. eauto.
  - unfold is_valid_secret in Hs.
    destruct (pyotp.byte_secret (pyotp.new (pyotp.secret (OTP._totp o))))
      as [e|key] eqn:Hkey; [discriminate|].
    destruct (generate_otp_total _ key (time_step clock) Hkey
                (time_step_nonneg _ Hclock)) as [code Hcode].
    rewrite OTP_str_current_code by done. unfold current_code.
    rewrite Hcode. cbn. eauto.
  - discriminate Hs.
Qed.

(** The document depends on the clock through its time-step only. *)
Lemma encode_time_step (clock clock' : Z) (payload : pyobj) :
  0 <= clock -> 0 <= clock' -> time_step clock = time_step clock' ->
  OTPEncoder.encode clock payload = OTPEncoder.encode clock' payload.
Proof.
  intros H H' Hstep. induction payload as [ |b|z|s|items IH|items IH|o|c]
    using pyobj_nested_ind; cbn; try reflexivity.
  - f_equal. induction IH as [|x items Hx _ IHitems]; [reflexivity|].
    by rewrite Hx, IHitems.
  - f_equal. induction IH as [|[k x] items Hx _ IHitems]; [reflexivity|].
    simpl in Hx. by rewrite Hx, IHitems.
  - rewrite !OTP_str_current_code by done. unfold current_code.
    by rewrite Hstep.
Qed.

(** C8, as the code has it.  Serialised at a reading [clock] of the clock,
    a payload becomes the document in which every [OTP] object, wherever it
    is in the payload, is replaced by the code of its secret for the
    time-step of [clock]; the [OTP] object holds the secret and no time, so
    that the moment of its construction plays no part.  A payload of JSON
    values and [OTP] objects with valid secrets is always written.  Two
    serialisations in the same time-step give the same document.  (Codes of
    different time-steps are not compared: they can be equal.) *)
Theorem OTPEncoder_encodes_current_code (clock : Z) (payload : pyobj) :
  0 <= clock ->
  (forall j, OTPEncoder.encode clock payload = Ok j -> replaced clock payload j)
  /\ (serialisable payload = true ->
      exists j, OTPEncoder.encode clock payload = Ok j)
  /\ (forall secret,
        OTPEncoder.encode clock (OOTP (OTP.__init__ secret))
        = rbind (pyotp.generate_otp (pyotp.new secret) (time_step clock))
            (fun code => Ok (JString code)))
  /\ (forall clock', 0 <= clock' -> time_step clock = time_step clock' ->
        OTPEncoder.encode clock payload = OTPEncoder.encode clock' payload).
Proof.
  intros H. split; [|split; [|split]].
  - by apply encode_replaced.
  - by apply encode_total.
  - intros secret. cbn. by rewrite OTP_str_current_code.
  - intros clock' H' Hstep. by apply encode_time_step.
Qed.

Lemma OTPEncoder_encodes_current_code_witness :
  OTPEncoder.encode 1700005500 (login_payload "JBSWY3DPEHPK3PXP")
  = OTPEncoder.encode 1700005529 (login_payload "JBSWY3DPEHPK3PXP")
  /\ replaced 1700005500 (login_payload "JBSWY3DPEHPK3PXP")
       (JObject [ ("email", JString "resident@example.org");
                  ("password", JString "hunter2");
                  ("tfa", JObject [ ("token", JString "712301") ]) ]).
Proof.
  assert (H : 0 <= 1700005500) by lia.
  destruct (OTPEncoder_encodes_current_code 1700005500
              (login_payload "JBSWY3DPEHPK3PXP") H) as (S & _ & _ & T).
  split.
  - apply T; [lia | reflexivity].
  - apply S. vm_compute. reflexivity.
Defined.

(** C8, as the specification words it, fails in its last part: the same
    [OTP] object, serialised at the readings 1700005500 and 1700007420 of
    the clock, which lie 64 time-steps apart, is replaced by the same code
    712301 both times. *)
Lemma OTPEncoder_same_code_in_different_time_steps :
  let o := OOTP (OTP.__init__ "JBSWY3DPEHPK3PXP") in
  time_step 1700005500 = 56666850
  /\ time_step 1700007420 = 56666914
  /\ OTPEncoder.encode 1700005500 o = Ok (JString "712301")
  /\ OTPEncoder.encode 1700007420 o = Ok (JString "712301").
Proof. vm_compute. repeat split; reflexivity. Qed.

(** * Further properties of the plugin *)

(** ** The binding lookup *)

Lemma first_filter_spec (i : Z) (devices : list smartrent.Device) r :
  first (filter (fun d => smartrent._device_id d = i) devices) = Ok r <->
  exists before rest,
    devices = before ++ r :: rest
    /\ smartrent._device_id r = i
    /\ Forall (fun d => smartrent._device_id d <> i) before.
Proof.
  induction devices as [|d devices IH].
  - split; [discriminate|]. intros (before & rest & E & _).
    by destruct before.
  - destruct (decide (smartrent._device_id d = i)) as [Hd|Hd].
    + rewrite filter_cons_True by done. cbn. split.
      * intros [= ->]. exists [], devices. by repeat split.
      * intros (before & rest & E & Hr & Hb).
        destruct before as [|d' before]; cbn in E.
        -- by injection E as ->.
        -- injection E as -> _. by inversion Hb.
    + rewrite filter_cons_False by done. rewrite IH. split.
      * intros (before & rest & -> & Hr & Hb).
        exists (d :: before), rest. repeat split; [done|by constructor].
      * intros (before & rest & E & Hr & Hb).
        destruct before as [|d' before]; cbn in E.
        -- injection E as -> _. done.
        -- injection E as -> ->. inversion Hb; subst.
           exists before, rest. by repeat split.
Qed.

Lemma get_smartrent_device_for_device_eval (w : world) devices i :
  api (self w) = Some devices ->
  declared_binding (device w) = Ok i ->
  get_smartrent_device_for_device w
  = (first (filter (fun d => smartrent._device_id d = i) devices), w).
Proof.
  intros Ha Hi. unfold declared_binding in Hi.
  unfold get_smartrent_device_for_device. unfold_M. cbn.
  rewrite Hi. cbn. rewrite Ha. reflexivity.
Qed.

(** X1.  With a session and a binding that reads as the integer [i], the
    lookup returns the first device of the directory whose identifier is
    [i], and raises [ValueError] exactly when the directory has no such
    device. *)
Theorem get_smartrent_device_for_device_first (w : world) devices i :
  api (self w) = Some devices ->
  declared_binding (device w) = Ok i ->
  (forall r,
     outcome get_smartrent_device_for_device w = Ok r <->
     exists before rest,
       devices = before ++ r :: rest
       /\ smartrent._device_id r = i
       /\ Forall (fun d => smartrent._device_id d <> i) before)
  /\ (outcome get_smartrent_device_for_device w = Raise ValueError <->
      Forall (fun d => smartrent._device_id d <> i) devices).
Proof.
  intros Ha Hi. unfold outcome.
  rewrite (get_smartrent_device_for_device_eval _ _ _ Ha Hi). cbn. split.
  - intros r. apply first_filter_spec.
  - split.
    + intros H. apply Forall_forall. intros d Hd Hid.
      apply list_elem_of_split in Hd as (l1 & l2 & ->).
      assert (exists r, first (filter (fun d => smartrent._device_id d = i)
                                 (l1 ++ d :: l2)) = Ok r) as [r Hr].
      { rewrite filter_app, filter_cons_True by done.
        destruct (filter _ l1); cbn; eauto. }
      rewrite Hr in H. discriminate H.
    + apply first_filter_none.
Qed.

Lemma get_smartrent_device_for_device_first_witness :
  outcome get_smartrent_device_for_device (sample_world "lock" "12")
  = Ok (front_door true).
Proof.
  destruct (get_smartrent_device_for_device_first (sample_world "lock" "12")
              [hall_thermostat; front_door true] 12 eq_refl)
    as [H _]; [vm_compute; reflexivity|].
  apply H. exists [hall_thermostat], [].
  repeat split. repeat constructor. vm_compute. discriminate.
Defined.

(** X2.  Before [startup] has logged in there is no [api]: with a binding
    that reads as an integer the lookup raises [AttributeError], which
    [deviceStartComm] does not catch and every action handler lets
    through; nothing is submitted and the device is not touched. *)
Theorem lookup_without_session (w : world) i :
  api (self w) = None ->
  declared_binding (device w) = Ok i ->
  get_smartrent_device_for_device w = (Raise (AttributeError "api"), w)
  /\ outcome deviceStartComm w = Raise (AttributeError "api")
  /\ device (after deviceStartComm w) = device w
  /\ loop (self (after deviceStartComm w)) = loop (self w)
  /\ (forall action,
        actionControlDevice action w = (Raise (AttributeError "api"), w))
  /\ (forall action,
        actionControlUniversal action w = (Raise (AttributeError "api"), w))
  /\ (forall action,
        actionControlThermostat action w = (Raise (AttributeError "api"), w)).
Proof.
  intros Ha Hi.
  assert (E : forall w', api (self w') = None ->
                indigo.pluginProps (device w') = indigo.pluginProps (device w) ->
                get_smartrent_device_for_device w'
                = (Raise (AttributeError "api"), w')).
  { intros w' Ha' Hp. unfold declared_binding in Hi.
    unfold get_smartrent_device_for_device. unfold_M. cbn.
    rewrite Hp, Hi. cbn. rewrite Ha'. reflexivity. }
  split; [by apply E|].
  split; [|split; [|split; [|split; [|split]]]].
  1-3: unfold outcome, after, deviceStartComm, try_except_ValueError, log;
    unfold_M; cbn; rewrite E by done; reflexivity.
  - intros action. unfold actionControlDevice. unfold_M.
    rewrite E by done. reflexivity.
  - intros action. unfold actionControlUniversal. unfold_M.
    rewrite E by done. reflexivity.
  - intros action. unfold actionControlThermostat. unfold_M.
    rewrite E by done. reflexivity.
Qed.

Lemma lookup_without_session_witness :
  outcome deviceStartComm
    {| self := fresh_plugin; device := indigo_device "thermostat" "7" |}
  = Raise (AttributeError "api").
Proof.
  destruct (lookup_without_session
              {| self := fresh_plugin; device := indigo_device "thermostat" "7" |}
              7 eq_refl) as (_ & H & _); [vm_compute; reflexivity|].
  exact H.
Defined.

(** The lookup reads one property of the device. *)
Lemma get_smartrent_device_for_device_binding (p : Plugin) (d d' : indigo.Device) :
  indigo.pluginProps d !! "smartrent-device"
  = indigo.pluginProps d' !! "smartrent-device" ->
  outcome get_smartrent_device_for_device {| self := p; device := d |}
  = outcome get_smartrent_device_for_device {| self := p; device := d' |}.
Proof.
  intros H. unfold outcome, get_smartrent_device_for_device. unfold_M.
  cbn. rewrite H. destruct (int _); [reflexivity|].
  destruct (api p); reflexivity.
Qed.

(** X3.  [didDeviceCommPropertyChange] is a sound test for a restart: when
    it answers [False] for an original and an updated device, the lookup
    ends the same way for both, whatever else differs between them; and it
    answers [False] when the two devices declare the same binding. *)
Theorem didDeviceCommPropertyChange_sound (original updated : indigo.Device) :
  (didDeviceCommPropertyChange original updated = false <->
   indigo.pluginProps original !! "smartrent-device"
   = indigo.pluginProps updated !! "smartrent-device")
  /\ (didDeviceCommPropertyChange original updated = false ->
      forall p,
        outcome get_smartrent_device_for_device
          {| self := p; device := original |}
        = outcome get_smartrent_device_for_device
            {| self := p; device := updated |}).
Proof.
  assert (H : didDeviceCommPropertyChange original updated = false <->
              indigo.pluginProps original !! "smartrent-device"
              = indigo.pluginProps updated !! "smartrent-device").
  { unfold didDeviceCommPropertyChange. rewrite negb_false_iff.
    apply bool_decide_eq_true. }
  split; [exact H|].
  intros Hf p. apply get_smartrent_device_for_device_binding. by apply H.
Qed.

(** ** The synchroniser *)

Lemma update_device_from_smartrent_thermostat_ok (w : world) r t fan mode :
  indigo.deviceTypeId (device w) = "thermostat" ->
  smartrent.class r = smartrent.IsThermostat t ->
  dict_getitem SMARTRENT_INDIGO_HVAC_FAN_MODES (smartrent.get_fan_mode t)
    = Ok fan ->
  dict_getitem SMARTRENT_INDIGO_HVAC_MODES (smartrent.get_mode t) = Ok mode ->
  update_device_from_smartrent (Some r) w
  = (Ok tt,
     {| self := self (received r w);
        device := indigo.set_states (write_all (thermostat_updates r t fan mode))
                    (device w) |}).
Proof.
  intros Ht Hc Hfan Hmode. unfold_sync. rewrite Ht, Hc. cbn.
  rewrite Hfan, Hmode. reflexivity.
Qed.

Lemma update_device_from_smartrent_thermostat_KeyError (w : world) r t e :
  indigo.deviceTypeId (device w) = "thermostat" ->
  smartrent.class r = smartrent.IsThermostat t ->
  dict_getitem SMARTRENT_INDIGO_HVAC_FAN_MODES (smartrent.get_fan_mode t)
    = Raise e
  \/ ((exists fan,
         dict_getitem SMARTRENT_INDIGO_HVAC_FAN_MODES (smartrent.get_fan_mode t)
         = Ok fan)
      /\ dict_getitem SMARTRENT_INDIGO_HVAC_MODES (smartrent.get_mode t)
         = Raise e) ->
  update_device_from_smartrent (Some r) w = (Raise e, received r w).
Proof.
  intros Ht Hc [Hfan|[[fan Hfan] Hmode]]; unfold_sync; rewrite Ht, Hc; cbn;
    rewrite Hfan; [reflexivity|]. rewrite Hmode. reflexivity.
Qed.

Lemma update_device_from_smartrent_lock_ok (w : world) r l :
  indigo.deviceTypeId (device w) = "lock" ->
  smartrent.class r = smartrent.IsDoorLock l ->
  update_device_from_smartrent (Some r) w
  = (Ok tt,
     {| self := self (received r w);
        device :=
          indigo.set_states (write_all (lock_updates r l))
            (indigo.set_states
               (insert "lockStatus"
                  (indigo.Val (PyStr (if truthy (smartrent.get_locked l)
                                      then "locked" else "unlocked")),
                   Some (if truthy (smartrent.get_locked l)
                         then "Locked" else "Unlocked")))
               (indigo.set_stateImage
                  (if truthy (smartrent.get_locked l)
                   then indigo.kStateImageSel.Locked
                   else indigo.kStateImageSel.Unlocked)
                  (device w))) |}).
Proof.
  intros Ht Hc. unfold_sync. rewrite Ht, Hc. cbn.
  destruct (truthy (smartrent.get_locked l)); reflexivity.
Qed.

Lemma update_device_from_smartrent_other_ok (w : world) r :
  indigo.deviceTypeId (device w) <> "thermostat" ->
  indigo.deviceTypeId (device w) <> "lock" ->
  update_device_from_smartrent (Some r) w
  = (Ok tt,
     {| self := self (received r w);
        device :=
          indigo.set_states
            (write_all [("online", indigo.Val (smartrent.get_online r))])
            (device w) |}).
Proof.
  intros Ht Hl. unfold_sync.
  rewrite (bool_decide_eq_false_2 _ Ht), (bool_decide_eq_false_2 _ Hl).
  reflexivity.
Qed.

Lemma update_device_from_smartrent_mismatch_received (w : world) r :
  category_mismatch (device w) r = true ->
  update_device_from_smartrent (Some r) w
  = (Raise (TypeError (mismatch_message (device w))), received r w).
Proof. apply update_device_from_smartrent_mismatch. Qed.

(** The ways a synchronisation with a given SmartRent device can go. *)
Lemma update_device_from_smartrent_cases (w : world) r :
  (exists t fan mode,
     indigo.deviceTypeId (device w) = "thermostat"
     /\ smartrent.class r = smartrent.IsThermostat t
     /\ dict_getitem SMARTRENT_INDIGO_HVAC_FAN_MODES (smartrent.get_fan_mode t)
        = Ok fan
     /\ dict_getitem SMARTRENT_INDIGO_HVAC_MODES (smartrent.get_mode t)
        = Ok mode)
  \/ (exists l,
        indigo.deviceTypeId (device w) = "lock"
        /\ smartrent.class r = smartrent.IsDoorLock l)
  \/ (indigo.deviceTypeId (device w) <> "thermostat"
      /\ indigo.deviceTypeId (device w) <> "lock")
  \/ (exists e, forall w',
        indigo.deviceTypeId (device w') = indigo.deviceTypeId (device w) ->
        indigo.name (device w') = indigo.name (device w) ->
        update_device_from_smartrent (Some r) w' = (Raise e, received r w')).
Proof.
  destruct (decide (indigo.deviceTypeId (device w) = "thermostat")) as [Ht|Ht];
    [|destruct (decide (indigo.deviceTypeId (device w) = "lock")) as [Hl|Hl]].
  - destruct (smartrent.class r) as [t| | | | |] eqn:Hc.
    1: destruct (dict_getitem SMARTRENT_INDIGO_HVAC_FAN_MODES
                   (smartrent.get_fan_mode t)) as [e1|fan] eqn:Hfan.
    2: destruct (dict_getitem SMARTRENT_INDIGO_HVAC_MODES
                   (smartrent.get_mode t)) as [e2|mode] eqn:Hmode.
    3: { left. by exists t, fan, mode. }
    1: { do 3 right. exists e1. intros w' Hty Hnm.
         apply (update_device_from_smartrent_thermostat_KeyError _ _ t);
           [congruence|done|by left]. }
    1: { do 3 right. exists e2. intros w' Hty Hnm.
         apply (update_device_from_smartrent_thermostat_KeyError _ _ t);
           [congruence|done|right]. split; [by exists fan | done]. }
    all: do 3 right; exists (TypeError (mismatch_message (device w)));
      intros w' Hty Hnm;
      replace (mismatch_message (device w)) with (mismatch_message (device w'))
        by (unfold mismatch_message; by rewrite Hty, Hnm);
      apply update_device_from_smartrent_mismatch_received;
      unfold category_mismatch, isinstance_Thermostat; by rewrite Hty, Ht, Hc.
  - destruct (smartrent.class r) as [|l| | | |] eqn:Hc.
    2: { right; left. by exists l. }
    all: do 3 right; exists (TypeError (mismatch_message (device w)));
      intros w' Hty Hnm;
      replace (mismatch_message (device w)) with (mismatch_message (device w'))
        by (unfold mismatch_message; by rewrite Hty, Hnm);
      apply update_device_from_smartrent_mismatch_received;
      unfold category_mismatch, isinstance_DoorLock;
      rewrite Hty, (bool_decide_eq_false_2 _ Ht), Hl, Hc; reflexivity.
  - right; right; left. by split.
Qed.

(** X4.  A synchronisation works on the device and on the log only: it
    submits no coroutine, installs no update handler and keeps the
    directory; on the device it keeps the identifier, the name, the type
    and the properties; and it logs nothing but the debug record of the SmartRent device it works on, which it logs once a
    device is resolved, however the call ends. *)
Theorem update_device_from_smartrent_frame (w : world)
    (sr : option smartrent.Device) :
  let w' := after (update_device_from_smartrent sr) w in
  api (self w') = api (self w)
  /\ loop (self w') = loop (self w)
  /\ update_callbacks (self w') = update_callbacks (self w)
  /\ indigo.id (device w') = indigo.id (device w)
  /\ indigo.name (device w') = indigo.name (device w)
  /\ indigo.deviceTypeId (device w') = indigo.deviceTypeId (device w)
  /\ indigo.pluginProps (device w') = indigo.pluginProps (device w)
  /\ (forall r, resolves w sr r ->
        logger (self w')
        = logger (self w)
          ++ [ {| levelname := DEBUG; msg := "Received device update: {}";
                  args := [ArgVars r] |} ])
  /\ ((forall r, ~ resolves w sr r) -> w' = w).
Proof.
  intros w'. subst w'.
  assert (Hsome : forall r,
    let w' := after (update_device_from_smartrent (Some r)) w in
    api (self w') = api (self w)
    /\ loop (self w') = loop (self w)
    /\ update_callbacks (self w') = update_callbacks (self w)
    /\ indigo.id (device w') = indigo.id (device w)
    /\ indigo.name (device w') = indigo.name (device w)
    /\ indigo.deviceTypeId (device w') = indigo.deviceTypeId (device w)
    /\ indigo.pluginProps (device w') = indigo.pluginProps (device w)
    /\ logger (self w')
        = logger (self w)
          ++ [ {| levelname := DEBUG; msg := "Received device update: {}";
                  args := [ArgVars r] |} ]).
  { intros r. unfold after.
    destruct (update_device_from_smartrent_cases w r)
      as [(t & fan & mode & Ht & Hc & Hfan & Hmode)
         |[(l & Ht & Hc)|[[Ht Hl]|[e He]]]].
    - rewrite (update_device_from_smartrent_thermostat_ok _ _ _ _ _
                 Ht Hc Hfan Hmode). by repeat split.
    - rewrite (update_device_from_smartrent_lock_ok _ _ _ Ht Hc).
      by repeat split.
    - rewrite (update_device_from_smartrent_other_ok _ _ Ht Hl).
      by repeat split.
    - specialize (He w eq_refl eq_refl).
      rewrite He. by repeat split. }
  destruct sr as [r|].
  - destruct (Hsome r) as (H1 & H2 & H3 & H4 & H5 & H6 & H7 & H10).
    repeat split; try assumption.
    + by intros r' <-.
    + intros Hn. by destruct (Hn r).
  - destruct (outcome get_smartrent_device_for_device w) as [e|r] eqn:E.
    + unfold after.
      rewrite (update_device_from_smartrent_failed_lookup _ _ E). cbn.
      repeat split; try reflexivity.
      intros r Hr. unfold resolves in Hr. rewrite E in Hr. discriminate Hr.
    + assert (R : resolves w None r) by exact E.
      unfold after. rewrite (update_device_from_smartrent_resolved _ _ _ R).
      destruct (Hsome r) as (H1 & H2 & H3 & H4 & H5 & H6 & H7 & H10).
      repeat split; try assumption.
      * intros r' Hr'. unfold resolves in Hr'. rewrite E in Hr'.
        by injection Hr' as <-.
      * intros Hn. by destruct (Hn r).
Qed.

Lemma write_all_lookup_other updates key (st : gmap string indigo.state) :
  key ∉ map fst updates -> write_all updates st !! key = st !! key.
Proof.
  revert st. induction updates as [|[k v] updates IH]; intros st Hk; [done|].
  cbn in Hk. apply not_elem_of_cons in Hk as [Hk1 Hk2].
  change (write_all updates (<[k:=(v, None)]> st) !! key = st !! key).
  rewrite IH by done. by apply lookup_insert_ne.
Qed.

(** X5.  The states outside the list of the declared type are never
    written: a synchronisation of a [thermostat] leaves every state other
    than the nine thermostat states, and the state image, as they were; a
    synchronisation of a [lock] leaves every state other than [online],
    [batteryLevel], [onOffState] and [lockStatus] as it was.  This holds
    however the call ends. *)
Theorem update_device_from_smartrent_writes_only (w : world)
    (sr : option smartrent.Device) (key : string) :
  let d' := device (after (update_device_from_smartrent sr) w) in
  (indigo.deviceTypeId (device w) = "thermostat" ->
   indigo.stateImage d' = indigo.stateImage (device w)
   /\ (key ∉ thermostat_keys ->
       indigo.states d' !! key = indigo.states (device w) !! key))
  /\ (indigo.deviceTypeId (device w) = "lock" ->
      key ∉ lock_keys ->
      indigo.states d' !! key = indigo.states (device w) !! key).
Proof.
  intros d'. subst d'.
  assert (Hsome : forall r,
    let d' := device (after (update_device_from_smartrent (Some r)) w) in
    (indigo.deviceTypeId (device w) = "thermostat" ->
     indigo.stateImage d' = indigo.stateImage (device w)
     /\ (key ∉ thermostat_keys ->
         indigo.states d' !! key = indigo.states (device w) !! key))
    /\ (indigo.deviceTypeId (device w) = "lock" ->
        key ∉ lock_keys ->
        indigo.states d' !! key = indigo.states (device w) !! key)).
  { intros r. unfold after.
    destruct (update_device_from_smartrent_cases w r)
      as [(t & fan & mode & Ht & Hc & Hfan & Hmode)
         |[(l & Ht & Hc)|[[Ht Hl]|[e He]]]].
    - rewrite (update_device_from_smartrent_thermostat_ok _ _ _ _ _
                 Ht Hc Hfan Hmode). cbn -[write_all].
      split; [|intros E; rewrite Ht in E; discriminate E].
      intros _. split; [done|]. intros Hk.
      by apply write_all_lookup_other.
    - rewrite (update_device_from_smartrent_lock_ok _ _ _ Ht Hc).
      cbn -[write_all].
      split; [intros E; rewrite Ht in E; discriminate E|].
      intros _ Hk. unfold lock_keys in Hk.
      apply not_elem_of_cons in Hk as [K1 Hk].
      apply not_elem_of_cons in Hk as [K2 Hk].
      apply not_elem_of_cons in Hk as [K3 Hk].
      apply not_elem_of_cons in Hk as [K4 _].
      rewrite write_all_lookup_other.
      + by apply lookup_insert_ne.
      + cbn. intros Hin.
        repeat (apply elem_of_cons in Hin as [Hin|Hin]; [done|]).
        by apply elem_of_nil in Hin.
    - split; intros E; by rewrite E in *.
    - specialize (He w eq_refl eq_refl).
      rewrite He. by split. }
  destruct sr as [r|]; [apply Hsome|].
  destruct (outcome get_smartrent_device_for_device w) as [e|r] eqn:E.
  - unfold after. rewrite (update_device_from_smartrent_failed_lookup _ _ E).
    by split.
  - assert (R : resolves w None r) by exact E.
    unfold after. rewrite (update_device_from_smartrent_resolved _ _ _ R).
    apply Hsome.
Qed.

Lemma update_device_from_smartrent_writes_only_witness :
  indigo.states
    (device (after (update_device_from_smartrent None)
                   (sample_world "thermostat" "7"))) !! "note"
  = Some (indigo.Val (PyStr "kept"), None).
Proof.
  destruct (update_device_from_smartrent_writes_only
              (sample_world "thermostat" "7") None "note") as [H _].
  destruct (H eq_refl) as [_ H'].
  etrans; [apply H'|reflexivity].
  intros Hin. unfold thermostat_keys in Hin.
  repeat (apply elem_of_cons in Hin as [Hin|Hin]; [discriminate Hin|]).
  by apply elem_of_nil in Hin.
Defined.

Lemma dict_getitem_fan_mode (v : pyval) :
  v ∉ [PyStr "on"; PyStr "auto"] ->
  exists key, dict_getitem SMARTRENT_INDIGO_HVAC_FAN_MODES v = Raise (KeyError key).
Proof.
  intros H. destruct v as [ |b|z|s]; cbn; eauto.
  unfold SMARTRENT_INDIGO_HVAC_FAN_MODES, dict_lookup.
  repeat case_decide; subst; eauto; exfalso; apply H;
    repeat first [apply list_elem_of_here | apply list_elem_of_further].
Qed.

Lemma dict_getitem_hvac_mode (v : pyval) :
  v ∉ [PyStr "cool"; PyStr "heat"; PyStr "auto"; PyStr "off"] ->
  exists key, dict_getitem SMARTRENT_INDIGO_HVAC_MODES v = Raise (KeyError key).
Proof.
  intros H. destruct v as [ |b|z|s]; cbn; eauto.
  unfold SMARTRENT_INDIGO_HVAC_MODES, dict_lookup.
  repeat case_decide; subst; eauto; exfalso; apply H;
    repeat first [apply list_elem_of_here | apply list_elem_of_further].
Qed.

Lemma dict_getitem_raises {V} (d : list (string * V)) (v : pyval) e :
  dict_getitem d v = Raise e -> exists key, e = KeyError key.
Proof.
  destruct v as [ |b|z|s]; cbn; intros H; try (injection H as <-; eauto).
  destruct (dict_lookup d s); [discriminate H | injection H as <-; eauto].
Qed.

(** X6.  A thermostat whose fan mode is not ["on"] or ["auto"], or whose
    mode is not ["cool"], ["heat"], ["auto"] or ["off"] (as before its
    attributes are fetched, when they are [None]), cannot be synchronised:
    the call raises [KeyError] and writes nothing, not even [online]. *)
Theorem update_device_from_smartrent_unknown_mode (w : world) sr r t :
  indigo.deviceTypeId (device w) = "thermostat" ->
  resolves w sr r ->
  smartrent.class r = smartrent.IsThermostat t ->
  smartrent.get_fan_mode t ∉ [PyStr "on"; PyStr "auto"]
  \/ smartrent.get_mode t ∉ [PyStr "cool"; PyStr "heat"; PyStr "auto"; PyStr "off"] ->
  (exists key,
     outcome (update_device_from_smartrent sr) w = Raise (KeyError key))
  /\ device (after (update_device_from_smartrent sr) w) = device w.
Proof.
  intros Ht Hr Hc Hm. unfold outcome, after.
  rewrite (update_device_from_smartrent_resolved _ _ _ Hr).
  assert (exists e,
    dict_getitem SMARTRENT_INDIGO_HVAC_FAN_MODES (smartrent.get_fan_mode t)
      = Raise e
    \/ ((exists fan,
          dict_getitem SMARTRENT_INDIGO_HVAC_FAN_MODES (smartrent.get_fan_mode t)
          = Ok fan)
       /\ dict_getitem SMARTRENT_INDIGO_HVAC_MODES (smartrent.get_mode t)
          = Raise e)) as [e He].
  { destruct (dict_getitem SMARTRENT_INDIGO_HVAC_FAN_MODES
                (smartrent.get_fan_mode t)) as [e|fan] eqn:Hfan; [eauto|].
    destruct Hm as [Hm|Hm].
    - destruct (dict_getitem_fan_mode _ Hm) as [k Hk].
      rewrite Hk in Hfan. discriminate Hfan.
    - destruct (dict_getitem_hvac_mode _ Hm) as [k Hk]. eauto. }
  rewrite (update_device_from_smartrent_thermostat_KeyError _ _ _ _ Ht Hc He).
  cbn. split; [|done].
  destruct He as [He|[_ He]]; apply dict_getitem_raises in He as [k ->]; eauto.
Qed.

Lemma update_device_from_smartrent_unknown_mode_witness :
  outcome (update_device_from_smartrent (Some blank_thermostat))
          (sample_world "thermostat" "7")
  = Raise (KeyError "None")
  /\ device (after (update_device_from_smartrent (Some blank_thermostat))
                   (sample_world "thermostat" "7"))
     = indigo_device "thermostat" "7".
Proof.
  destruct (update_device_from_smartrent_unknown_mode
              (sample_world "thermostat" "7") (Some blank_thermostat)
              blank_thermostat _ eq_refl eq_refl eq_refl) as [_ H].
  - left. cbn. intros Hin.
    repeat (apply elem_of_cons in Hin as [Hin|Hin]; [discriminate Hin|]).
    by apply elem_of_nil in Hin.
  - split; [reflexivity | exact H].
Defined.

(** X7.  The status text and the state image of a lock follow the truth
    value of what the lock reports, and always agree with each other, while
    [onOffState] holds the reported value itself: a lock whose state is not
    known ([None]) is shown as unlocked with [onOffState] [None]. *)
Theorem update_device_from_smartrent_lock_status (w : world) sr r l :
  indigo.deviceTypeId (device w) = "lock" ->
  resolves w sr r ->
  smartrent.class r = smartrent.IsDoorLock l ->
  let d' := device (after (update_device_from_smartrent sr) w) in
  let locked := truthy (smartrent.get_locked l) in
  outcome (update_device_from_smartrent sr) w = Ok tt
  /\ indigo.states d' !! "onOffState"
     = Some (indigo.Val (smartrent.get_locked l), None)
  /\ indigo.states d' !! "lockStatus"
     = Some (indigo.Val (PyStr (if locked then "locked" else "unlocked")),
             Some (if locked then "Locked" else "Unlocked"))
  /\ indigo.stateImage d'
     = Some (if locked then indigo.kStateImageSel.Locked
             else indigo.kStateImageSel.Unlocked).
Proof.
  intros Ht Hr Hc d' locked. subst d' locked. unfold outcome, after.
  rewrite (update_device_from_smartrent_resolved _ _ _ Hr).
  rewrite (update_device_from_smartrent_lock_ok _ _ _ Ht Hc). cbn.
  repeat split; by simplify_map_eq.
Qed.

Lemma update_device_from_smartrent_lock_status_witness :
  let unknown :=
    {| smartrent._device_id := 12; smartrent.get_name := "Front door";
       smartrent.get_online := PyBool true;
       smartrent.class := smartrent.IsDoorLock
         {| smartrent.get_locked := PyNone;
            smartrent.get_battery_level := PyNone |} |} in
  let d' := device (after (update_device_from_smartrent (Some unknown))
                          (sample_world "lock" "12")) in
  indigo.states d' !! "onOffState" = Some (indigo.Val PyNone, None)
  /\ indigo.states d' !! "lockStatus"
     = Some (indigo.Val (PyStr "unlocked"), Some "Unlocked").
Proof.
  intros unknown d'.
  destruct (update_device_from_smartrent_lock_status
              (sample_world "lock" "12") (Some unknown) unknown _
              eq_refl eq_refl eq_refl) as (_ & H1 & H2 & _).
  split; [exact H1 | exact H2].
Defined.

(** *** The last snapshot wins *)

Lemma write_all_lookup_in updates key (st st' : gmap string indigo.state) :
  key ∈ map fst updates ->
  write_all updates st !! key = write_all updates st' !! key.
Proof.
  revert st st'. induction updates as [|[k v] updates IH]; intros st st' Hk.
  - by apply elem_of_nil in Hk.
  - change (write_all updates (<[k:=(v, None)]> st) !! key
            = write_all updates (<[k:=(v, None)]> st') !! key).
    destruct (decide (key ∈ map fst updates)) as [Hin|Hout].
    + by apply IH.
    + rewrite !write_all_lookup_other by done.
      cbn in Hk. apply elem_of_cons in Hk as [->|Hk]; [|done].
      by rewrite !lookup_insert_eq.
Qed.

Lemma write_all_absorb updates1 updates2 (st : gmap string indigo.state) :
  map fst updates1 = map fst updates2 ->
  write_all updates2 (write_all updates1 st) = write_all updates2 st.
Proof.
  intros Hkeys. apply map_eq. intros key.
  destruct (decide (key ∈ map fst updates2)) as [Hin|Hout].
  - by apply write_all_lookup_in.
  - rewrite !(write_all_lookup_other updates2) by done.
    apply write_all_lookup_other. by rewrite Hkeys.
Qed.

Lemma write_all_insert_absorb updates1 updates2 k x1 x2
    (st : gmap string indigo.state) :
  map fst updates1 = map fst updates2 ->
  write_all updates2 (<[k:=x2]> (write_all updates1 (<[k:=x1]> st)))
  = write_all updates2 (<[k:=x2]> st).
Proof.
  intros Hkeys. apply map_eq. intros key.
  destruct (decide (key ∈ map fst updates2)) as [Hin|Hout].
  - by apply write_all_lookup_in.
  - rewrite !(write_all_lookup_other updates2) by done.
    destruct (decide (k = key)) as [->|Hne].
    + by rewrite !lookup_insert_eq.
    + rewrite !lookup_insert_ne by done.
      rewrite write_all_lookup_other by (by rewrite Hkeys).
      by rewrite lookup_insert_ne.
Qed.

(** X8.  When two snapshots are applied one after the other, the device
    ends as if the second alone had been applied: nothing of the first
    snapshot is left in the states or in the state image. *)
Theorem update_device_from_smartrent_last_wins (w : world)
    (r1 r2 : smartrent.Device) :
  outcome (update_device_from_smartrent (Some r1)) w = Ok tt ->
  outcome (update_device_from_smartrent (Some r2)) w = Ok tt ->
  let w1 := after (update_device_from_smartrent (Some r1)) w in
  outcome (update_device_from_smartrent (Some r2)) w1 = Ok tt
  /\ device (after (update_device_from_smartrent (Some r2)) w1)
     = device (after (update_device_from_smartrent (Some r2)) w).
Proof.
  intros H1 H2 w1. subst w1. unfold outcome, after in *.
  destruct (update_device_from_smartrent_cases w r1)
    as [(t1 & fan1 & mode1 & Ht & Hc1 & Hfan1 & Hmode1)
       |[(l1 & Ht & Hc1)|[[Ht Hl]|[e He]]]].
  - rewrite (update_device_from_smartrent_thermostat_ok _ _ _ _ _
               Ht Hc1 Hfan1 Hmode1).
    destruct (update_device_from_smartrent_cases w r2)
      as [(t2 & fan2 & mode2 & _ & Hc2 & Hfan2 & Hmode2)
         |[(l2 & Hl & _)|[[Hn _]|[e He]]]]; [|congruence|done|].
    + rewrite !(update_device_from_smartrent_thermostat_ok _ r2 t2 fan2 mode2)
        by done.
      cbn -[write_all]. split; [done|].
      unfold indigo.set_states. cbn -[write_all].
      by rewrite write_all_absorb.
    + specialize (He w eq_refl eq_refl).
      rewrite He in H2. discriminate H2.
  - rewrite (update_device_from_smartrent_lock_ok _ _ _ Ht Hc1).
    destruct (update_device_from_smartrent_cases w r2)
      as [(t2 & fan2 & mode2 & Ht2 & _)
         |[(l2 & _ & Hc2)|[[_ Hn]|[e He]]]]; [congruence| |done|].
    + rewrite !(update_device_from_smartrent_lock_ok _ r2 l2) by done.
      cbn -[write_all]. split; [done|].
      unfold indigo.set_states, indigo.set_stateImage. cbn -[write_all].
      by rewrite write_all_insert_absorb.
    + specialize (He w eq_refl eq_refl).
      rewrite He in H2. discriminate H2.
  - rewrite (update_device_from_smartrent_other_ok _ r1 Ht Hl).
    rewrite !(update_device_from_smartrent_other_ok _ r2) by done.
    cbn -[write_all]. split; [done|].
    unfold indigo.set_states. cbn -[write_all].
    by rewrite write_all_absorb.
  - specialize (He w eq_refl eq_refl).
    rewrite He in H1. discriminate H1.
Qed.

Lemma update_device_from_smartrent_last_wins_witness :
  device (after (update_device_from_smartrent (Some (front_door false)))
            (after (update_device_from_smartrent (Some (front_door true)))
                   (sample_world "lock" "12")))
  = device (after (update_device_from_smartrent (Some (front_door false)))
                  (sample_world "lock" "12")).
Proof.
  exact (proj2 (update_device_from_smartrent_last_wins
                  (sample_world "lock" "12") (front_door true)
                  (front_door false) eq_refl eq_refl)).
Defined.

(** ** The device life cycle *)

(** A synchronisation with a given SmartRent device, on any world whose
    device has a given type and name: one outcome [o] and one function [f]
    on devices describe it. *)
Lemma update_device_from_smartrent_eval (w0 : world) (r : smartrent.Device) :
  exists o f,
    (forall d, f (f d) = f d)
    /\ (forall d, indigo.id (f d) = indigo.id d
                  /\ indigo.name (f d) = indigo.name d
                  /\ indigo.deviceTypeId (f d) = indigo.deviceTypeId d
                  /\ indigo.pluginProps (f d) = indigo.pluginProps d)
    /\ (o <> Ok tt -> forall d, f d = d)
    /\ forall w,
         indigo.deviceTypeId (device w) = indigo.deviceTypeId (device w0) ->
         indigo.name (device w) = indigo.name (device w0) ->
         update_device_from_smartrent (Some r) w
         = (o, {| self := self (received r w); device := f (device w) |}).
Proof.
  destruct (update_device_from_smartrent_cases w0 r)
    as [(t & fan & mode & Ht & Hc & Hfan & Hmode)
       |[(l & Ht & Hc)|[[Ht Hl]|[e He]]]].
  - exists (Ok tt), (indigo.set_states (write_all (thermostat_updates r t fan mode))).
    split; [|split; [|split]].
    + intros d. unfold indigo.set_states. cbn -[write_all].
      by rewrite write_all_idempotent.
    + done.
    + done.
    + intros w Hty Hnm.
      apply update_device_from_smartrent_thermostat_ok; congruence.
  - eexists (Ok tt), (fun d => indigo.set_states (write_all (lock_updates r l))
      (indigo.set_states (insert "lockStatus" _) (indigo.set_stateImage _ d))).
    split; [|split; [|split]].
    + intros d. unfold indigo.set_states, indigo.set_stateImage.
      cbn -[write_all]. by rewrite write_all_insert_idempotent.
    + done.
    + done.
    + intros w Hty Hnm.
      apply update_device_from_smartrent_lock_ok; congruence.
  - exists (Ok tt), (indigo.set_states
      (write_all [("online", indigo.Val (smartrent.get_online r))])).
    split; [|split; [|split]].
    + intros d. unfold indigo.set_states. cbn -[write_all].
      by rewrite write_all_idempotent.
    + done.
    + done.
    + intros w Hty Hnm.
      apply update_device_from_smartrent_other_ok; congruence.
  - exists (Raise e), (fun d => d).
    split; [done|split; [done|split; [done|]]].
    intros w Hty Hnm. rewrite (He w Hty Hnm). reflexivity.
Qed.

(** The world after the debug record of [deviceStartComm]. *)
Lemma deviceStartComm_eval (w : world) r o f :
  outcome get_smartrent_device_for_device w = Ok r ->
  (forall w',
     indigo.deviceTypeId (device w') = indigo.deviceTypeId (device w) ->
     indigo.name (device w') = indigo.name (device w) ->
     update_device_from_smartrent (Some r) w'
     = (o, {| self := self (received r w'); device := f (device w') |})) ->
  deviceStartComm w
  = match o with
    | inl e =>
        (inl e,
         {| self :=
              Plugin_log DEBUG "Received device update: {}" [ArgVars r]
                (Plugin_log DEBUG "Starting {}..."
                   [ArgStr (indigo.name (device w))] (self w));
            device := f (device w) |})
    | inr _ =>
        (Ok PyNone,
         {| self :=
              {| api := api (self w);
                 logger :=
                   logger (self w)
                   ++ [ {| levelname := DEBUG; msg := "Starting {}...";
                           args := [ArgStr (indigo.name (device w))] |};
                        {| levelname := DEBUG;
                           msg := "Received device update: {}";
                           args := [ArgVars r] |} ];
                 loop := loop (self w)
                   ++ [smartrent._start_updater (smartrent._device_id r)];
                 update_callbacks := update_callbacks (self w)
                   ++ [(smartrent._device_id r, indigo.id (device w))] |};
            device := f (device w) |})
    end.
Proof.
  intros Hr Hsync.
  rewrite (deviceStartComm_resolved _ _ Hr). unfold_M.
  rewrite Hsync by done.
  destruct o as [e|[]]; [reflexivity|].
  unfold set_update_callback, run. unfold_M. cbn.
  rewrite <- app_assoc. cbn.
  destruct (update_device_from_smartrent_eval w r)
    as (o' & f' & _ & Hkeep & _ & Hsync').
  specialize (Hsync' w eq_refl eq_refl). rewrite (Hsync w) in Hsync' by done.
  injection Hsync' as _ Hf. rewrite Hf.
  by destruct (Hkeep (device w)) as (-> & _).
Qed.

(** X9.  When the binding resolves and the synchronisation with the
    resolved device succeeds, [deviceStartComm] returns [None] (not [True]),
    leaves the device as that synchronisation leaves it, installs one update
    handler for the pair of the two devices and submits one coroutine, the
    start of the updater of the SmartRent device. *)
Theorem deviceStartComm_started (w : world) (r : smartrent.Device) :
  outcome get_smartrent_device_for_device w = Ok r ->
  outcome (update_device_from_smartrent (Some r)) w = Ok tt ->
  let w' := after deviceStartComm w in
  outcome deviceStartComm w = Ok PyNone
  /\ device w' = device (after (update_device_from_smartrent (Some r)) w)
  /\ update_callbacks (self w')
     = update_callbacks (self w)
       ++ [(smartrent._device_id r, indigo.id (device w))]
  /\ loop (self w')
     = loop (self w) ++ [smartrent._start_updater (smartrent._device_id r)]
  /\ api (self w') = api (self w).
Proof.
  intros Hr Hs w'. subst w'. unfold outcome, after in *.
  destruct (update_device_from_smartrent_eval w r)
    as (o & f & _ & _ & _ & Hsync).
  rewrite (deviceStartComm_eval w r o f Hr Hsync).
  rewrite (Hsync w eq_refl eq_refl) in Hs |- *. cbn in Hs. subst o.
  by repeat split.
Qed.

Lemma deviceStartComm_started_witness :
  outcome deviceStartComm (sample_world "thermostat" "7") = Ok PyNone
  /\ update_callbacks (self (after deviceStartComm (sample_world "thermostat" "7")))
     = [(7, 1001)].
Proof.
  destruct (deviceStartComm_started (sample_world "thermostat" "7")
              hall_thermostat) as (H1 & _ & H2 & _).
  - vm_compute. reflexivity.
  - vm_compute. reflexivity.
  - split; [exact H1 | exact H2].
Defined.

(** X10.  [deviceStopComm] removes nothing, so a device that is started,
    stopped and started again has two update handlers and two starts of the
    updater, while the device itself is as after the first start. *)
Theorem restart_installs_second_handler (w : world) (r : smartrent.Device) :
  outcome get_smartrent_device_for_device w = Ok r ->
  outcome (update_device_from_smartrent (Some r)) w = Ok tt ->
  let w1 := after deviceStartComm w in
  let w2 := after deviceStopComm w1 in
  let w3 := after deviceStartComm w2 in
  update_callbacks (self w2) = update_callbacks (self w1)
  /\ loop (self w2) = loop (self w1)
  /\ outcome deviceStartComm w2 = Ok PyNone
  /\ update_callbacks (self w3)
     = update_callbacks (self w)
       ++ [ (smartrent._device_id r, indigo.id (device w));
            (smartrent._device_id r, indigo.id (device w)) ]
  /\ loop (self w3)
     = loop (self w)
       ++ [ smartrent._start_updater (smartrent._device_id r);
            smartrent._start_updater (smartrent._device_id r) ]
  /\ device w3 = device w1.
Proof.
  intros Hr Hs w1 w2 w3. subst w3 w2 w1. unfold outcome, after in *.
  destruct (update_device_from_smartrent_eval w r)
    as (o & f & Hidem & Hkeep & _ & Hsync).
  rewrite (deviceStartComm_eval w r o f Hr Hsync).
  rewrite (Hsync w eq_refl eq_refl) in Hs. cbn in Hs. subst o.
  destruct (Hkeep (device w)) as (Kid & Knm & Kty & Kpp).
  unfold deviceStopComm, log. unfold_M. cbn.
  match goal with
  | |- context [deviceStartComm ?w2] =>
      assert (Hr2 : outcome get_smartrent_device_for_device w2 = Ok r)
        by (rewrite <- Hr; by apply get_smartrent_device_for_device_ext);
      rewrite (deviceStartComm_eval w2 r (Ok tt) f Hr2)
  end.
  - cbn. rewrite Hidem, Kid, <- !app_assoc. by repeat split.
  - intros w' Hty Hnm. apply Hsync; cbn in *; congruence.
Qed.

Lemma restart_installs_second_handler_witness :
  update_callbacks
    (self (after deviceStartComm
             (after deviceStopComm
                (after deviceStartComm (sample_world "lock" "12")))))
  = [(12, 1001); (12, 1001)].
Proof.
  destruct (restart_installs_second_handler (sample_world "lock" "12")
              (front_door true)) as (_ & _ & _ & H & _).
  - vm_compute. reflexivity.
  - vm_compute. reflexivity.
  - exact H.
Defined.

(** ** The action handlers *)

Ltac resolve_lookup H :=
  rewrite (get_smartrent_device_for_device_resolved _ _ H);
  cbv beta iota delta [Ok].

(** X11.  [actionControlDevice] on a device whose binding resolves to [r]:
    for a device of type [lock] bound to a door lock, [TurnOn] submits
    [async_set_locked(True)], [TurnOff] submits [async_set_locked(False)],
    and every other device action (such as [Toggle]) submits nothing; for a
    device of any other type no device action submits anything.  Nothing is
    logged and the device is not touched. *)
Theorem actionControlDevice_lock (w : world) r (action : indigo.DeviceAction.t) :
  outcome get_smartrent_device_for_device w = Ok r ->
  (indigo.deviceTypeId (device w) = "lock" ->
   isinstance_DoorLock r = true ->
   actionControlDevice action w
   = (Ok tt,
      {| self :=
           {| api := api (self w); logger := logger (self w);
              loop := loop (self w)
                ++ match indigo.DeviceAction.deviceAction action with
                   | indigo.kDeviceAction.TurnOn =>
                       [smartrent.async_set_locked (smartrent._device_id r) true]
                   | indigo.kDeviceAction.TurnOff =>
                       [smartrent.async_set_locked (smartrent._device_id r) false]
                   | _ => []
                   end;
              update_callbacks := update_callbacks (self w) |};
         device := device w |}))
  /\ (indigo.deviceTypeId (device w) <> "lock" ->
      actionControlDevice action w = (Ok tt, w)).
Proof.
  intros Hr. split.
  - intros Ht Hi. unfold actionControlDevice. unfold_M. resolve_lookup Hr.
    rewrite Ht, Hi. unfold run. unfold_M.
    destruct action as [[ | | |name]]; cbn; rewrite ?app_nil_r;
      try reflexivity; by destruct w as [[] ?].
  - intros Ht. unfold actionControlDevice. unfold_M. resolve_lookup Hr.
    by rewrite (bool_decide_eq_false_2 _ Ht).
Qed.

Lemma actionControlDevice_lock_witness :
  loop (self (after (actionControlDevice
                       {| indigo.DeviceAction.deviceAction :=
                            indigo.kDeviceAction.TurnOff |})
                    (sample_world "lock" "12")))
  = [smartrent.async_set_locked 12 false].
Proof.
  destruct (actionControlDevice_lock (sample_world "lock" "12") (front_door true)
              {| indigo.DeviceAction.deviceAction :=
                   indigo.kDeviceAction.TurnOff |}) as [H _].
  - vm_compute. reflexivity.
  - unfold after. rewrite H; reflexivity.
Defined.

(** X12.  An action on a device that is bound to a SmartRent device of the
    wrong class is refused quietly: a device action on a [lock] that is not
    bound to a door lock, and any thermostat action on a device that is not
    bound to a thermostat, return normally, log one error and submit
    nothing.  (The synchronisation raises in the same situation.) *)
Theorem action_on_wrong_class (w : world) (r : smartrent.Device) :
  outcome get_smartrent_device_for_device w = Ok r ->
  let refused :=
    (Ok tt,
     {| self :=
          Plugin_log ERROR
            "The SmartRent device associated with '{}' was not found to be a Thermostat!"
            [ArgStr (indigo.name (device w))] (self w);
        device := device w |}) in
  (indigo.deviceTypeId (device w) = "lock" ->
   isinstance_DoorLock r = false ->
   forall action, actionControlDevice action w = refused)
  /\ (isinstance_Thermostat r = false ->
      forall action, actionControlThermostat action w = refused).
Proof.
  intros Hr refused. subst refused. split.
  - intros Ht Hi action. unfold actionControlDevice. unfold_M.
    resolve_lookup Hr. by rewrite Ht, Hi.
  - intros Hi action. unfold actionControlThermostat. unfold_M.
    resolve_lookup Hr. by rewrite Hi.
Qed.

Lemma action_on_wrong_class_witness :
  map levelname
    (logger (self (after (actionControlThermostat
                            (thermostat_action
                               indigo.kThermostatAction.SetCoolSetpoint
                               (indigo.HvacMode indigo.kHvacMode.Cool) 70))
                         (sample_world "thermostat" "12"))))
  = [ERROR].
Proof.
  destruct (action_on_wrong_class (sample_world "thermostat" "12")
              (front_door true)) as [_ H].
  - vm_compute. reflexivity.
  - unfold after. rewrite H; reflexivity.
Defined.

(** X13.  A status request is honoured for every bound device, whatever
    its declared type and the class of the SmartRent device: it submits
    [_async_fetch_state] on the resolved device.  The other universal
    actions submit nothing. *)
Theorem actionControlUniversal_request_status (w : world) r
    (action : indigo.UniversalAction.t) :
  outcome get_smartrent_device_for_device w = Ok r ->
  actionControlUniversal action w
  = (Ok tt,
     {| self :=
          {| api := api (self w); logger := logger (self w);
             loop := loop (self w)
               ++ match indigo.UniversalAction.deviceAction action with
                  | indigo.kUniversalAction.RequestStatus =>
                      [smartrent._async_fetch_state (smartrent._device_id r)]
                  | _ => []
                  end;
             update_callbacks := update_callbacks (self w) |};
        device := device w |}).
Proof.
  intros Hr. unfold actionControlUniversal. unfold_M. resolve_lookup Hr.
  unfold run. unfold_M.
  destruct action as [[ | | | ]]; cbn; rewrite ?app_nil_r;
    try reflexivity; by destruct w as [[] ?].
Qed.

Lemma actionControlUniversal_request_status_witness :
  loop (self (after (actionControlUniversal
                       {| indigo.UniversalAction.deviceAction :=
                            indigo.kUniversalAction.RequestStatus |})
                    (sample_world "leak_sensor" "12")))
  = [smartrent._async_fetch_state 12].
Proof.
  unfold after.
  rewrite (actionControlUniversal_request_status
             (sample_world "leak_sensor" "12") (front_door true)).
  - reflexivity.
  - vm_compute. reflexivity.
Defined.

(** *** The mode tables *)







(** The comparisons of an action with the members of its enumeration. *)
Ltac decide_action :=
  repeat match goal with
  | |- context [bool_decide (?a = ?b)] =>
      first [ rewrite (bool_decide_eq_true_2 (a = b)) by reflexivity
            | rewrite (bool_decide_eq_false_2 (a = b)) by discriminate ]
  end;
  cbv beta iota.

Ltac well_behaved_branch Hr :=
  unfold well_behaved_action, after, run, log; unfold_M; cbn;
  split; [reflexivity|split; [reflexivity|split; [reflexivity|]]];
  first
    [ exists [], []; rewrite !app_nil_r;
      split; [reflexivity|split; [reflexivity|split; [cbn; lia|]]];
      intros c r' Hc; by apply elem_of_nil in Hc
    | eexists [_], [];
      rewrite !app_nil_r;
      split; [reflexivity|split; [reflexivity|split; [cbn; lia|]]];
      intros c r' Hc Hr'; apply list_elem_of_singleton in Hc as ->;
      rewrite Hr in Hr'; by injection Hr' as <-
    | eexists [], [_];
      rewrite !app_nil_r;
      split; [reflexivity|split; [reflexivity|split; [cbn; lia|]]];
      intros c r' Hc; by apply elem_of_nil in Hc ].

Lemma well_behaved_failed_lookup (m : M unit) (w : world) e :
  m w = (Raise e, w) -> well_behaved_action m w.
Proof.
  intros H. unfold well_behaved_action, after. rewrite H. cbn.
  split; [reflexivity|split; [reflexivity|split; [reflexivity|]]].
  exists [], []. rewrite !app_nil_r.
  split; [reflexivity|split; [reflexivity|split; [cbn; lia|]]].
  intros c r Hc. by apply elem_of_nil in Hc.
Qed.

(** X15.  Every action handler, for every action and in every state:
    the device, the directory and the update handlers are untouched, and
    the handler either submits exactly one coroutine, which is called on
    the SmartRent device that the binding resolves to, or logs exactly one
    record, or does nothing at all. *)
Theorem action_handlers_well_behaved (w : world) :
  (forall action, well_behaved_action (actionControlDevice action) w)
  /\ (forall action, well_behaved_action (actionControlUniversal action) w)
  /\ (forall action, well_behaved_action (actionControlThermostat action) w).
Proof.
  pose proof (get_smartrent_device_for_device_frame w) as F.
  destruct (get_smartrent_device_for_device w) as [[e|r] w0] eqn:E;
    cbn in F; subst w0.
  { split; [|split]; intros action;
      apply (well_behaved_failed_lookup _ _ e);
      [unfold actionControlDevice|unfold actionControlUniversal
      |unfold actionControlThermostat]; unfold_M; by rewrite E. }
  assert (Hr : outcome get_smartrent_device_for_device w = inr r)
    by (unfold outcome; by rewrite E).
  split; [|split].
  - intros [a]. unfold well_behaved_action, after, actionControlDevice.
    unfold_M. rewrite E. cbv beta iota delta [Ok].
    destruct (bool_decide (indigo.deviceTypeId (device w) = "lock"));
      [|by well_behaved_branch Hr].
    destruct (isinstance_DoorLock r); cbn [negb];
      [|by well_behaved_branch Hr].
    destruct a; by well_behaved_branch Hr.
  - intros [a]. unfold well_behaved_action, after, actionControlUniversal.
    unfold_M. rewrite E. cbv beta iota delta [Ok].
    destruct a; by well_behaved_branch Hr.
  - intros [a m v]. unfold well_behaved_action, after, actionControlThermostat.
    unfold_M. rewrite E. cbv beta iota zeta delta [Ok].
    destruct (isinstance_Thermostat r); cbn [negb];
      [|by well_behaved_branch Hr].
    destruct a;
      cbn [indigo.ThermostatAction.thermostatAction
           indigo.ThermostatAction.actionMode
           indigo.ThermostatAction.actionValue];
      decide_action;
      try (by well_behaved_branch Hr);
      try (first [ destruct (__sub__ _ _) as [e|z]
                 | destruct (__add__ _ _) as [e|z] ];
           by well_behaved_branch Hr).
    + destruct (dict_get INDIGO_SMARTRENT_HVAC_MODES m) as [s|];
        [destruct (truthy (PyStr s))|]; by well_behaved_branch Hr.
    + destruct (dict_get INDIGO_SMARTRENT_HVAC_FAN_MODES m) as [s|];
        [destruct (truthy (PyStr s))|]; by well_behaved_branch Hr.
Qed.

(** ** Preferences, start-up and logging *)

Ltac in_list := repeat first [apply list_elem_of_here | apply list_elem_of_further].

Lemma length_zero_iff_empty (s : string) :
  (String.length s =? 0)%nat = true <-> s = "".
Proof. destruct s; cbn; split; (done || discriminate). Qed.

Lemma validatePrefsConfigUi_cases (valuesDict : gmap string string) :
  let test field :=
    (String.length (default "" (valuesDict !! field)) =? 0)%nat in
  validatePrefsConfigUi valuesDict
  = if test "email" || test "password" || test "tfa-secret" then
      Invalid valuesDict
        ((if test "tfa-secret"
          then <["tfa-secret" := "A value is required!"]> else id)
           ((if test "password"
             then <["password" := "A value is required!"]> else id)
              ((if test "email"
                then <["email" := "A value is required!"]> else id) ∅)))
    else Valid.
Proof.
  intros test. subst test. unfold validatePrefsConfigUi. cbn.
  destruct (String.length (default "" (valuesDict !! "email")) =? 0)%nat;
    destruct (String.length (default "" (valuesDict !! "password")) =? 0)%nat;
    destruct (String.length (default "" (valuesDict !! "tfa-secret")) =? 0)%nat;
    reflexivity.
Qed.

(** X16.  [validatePrefsConfigUi] accepts the preferences exactly when the
    e-mail address, the password and the 2FA secret are all present and not
    empty.  Otherwise it hands back the values unchanged together with one
    error for each required field that is missing, and for no other
    field. *)
Theorem validatePrefsConfigUi_spec (valuesDict : gmap string string) :
  (validatePrefsConfigUi valuesDict = Valid <->
   forall field, field ∈ required_fields -> ~ missing valuesDict field)
  /\ forall values errors,
       validatePrefsConfigUi valuesDict = Invalid values errors ->
       values = valuesDict
       /\ forall field message,
            errors !! field = Some message <->
            field ∈ required_fields /\ missing valuesDict field
            /\ message = "A value is required!".
Proof.
  rewrite validatePrefsConfigUi_cases. cbv zeta. unfold missing, required_fields.
  destruct (String.length (default "" (valuesDict !! "email")) =? 0)%nat eqn:E1;
    destruct (String.length (default "" (valuesDict !! "password")) =? 0)%nat
      eqn:E2;
    destruct (String.length (default "" (valuesDict !! "tfa-secret")) =? 0)%nat
      eqn:E3.
  all: try apply length_zero_iff_empty in E1.
  all: try apply length_zero_iff_empty in E2.
  all: try apply length_zero_iff_empty in E3.
  all: try (apply not_true_iff_false in E1; rewrite length_zero_iff_empty in E1).
  all: try (apply not_true_iff_false in E2; rewrite length_zero_iff_empty in E2).
  all: try (apply not_true_iff_false in E3; rewrite length_zero_iff_empty in E3).
  all: cbn [orb id]; split.
  all: try (split; [discriminate|]; intros H; exfalso;
            first [ apply (H "email"); [in_list|done]
                  | apply (H "password"); [in_list|done]
                  | apply (H "tfa-secret"); [in_list|done] ]).
  all: try (intros values errors [= <- <-]; split; [reflexivity|];
            intros field message; split;
            [ intros Hl;
              repeat (apply lookup_insert_Some in Hl as [[<- <-]|[? Hl]];
                      [split; [in_list|by split]|]);
              by rewrite lookup_empty in Hl
            | intros (Hin & Hm & ->);
              repeat (apply elem_of_cons in Hin as [->|Hin];
                      [first [done | by simplify_map_eq]|]);
              by apply elem_of_nil in Hin ]).
  - split; [|done]. intros _ field Hin.
    repeat (apply elem_of_cons in Hin as [->|Hin]; [done|]).
    by apply elem_of_nil in Hin.
  - intros values errors [=].
Qed.

Lemma truthy_str (s : string) :
  truthy (PyStr s) = negb (String.length s =? 0)%nat.
Proof. by destruct s. Qed.

(** X17.  [startup] and [validatePrefsConfigUi] agree on what a complete
    configuration is.  With preferences that the validation rejects,
    [startup] logs the error, returns normally and attempts no login: no
    token is built, nothing is submitted to the loop and [api] stays as it
    was.  With preferences that it accepts, [startup] builds the token from
    the secret and submits one coroutine, the login with the three
    preferences: a login that succeeds installs the directory as [api]; a
    login that raises makes [startup] raise, with [api] not installed and
    no record of success.  The update handlers are never touched. *)
Theorem startup_spec
    (login : string -> string -> OTP.t -> result (list smartrent.Device))
    (pluginPrefs : gmap string string) (self : Plugin) :
  let '(outcome, self', attrs) := startup login pluginPrefs self in
  (validatePrefsConfigUi pluginPrefs <> Valid ->
   outcome = Ok tt
   /\ api self' = api self
   /\ loop self' = loop self
   /\ tfa_token attrs = None
   /\ map levelname (new_records self self') = [DEBUG; ERROR])
  /\ (validatePrefsConfigUi pluginPrefs = Valid ->
      exists e p s,
        pluginPrefs !! "email" = Some e
        /\ pluginPrefs !! "password" = Some p
        /\ pluginPrefs !! "tfa-secret" = Some s
        /\ tfa_token attrs = Some (OTP.__init__ s)
        /\ loop self'
           = loop self ++ [smartrent.async_login e p (OTP.__init__ s)]
        /\ match login e p (OTP.__init__ s) with
           | inr devices =>
               outcome = Ok tt
               /\ api self' = Some devices
               /\ map levelname (new_records self self') = [DEBUG; INFO; INFO]
           | inl exception =>
               outcome = Raise exception
               /\ api self' = api self
               /\ map levelname (new_records self self') = [DEBUG; INFO]
           end)
  /\ update_callbacks self' = update_callbacks self.
Proof.
  rewrite validatePrefsConfigUi_cases. cbv zeta.
  unfold startup, not_set, new_records, Plugin_log, Plugin_set_api, Plugin_run.
  destruct (pluginPrefs !! "email") as [[|c1 e]|];
    destruct (pluginPrefs !! "password") as [[|c2 p]|];
    destruct (pluginPrefs !! "tfa-secret") as [[|c3 s]|];
    repeat rewrite truthy_str; cbn.
  all: try (split; [|split; [|done]];
            [ intros _; rewrite <- ?app_assoc, ?drop_app_length;
              by repeat split
            | intros [=] ]).
  destruct (login (String c1 e) (String c2 p) (OTP.__init__ (String c3 s)))
    as [exception|devices] eqn:Hlogin; cbn.
  - split; [done|split; [|done]]. intros _.
    exists (String c1 e), (String c2 p), (String c3 s).
    rewrite Hlogin, <- ?app_assoc, drop_app_length. by repeat split.
  - split; [done|split; [|done]]. intros _.
    exists (String c1 e), (String c2 p), (String c3 s).
    rewrite Hlogin, <- ?app_assoc, drop_app_length. by repeat split.
Qed.

(** A first start: the plugin of the sample preferences submits the login
    and nothing else, and holds the directory that the login returned. *)
Example startup_first_start :
  validatePrefsConfigUi sample_prefs = Valid
  /\ (startup (login_ok [hall_thermostat]) sample_prefs fresh_plugin).1.2
     = {| api := Some [hall_thermostat];
          logger :=
            [ {| levelname := DEBUG; msg := "Starting SmartRent..."; args := [] |};
              {| levelname := INFO; msg := "Connecting to SmartRent API...";
                 args := [] |};
              {| levelname := INFO;
                 msg := "Successfully connected to SmartRent API!";
                 args := [] |} ];
          loop := [ smartrent.async_login "resident@example.org" "hunter2"
                      (OTP.__init__ "JBSWY3DPEHPK3PXP") ];
          update_callbacks := [] |}.
Proof. vm_compute. split; reflexivity. Qed.

Ltac not_in_list H :=
  repeat (apply elem_of_cons in H as [H|H]; [done|]); by apply elem_of_nil in H.

Lemma setLogLevel_debug (self : Plugin) (handler : level) :
  setLogLevel "debug" self handler
  = (Plugin_log DEBUG "Log level set to debug" [] self, DEBUG).
Proof.
  unfold setLogLevel. cbv zeta.
  rewrite (bool_decide_eq_true_2 ("debug" ∈ _)) by in_list. reflexivity.
Qed.

Lemma setLogLevel_info (self : Plugin) (handler : level) :
  setLogLevel "info" self handler
  = (Plugin_log INFO "Log level set to info" [] self, INFO).
Proof.
  unfold setLogLevel. cbv zeta.
  rewrite (bool_decide_eq_true_2 ("info" ∈ _)) by in_list. reflexivity.
Qed.

Lemma setLogLevel_warning (self : Plugin) (handler : level) :
  setLogLevel "warning" self handler
  = (Plugin_log WARNING "Log level set to warning" [] self, WARNING).
Proof.
  unfold setLogLevel. cbv zeta.
  rewrite (bool_decide_eq_true_2 ("warning" ∈ _)) by in_list. reflexivity.
Qed.

Lemma setLogLevel_unhandled (level_name : string) (self : Plugin)
    (handler : level) :
  level_name ∉ ["debug"; "info"; "warning"] ->
  setLogLevel level_name self handler
  = (Plugin_log ERROR
       "Attempted to set the log level to an unhandled value: {}"
       [ArgStr level_name] self, handler).
Proof.
  intros H. unfold setLogLevel. cbv zeta.
  rewrite (bool_decide_eq_false_2 (level_name ∈ _)) by done.
  rewrite !bool_decide_eq_false_2; [reflexivity|..];
    intros ->; apply H; in_list.
Qed.

(** X18.  [setLogLevel] always reports what it did in a record that the
    handler, at its level after the call, lets through: for ["debug"],
    ["info"] and ["warning"] the handler gets that level and the
    confirmation is logged at that very level; for any other name the
    handler keeps its level and one error is logged.  Closing the
    preferences after a cancel changes nothing; closing them with the level
    ["warning"] logs the hint about restarting at a level that the handler
    no longer lets through. *)
Theorem setLogLevel_reported (level_name : string) (self : Plugin)
    (handler : level) :
  let '(self', handler') := setLogLevel level_name self handler in
  (exists record,
     logger self' = logger self ++ [record]
     /\ emitted handler' record = true
     /\ (level_name ∈ ["debug"; "info"; "warning"] ->
         levelname record = handler'
         /\ handler' = (if bool_decide (level_name = "debug") then DEBUG
                        else if bool_decide (level_name = "info") then INFO
                        else WARNING))
     /\ (level_name ∉ ["debug"; "info"; "warning"] ->
         levelname record = ERROR /\ handler' = handler))
  /\ (forall valuesDict,
        closedPrefsConfigUi valuesDict true self handler = (self, handler))
  /\ (forall valuesDict,
        valuesDict !! "log-level" = Some "warning" ->
        exists confirmation hint,
          closedPrefsConfigUi valuesDict false self handler
          = ({| api := api self;
                logger := logger self ++ [confirmation; hint];
                loop := loop self;
                update_callbacks := update_callbacks self |}, WARNING)
          /\ emitted WARNING confirmation = true
          /\ emitted WARNING hint = false).
Proof.
  assert (Hclose : forall valuesDict,
    valuesDict !! "log-level" = Some "warning" ->
    exists confirmation hint,
      closedPrefsConfigUi valuesDict false self handler
      = ({| api := api self;
            logger := logger self ++ [confirmation; hint];
            loop := loop self;
            update_callbacks := update_callbacks self |}, WARNING)
      /\ emitted WARNING confirmation = true
      /\ emitted WARNING hint = false).
  { intros valuesDict Hv. unfold closedPrefsConfigUi. rewrite Hv.
    cbn [default]. rewrite setLogLevel_warning. unfold Plugin_log. cbn.
    eexists _, _. rewrite <- app_assoc. cbn. by repeat split. }
  destruct (decide (level_name ∈ ["debug"; "info"; "warning"])) as [Hin|Hout].
  - assert (level_name = "debug" \/ level_name = "info"
            \/ level_name = "warning") as [-> | [-> | ->]].
    { repeat (apply elem_of_cons in Hin as [Hin|Hin]; [by eauto|]).
      by apply elem_of_nil in Hin. }
    + rewrite setLogLevel_debug. split; [|by split].
      eexists. split; [reflexivity|]. split; [reflexivity|].
      split; [done|]. intros Hn. exfalso. apply Hn. in_list.
    + rewrite setLogLevel_info. split; [|by split].
      eexists. split; [reflexivity|]. split; [reflexivity|].
      split; [done|]. intros Hn. exfalso. apply Hn. in_list.
    + rewrite setLogLevel_warning. split; [|by split].
      eexists. split; [reflexivity|]. split; [reflexivity|].
      split; [done|]. intros Hn. exfalso. apply Hn. in_list.
  - rewrite (setLogLevel_unhandled _ _ _ Hout). split; [|by split].
    eexists. split; [reflexivity|]. split; [by destruct handler|].
    split; [done|]. by split.
Qed.

(** ** The list of SmartRent devices of a configuration dialog *)

Lemma split_comma_nonempty (cur s : list ascii) : split_comma cur s <> [].
Proof.
  revert cur. induction s as [|c s IH]; intros cur; cbn; [done|].
  case_bool_decide; [done | apply IH].
Qed.

Lemma filter_items_nonempty (filter_ : string) : filter_items filter_ <> [].
Proof.
  unfold filter_items. intros H. apply fmap_nil_inv in H.
  by apply split_comma_nonempty in H.
Qed.

Lemma class_keyword_lock d kw :
  (isinstance_DoorLock d = true /\ kw = "lock"
   \/ isinstance_Thermostat d = true /\ kw = "thermostat"
   \/ isinstance_BinarySwitch d = true /\ kw = "binary_switch"
   \/ isinstance_MultilevelSwitch d = true /\ kw = "multilevel_switch"
   \/ isinstance_LeakSensor d = true /\ kw = "leak_sensor"
   \/ isinstance_MotionSensor d = true /\ kw = "motion_sensor")
  <-> class_keyword (smartrent.class d) = kw.
Proof.
  unfold isinstance_DoorLock, isinstance_Thermostat, isinstance_BinarySwitch,
    isinstance_MultilevelSwitch, isinstance_LeakSensor, isinstance_MotionSensor.
  destruct (smartrent.class d); cbn; split;
    try (intros [[? ->]|[[? ->]|[[? ->]|[[? ->]|[[? ->]|[? ->]]]]]];
         done || discriminate).
  all: intros <-; tauto.
Qed.

(** The devices that the filter selects, as the method collects them. *)
Lemma selected_devices (items : list string) (directory : list smartrent.Device)
    (d : smartrent.Device) :
  d ∈ (if bool_decide ("lock" ∈ items) then get_locks directory else [])
      ++ (if bool_decide ("thermostat" ∈ items)
          then get_thermostats directory else [])
      ++ (if bool_decide ("binary_switch" ∈ items)
          then get_binary_switches directory else [])
      ++ (if bool_decide ("multilevel_switch" ∈ items)
          then get_multilevel_switches directory else [])
      ++ (if bool_decide ("leak_sensor" ∈ items)
          then get_leak_sensors directory else [])
      ++ (if bool_decide ("motion_sensor" ∈ items)
          then get_motion_sensors directory else [])
  <-> d ∈ directory /\ class_keyword (smartrent.class d) ∈ items.
Proof.
  rewrite !elem_of_app.
  unfold get_locks, get_thermostats, get_binary_switches,
    get_multilevel_switches, get_leak_sensors, get_motion_sensors.
  split.
  - intros H.
    destruct H as [H|[H|[H|[H|[H|H]]]]].
    all: match type of H with
         | _ ∈ (if bool_decide ?P then _ else _) =>
             destruct (decide P) as [Hk|Hk];
             [ rewrite (bool_decide_eq_true_2 _ Hk) in H
             | rewrite (bool_decide_eq_false_2 _ Hk) in H;
               by apply elem_of_nil in H ]
         end.
    all: apply list_elem_of_filter in H as [Hc Hd]; split; [done|].
    all: erewrite (proj1 (class_keyword_lock d _)); [exact Hk|]; tauto.
  - intros [Hd Hk].
    destruct (proj2 (class_keyword_lock d _) eq_refl)
      as [[Hc E]|[[Hc E]|[[Hc E]|[[Hc E]|[[Hc E]|[Hc E]]]]]];
      rewrite E in Hk; rewrite (bool_decide_eq_true_2 _ Hk).
    + left. by apply list_elem_of_filter.
    + right; left. by apply list_elem_of_filter.
    + do 2 right; left. by apply list_elem_of_filter.
    + do 3 right; left. by apply list_elem_of_filter.
    + do 4 right; left. by apply list_elem_of_filter.
    + do 5 right. by apply list_elem_of_filter.
Qed.

Lemma get_smartrent_devices_eval (filter_ : string) (self : Plugin)
    (directory : list smartrent.Device) :
  api self = Some directory ->
  exists entries,
    get_smartrent_devices filter_ self = Ok entries
    /\ ((exists d, d ∈ directory /\ selected filter_ d) ->
        forall i n,
          (i, n) ∈ entries <->
          exists d, d ∈ directory /\ selected filter_ d
                    /\ i = smartrent._device_id d /\ n = smartrent.get_name d)
    /\ ((~ exists d, d ∈ directory /\ selected filter_ d) ->
        entries = [no_devices_found])
    /\ entries <> [].
Proof.
  intros Ha. unfold get_smartrent_devices. rewrite Ha. cbv zeta.
  fold (filter_items filter_).
  pose proof (filter_items_nonempty filter_) as Hne.
  destruct (filter_items filter_) as [|item items] eqn:Hitems; [done|].
  rewrite <- Hitems. clear Hne.
  replace (length (filter_items filter_) =? 0)%nat with false
    by (by rewrite Hitems).
  match goal with
  | |- context [(length ?l =? 0)%nat] => set (devices := l)
  end.
  assert (Hsel : forall d, d ∈ devices <-> d ∈ directory /\ selected filter_ d)
    by (intros d; apply selected_devices).
  destruct devices as [|d0 rest] eqn:Hdev.
  - eexists. split; [reflexivity|]. split; [|split; [done|done]].
    intros (d & Hd). apply Hsel in Hd. by apply elem_of_nil in Hd.
  - cbn [length Nat.eqb].
    eexists. split; [reflexivity|]. split; [|split; [|done]].
    + intros _ i n. rewrite list_elem_of_fmap. split.
      * intros (d & [= -> ->] & Hd). exists d. apply Hsel in Hd. tauto.
      * intros (d & Hd & Hs & -> & ->). exists d. split; [done|].
        apply Hsel. tauto.
    + intros Hn. exfalso. apply Hn. exists d0. apply Hsel.
      apply list_elem_of_here.
Qed.

(** X19.  With a session, [get_smartrent_devices] always returns a
    non-empty list.  Its entries are the identifier and name of exactly the
    devices of the directory whose class is named in the filter (items are
    separated by commas, white space around an item does not count); when
    there is no such device, the list is the one disabled entry [no devices
    found].  A filter always has at least one item, so that the empty
    filter selects no device: the branch for a filter without items is
    never taken. *)
Theorem get_smartrent_devices_spec (filter_ : string) (self : Plugin)
    (directory : list smartrent.Device) :
  api self = Some directory ->
  exists entries,
    get_smartrent_devices filter_ self = Ok entries
    /\ entries <> []
    /\ filter_items filter_ <> []
    /\ ((exists d, d ∈ directory /\ selected filter_ d) ->
        forall i n,
          (i, n) ∈ entries <->
          exists d, d ∈ directory /\ selected filter_ d
                    /\ i = smartrent._device_id d /\ n = smartrent.get_name d)
    /\ ((~ exists d, d ∈ directory /\ selected filter_ d) ->
        entries = [no_devices_found]).
Proof.
  intros Ha.
  destruct (get_smartrent_devices_eval filter_ self directory Ha)
    as (entries & He & H1 & H2 & H3).
  exists entries. split; [done|]. split; [done|].
  split; [apply filter_items_nonempty|]. by split.
Qed.

Lemma get_smartrent_devices_spec_witness :
  get_smartrent_devices " lock , leak_sensor" logged_in = Ok [(12, "Front door")]
  /\ get_smartrent_devices "" logged_in = Ok [no_devices_found].
Proof.
  destruct (get_smartrent_devices_spec " lock , leak_sensor" logged_in
              [hall_thermostat; front_door true] eq_refl)
    as (entries & E & _).
  destruct (get_smartrent_devices_spec "" logged_in
              [hall_thermostat; front_door true] eq_refl)
    as (entries' & E' & _ & _ & _ & H').
  split.
  - rewrite E. vm_compute in E. by injection E as <-.
  - rewrite E'. f_equal. apply H'. intros (d & Hd & Hs).
    unfold selected in Hs. vm_compute in Hs.
    apply list_elem_of_singleton in Hs.
    repeat (apply elem_of_cons in Hd as [->|Hd]; [discriminate Hs|]).
    by apply elem_of_nil in Hd.
Defined.

(** A no-break space after an item of the filter is white space. *)
Example get_smartrent_devices_no_break_space :
  get_smartrent_devices "lock " logged_in
  = Ok [(12, "Front door")].
Proof. vm_compute. reflexivity. Qed.

(** ** Decimal strings *)

Lemma pretty_N_char_digit (x : N) :
  (x < 10)%N ->
  is_digit (pretty_N_char x) = true
  /\ Z.of_N (N_of_ascii (pretty_N_char x)) - 48 = Z.of_N x.
Proof.
  intros H.
  assert (x = 0 \/ x = 1 \/ x = 2 \/ x = 3 \/ x = 4 \/ x = 5 \/ x = 6
          \/ x = 7 \/ x = 8 \/ x = 9)%N as Hx by lia.
  repeat (destruct Hx as [->|Hx]; [by split|]). by subst.
Qed.

Lemma pretty_N_go_chars (P : ascii -> Prop) (x : N) (s : string) :
  (forall d, (d < 10)%N -> P (pretty_N_char d)) ->
  Forall P (list_ascii_of_string s) ->
  Forall P (list_ascii_of_string (pretty_N_go x s)).
Proof.
  intros Hd. revert s. induction (N.lt_wf_0 x) as [x _ IH]. intros s Hs.
  destruct (decide (x = 0)%N) as [->|Hx]; [by rewrite pretty_N_go_0|].
  rewrite pretty_N_go_step by lia. apply IH.
  - apply N.div_lt; lia.
  - cbn. constructor; [|done]. apply Hd. apply N.mod_lt. lia.
Qed.

(** Reading the digits that [pretty_N_go] writes gives the number back. *)
Lemma int_digits_pretty_N_go (x : N) (s : string) (b : bool) :
  (0 < x)%N ->
  int_digits 0 b (list_ascii_of_string (pretty_N_go x s))
  = int_digits (Z.of_N x) true (list_ascii_of_string s).
Proof.
  revert s b. induction (N.lt_wf_0 x) as [x _ IH]. intros s b Hx.
  rewrite pretty_N_go_step by done.
  destruct (pretty_N_char_digit (x `mod` 10)) as [Hd Hv];
    [apply N.mod_lt; lia|].
  pose proof (N.div_mod x 10 ltac:(lia)) as Hdm.
  destruct (decide (x `div` 10 = 0)%N) as [H0|H0].
  - rewrite H0, pretty_N_go_0. cbn [list_ascii_of_string int_digits].
    rewrite Hd, Hv. f_equal. lia.
  - rewrite IH; [|apply N.div_lt; lia|by apply N.neq_0_lt_0].
    cbn [list_ascii_of_string int_digits]. rewrite Hd, Hv. f_equal. lia.
Qed.

Lemma lstrip_no_space (l : list ascii) :
  (forall c, head l = Some c -> is_space c = false) -> lstrip l = l.
Proof. destruct l as [|c l]; [done|]. intros H. cbn. by rewrite (H c). Qed.

Lemma strip_no_space (l : list ascii) :
  Forall (fun c => is_space c = false) l -> strip l = l.
Proof.
  intros H. unfold strip.
  rewrite (lstrip_no_space l).
  - rewrite (lstrip_no_space (rev l)); [apply rev_involutive|].
    intros c Hc. apply head_Some_elem_of in Hc.
    apply list_elem_of_In, in_rev, list_elem_of_In in Hc.
    by eapply Forall_forall in H.
  - intros c Hc. apply head_Some_elem_of in Hc. by eapply Forall_forall in H.
Qed.

Lemma is_digit_not_space (c : ascii) : is_digit c = true -> is_space c = false.
Proof.
  unfold is_digit, is_space. intros H.
  apply andb_true_iff in H as [H1 H2].
  apply N.leb_le in H1. apply N.leb_le in H2.
  apply orb_false_iff. split.
  - apply andb_false_iff. right. apply N.leb_gt. lia.
  - apply N.eqb_neq. lia.
Qed.

Lemma unsigned_branch {A} (l : list ascii) (f g h : list ascii -> A) :
  (forall c, head l = Some c -> is_digit c = true) ->
  match l with
  | "-"%char :: ds => f ds
  | "+"%char :: ds => g ds
  | ds => h ds
  end = h l.
Proof.
  destruct l as [|c l]; [done|]. intros H. specialize (H c eq_refl).
  destruct c as [[] [] [] [] [] [] [] []]; try reflexivity; discriminate H.
Qed.

(** A string of ASCII characters is its own ASCII form. *)
Lemma transform_ascii (l : list ascii) :
  Forall (fun c => (N_of_ascii c < 127)%N) l ->
  transform_decimal_and_space (unicode.code_points l) = l.
Proof.
  induction 1 as [|c l Hc _ IH]; [reflexivity|].
  unfold unicode.code_points in *. cbn [map unicode.decode].
  assert ((N_of_ascii c <? 128)%N = true) as -> by (apply N.ltb_lt; lia).
  cbn [transform_decimal_and_space].
  assert ((N_of_ascii c <? 127)%N = true) as -> by (by apply N.ltb_lt).
  by rewrite ascii_N_embedding, IH.
Qed.

Lemma is_digit_ascii (c : ascii) :
  is_digit c = true -> (N_of_ascii c < 127)%N.
Proof.
  unfold is_digit. intros H. apply andb_true_iff in H as [_ H].
  apply N.leb_le in H. lia.
Qed.

Lemma int_of_str_pretty_N_go (x : N) :
  (0 < x)%N -> int_of_str (pretty_N_go x "") = Ok (Z.of_N x).
Proof.
  intros Hx. unfold int_of_str.
  assert (Hdig : Forall (fun c => is_digit c = true)
                   (list_ascii_of_string (pretty_N_go x ""))).
  { apply pretty_N_go_chars; [|constructor].
    intros d Hd. by apply pretty_N_char_digit. }
  rewrite transform_ascii
    by (eapply Forall_impl; [exact Hdig|apply is_digit_ascii]).
  unfold PyLong_FromString. cbv zeta.
  rewrite strip_no_space
    by (eapply Forall_impl; [exact Hdig|apply is_digit_not_space]).
  rewrite unsigned_branch.
  - by rewrite int_digits_pretty_N_go.
  - intros c Hc. apply head_Some_elem_of in Hc.
    by eapply Forall_forall in Hdig.
Qed.

(** [int(str(z)) == z] *)
Lemma int_pretty (z : Z) : int (PyStr (pretty z)) = Ok z.
Proof.
  destruct z as [|p|p]; [reflexivity| |].
  - change (pretty (Z.pos p)) with (pretty_N_go (N.pos p) "").
    cbn [int]. by rewrite int_of_str_pretty_N_go.
  - change (pretty (Z.neg p)) with ("-" +:+ pretty_N_go (N.pos p) "").
    cbn [int]. unfold int_of_str.
    assert (Hdig : Forall (fun c => is_digit c = true)
                     (list_ascii_of_string (pretty_N_go (N.pos p) ""))).
    { apply pretty_N_go_chars; [|constructor].
      intros d Hd. by apply pretty_N_char_digit. }
    change (list_ascii_of_string ("-" +:+ pretty_N_go (N.pos p) ""))
      with ("-"%char :: list_ascii_of_string (pretty_N_go (N.pos p) "")).
    rewrite transform_ascii
      by (constructor; [reflexivity|];
          eapply Forall_impl; [exact Hdig|apply is_digit_ascii]).
    unfold PyLong_FromString. cbv zeta.
    rewrite strip_no_space.
    + rewrite int_digits_pretty_N_go by lia. reflexivity.
    + constructor; [reflexivity|].
      eapply Forall_impl; [exact Hdig|apply is_digit_not_space].
Qed.

(** X20.  The list of a configuration dialog and the lookup fit together:
    when the identifier of an entry that [get_smartrent_devices] lists for
    a device is stored, as its decimal string, as the binding of an Indigo
    device, the lookup for that device succeeds and returns a device of the
    directory with that identifier; when the identifiers of the directory
    are distinct, it is the device with the listed name. *)
Theorem listed_device_resolves (w : world) directory (filter_ : string)
    entries i n :
  api (self w) = Some directory ->
  get_smartrent_devices filter_ (self w) = Ok entries ->
  (i, n) ∈ entries ->
  (exists d, d ∈ directory /\ selected filter_ d) ->
  indigo.pluginProps (device w) !! "smartrent-device" = Some (pretty i) ->
  exists r,
    outcome get_smartrent_device_for_device w = Ok r
    /\ r ∈ directory
    /\ smartrent._device_id r = i
    /\ (NoDup (map smartrent._device_id directory) ->
        smartrent.get_name r = n /\ selected filter_ r).
Proof.
  intros Ha He Hin Hsome Hp.
  destruct (get_smartrent_devices_eval filter_ (self w) directory Ha)
    as (entries' & He' & Hsel & _).
  rewrite He in He'. injection He' as <-.
  apply (Hsel Hsome) in Hin as (d & Hd & Hs & -> & ->).
  assert (Hb : declared_binding (device w) = Ok (smartrent._device_id d)).
  { unfold declared_binding. rewrite Hp. cbn [fmap option_fmap option_map default].
    apply int_pretty. }
  unfold outcome. rewrite (get_smartrent_device_for_device_eval _ _ _ Ha Hb).
  cbn [fst].
  destruct (first (filter (fun d' => smartrent._device_id d' = smartrent._device_id d)
                     directory)) as [e|r] eqn:Hf.
  - exfalso. apply list_elem_of_split in Hd as (l1 & l2 & ->).
    rewrite filter_app, filter_cons_True in Hf by done.
    by destruct (filter _ l1).
  - exists r. apply first_filter_spec in Hf as (before & rest & -> & Hid & Hb').
    split; [done|].
    split; [apply elem_of_app; right; apply list_elem_of_here|].
    split; [done|].
    intros Hnd.
    assert (r = d) as ->; [|done].
    apply list_elem_of_lookup in Hd as [j Hj].
    assert (Hr : (before ++ r :: rest) !! length before = Some r)
      by (by rewrite list_lookup_middle).
    assert (j = length before) as ->.
    { eapply NoDup_lookup; [exact Hnd| |].
      - rewrite list_lookup_fmap, Hj. reflexivity.
      - rewrite list_lookup_fmap, Hr. cbn. by rewrite Hid. }
    congruence.
Qed.

Lemma listed_device_resolves_witness :
  exists r,
    outcome get_smartrent_device_for_device (sample_world "lock" "12") = Ok r
    /\ smartrent.get_name r = "Front door".
Proof.
  destruct (listed_device_resolves (sample_world "lock" "12")
              [hall_thermostat; front_door true] "lock"
              [(12, "Front door")] 12 "Front door")
    as (r & H1 & _ & _ & H2).
  - reflexivity.
  - vm_compute. reflexivity.
  - apply list_elem_of_here.
  - exists (front_door true). split.
    + apply list_elem_of_further, list_elem_of_here.
    + unfold selected. vm_compute. apply list_elem_of_here.
  - vm_compute. reflexivity.
  - exists r. split; [exact H1|]. apply H2.
    vm_compute. repeat constructor; intros Hin.
    + apply list_elem_of_singleton in Hin. discriminate Hin.
    + by apply elem_of_nil in Hin.
Defined.

(** ** One-time codes, continued *)

Lemma pretty_N_go_length_ge (x : N) (s : string) :
  (length (list_ascii_of_string s)
   <= length (list_ascii_of_string (pretty_N_go x s)))%nat.
Proof.
  revert s. induction (N.lt_wf_0 x) as [x _ IH]. intros s.
  destruct (decide (x = 0)%N) as [->|Hx]; [by rewrite pretty_N_go_0|].
  rewrite pretty_N_go_step by lia.
  etrans; [|apply IH; apply N.div_lt; lia]. cbn. lia.
Qed.

(** A number of more than [k] digits is written with more than [k]
    characters. *)
Lemma pretty_N_go_length (k : nat) (x : N) (s : string) :
  (10 ^ N.of_nat k <= x)%N ->
  (k + 1 + length (list_ascii_of_string s)
   <= length (list_ascii_of_string (pretty_N_go x s)))%nat.
Proof.
  revert x s. induction k as [|k IH]; intros x s Hx.
  - rewrite pretty_N_go_step by (cbn in Hx; lia).
    etrans; [|apply pretty_N_go_length_ge]. cbn. lia.
  - assert (Hpow : (10 ^ N.of_nat (S k) = 10 * 10 ^ N.of_nat k)%N).
    { rewrite Nat2N.inj_succ, N.pow_succ_r'. reflexivity. }
    assert (0 < 10 ^ N.of_nat k)%N by (apply N.neq_0_lt_0, N.pow_nonzero; lia).
    rewrite Hpow in Hx. clear Hpow.
    assert (0 < x)%N by (generalize dependent (10 ^ N.of_nat k)%N; lia).
    rewrite pretty_N_go_step by done.
    etrans; [|apply IH].
    + cbn. lia.
    + apply N.div_le_lower_bound; [lia|done].
Qed.

Lemma string_length_chars (s : string) :
  String.length s = length (list_ascii_of_string s).
Proof. induction s as [|c s IH]; cbn; [done | by rewrite IH]. Qed.

Lemma chars_of_list (l : list ascii) :
  list_ascii_of_string (string_of_list_ascii l) = l.
Proof. apply list_ascii_of_string_of_list_ascii. Qed.

(** The last six characters of the decimal string of a number from [10^10]
    on are six digits. *)
Lemma suffix_six_digits (z : Z) :
  10000000000 <= z ->
  String.length (pyotp.suffix 6 (pretty z)) = 6%nat
  /\ Forall (fun c => is_digit c = true)
       (list_ascii_of_string (pyotp.suffix 6 (pretty z))).
Proof.
  intros Hz. destruct z as [|p|p]; try lia.
  change (pretty (Z.pos p)) with (pretty_N_go (N.pos p) "").
  assert (Hdig : Forall (fun c => is_digit c = true)
                   (list_ascii_of_string (pretty_N_go (N.pos p) ""))).
  { apply pretty_N_go_chars; [|constructor].
    intros d Hd. by apply pretty_N_char_digit. }
  pose proof (pretty_N_go_length 5 (N.pos p) "") as Hlen.
  cbn [length list_ascii_of_string] in Hlen.
  assert (10 ^ N.of_nat 5 <= N.pos p)%N as Hp.
  { change (10 ^ N.of_nat 5)%N with 100000%N. lia. }
  specialize (Hlen Hp).
  unfold pyotp.suffix. rewrite string_length_chars, chars_of_list.
  split.
  - rewrite length_drop, string_length_chars. lia.
  - by apply Forall_drop.
Qed.

(** The [bytearray] of an HMAC-SHA1 has an item at every index that
    [generate_otp] reads. *)
Lemma generate_otp_eval (self : pyotp.TOTP) (key : list Z) (input : Z) :
  pyotp.byte_secret self = Ok key -> 0 <= input ->
  exists code,
    0 <= code
    /\ pyotp.generate_otp self input
       = Ok (pyotp.suffix 6 (pretty (10000000000 + code mod 1000000))).
Proof.
  intros Hkey Hin. unfold pyotp.generate_otp.
  destruct (Z.ltb_spec input 0) as [?|_]; [lia|].
  rewrite Hkey. cbn [rbind Ok].
  set (h := HMAC.digest key (pyotp.int_to_bytestring input)).
  assert (Hlen : length h = 20%nat) by apply HMAC_digest_length.
  rewrite Hlen.
  destruct (getitem_in_range h (Z.of_nat 20 - 1)) as [last ->]; [lia|].
  cbn [rbind Ok].
  pose proof (land_15_range last) as Hoff.
  destruct (getitem_in_range h (Z.land last 15)) as [b0 ->]; [lia|].
  destruct (getitem_in_range h (Z.land last 15 + 1)) as [b1 ->]; [lia|].
  destruct (getitem_in_range h (Z.land last 15 + 2)) as [b2 ->]; [lia|].
  destruct (getitem_in_range h (Z.land last 15 + 3)) as [b3 ->]; [lia|].
  cbn [rbind Ok]. eexists. split; [|reflexivity].
  repeat first
    [ apply Z.lor_nonneg; split
    | apply Z.shiftl_nonneg
    | apply Z.land_nonneg; right; lia ].
Qed.

(** X21.  A one-time code is a string of exactly six decimal digits,
    leading zeros included: for every valid secret and every counter from 0
    on [generate_otp] returns such a string, and so does the [OTP] wrapper
    at every reading of the clock from the epoch on. *)
Theorem one_time_code_six_digits (secret : string) :
  valid_secret secret ->
  (forall input, 0 <= input ->
     exists code,
       pyotp.generate_otp (pyotp.new secret) input = Ok code
       /\ String.length code = 6%nat
       /\ Forall (fun c => is_digit c = true) (list_ascii_of_string code))
  /\ (forall clock, 0 <= clock ->
        exists code,
          OTP.__str__ (OTP.__init__ secret) clock = Ok code
          /\ String.length code = 6%nat
          /\ Forall (fun c => is_digit c = true) (list_ascii_of_string code)).
Proof.
  intros [key Hkey].
  assert (H : forall input, 0 <= input ->
     exists code,
       pyotp.generate_otp (pyotp.new secret) input = Ok code
       /\ String.length code = 6%nat
       /\ Forall (fun c => is_digit c = true) (list_ascii_of_string code)).
  { intros input Hin.
    destruct (generate_otp_eval _ key input Hkey Hin) as (code & Hc & ->).
    eexists. split; [reflexivity|]. apply suffix_six_digits.
    pose proof (Z.mod_pos_bound code 1000000). lia. }
  split; [exact H|].
  intros clock Hclock. rewrite OTP_str_current_code by done.
  apply H. by apply time_step_nonneg.
Qed.

Lemma one_time_code_six_digits_witness :
  exists code,
    OTP.__str__ (OTP.__init__ "GEZDGNBVGY3TQOJQGEZDGNBVGY3TQOJQ") 1234567890
      = Ok code
    /\ String.length code = 6%nat.
Proof.
  assert (V : valid_secret "GEZDGNBVGY3TQOJQGEZDGNBVGY3TQOJQ")
    by (eexists; vm_compute; reflexivity).
  destruct (one_time_code_six_digits _ V) as [_ H].
  destruct (H 1234567890) as (code & H1 & H2 & _); [lia|].
  exists code. by split.
Defined.

(** *** What the encoder cannot write *)

Lemma rbind_Raise {A B} (r : result A) (k : A -> result B) e :
  rbind r k = Raise e ->
  r = Raise e \/ exists a, r = Ok a /\ k a = Raise e.
Proof. destruct r as [e'|a]; cbn; [intros [= <-]; by left | eauto]. Qed.

Lemma quantum_raises (acc : Z) (q : list Z) e :
  base64.quantum acc q = Raise e -> e = ValueError.
Proof.
  revert acc. induction q as [|c q IH]; intros acc; cbn; [discriminate|].
  destruct (base64.b32rev c); [apply IH | by intros [= <-]].
Qed.

Lemma quanta_raises (fuel : nat) (acc : Z) (s : list Z) e :
  base64.quanta fuel acc s = Raise e -> e = ValueError.
Proof.
  revert acc s. induction fuel as [|fuel IH]; intros acc s;
    cbn [base64.quanta]; [discriminate|].
  destruct s as [|c s]; [discriminate|]. intros H.
  apply rbind_Raise in H as [H|(acc' & _ & H)];
    [by apply quantum_raises in H|].
  apply rbind_Raise in H as [H|([d l] & _ & H)];
    [by apply IH in H | discriminate H].
Qed.

Lemma b32decode_raises (s : list Z) e :
  base64.b32decode s = Raise e -> e = ValueError.
Proof.
  unfold base64.b32decode.
  destruct (negb _); [by intros [= <-]|]. cbv zeta. intros H.
  apply rbind_Raise in H as [H|([d acc] & _ & H)];
    [by apply quanta_raises in H|].
  repeat case_match; (discriminate H || by injection H as <-).
Qed.

(** [generate_otp] raises for a negative counter and for a secret that does
    not decode, and then it raises [ValueError]. *)
Lemma generate_otp_raises (self : pyotp.TOTP) (input : Z) e :
  pyotp.generate_otp self input = Raise e ->
  e = ValueError
  /\ (input < 0 \/ pyotp.byte_secret self = Raise ValueError).
Proof.
  intros H.
  destruct (Z.ltb_spec input 0) as [Hn|Hn].
  - unfold pyotp.generate_otp in H.
    rewrite (proj2 (Z.ltb_lt _ _) Hn) in H. injection H as <-. auto.
  - destruct (pyotp.byte_secret self) as [e'|key] eqn:Hkey.
    + assert (e' = ValueError) as ->.
      { unfold pyotp.byte_secret in Hkey. cbv zeta in Hkey.
        by apply b32decode_raises in Hkey. }
      unfold pyotp.generate_otp in H.
      rewrite (proj2 (Z.ltb_ge _ _) Hn), Hkey in H. injection H as <-. auto.
    + destruct (generate_otp_eval self key input Hkey Hn) as (code & _ & Hc).
      rewrite Hc in H. discriminate H.
Qed.

Lemma encode_serialisable (clock : Z) (payload : pyobj) j :
  OTPEncoder.encode clock payload = Ok j -> serialisable payload = true.
Proof.
  revert j. induction payload as [ |b|z|s|items IH|items IH|o|c]
    using pyobj_nested_ind; intros j Hj; cbn in Hj |- *; try done.
  - apply rbind_Ok in Hj as (js & Hjs & _). revert js Hjs.
    induction IH as [|x items Hx _ IHitems]; intros js Hjs; [done|].
    apply rbind_Ok in Hjs as (jx & Hjx & Hjs).
    apply rbind_Ok in Hjs as (js' & Hjs' & _).
    cbn. rewrite (Hx _ Hjx). cbn. by eapply IHitems.
  - apply rbind_Ok in Hj as (js & Hjs & _). revert js Hjs.
    induction IH as [|[k x] items Hx _ IHitems]; intros js Hjs; [done|].
    apply rbind_Ok in Hjs as (jx & Hjx & Hjs).
    apply rbind_Ok in Hjs as (js' & Hjs' & _).
    cbn. cbn in Hx. rewrite (Hx _ Hjx). cbn. by eapply IHitems.
  - apply rbind_Ok in Hj as (code & Hcode & _).
    destruct o as [[secret]]. unfold is_valid_secret. cbn.
    unfold OTP.__str__, pyotp.now in Hcode. cbn in Hcode.
    destruct (pyotp.byte_secret (pyotp.new secret)) as [e|key] eqn:Hkey;
      [|done].
    unfold pyotp.generate_otp in Hcode.
    change {| pyotp.secret := secret |} with (pyotp.new secret) in Hcode.
    rewrite Hkey in Hcode. by destruct (_ <? 0).
Qed.

Lemma encode_raises (clock : Z) (payload : pyobj) e :
  OTPEncoder.encode clock payload = Raise e ->
  e = ValueError \/ exists msg, e = TypeError msg.
Proof.
  induction payload as [ |b|z|s|items IH|items IH|o|c]
    using pyobj_nested_ind; intros He; cbn in He; try discriminate He.
  - apply rbind_Raise in He as [He|(js & _ & He)]; [|discriminate He].
    induction IH as [|x items Hx _ IHitems]; [discriminate He|].
    apply rbind_Raise in He as [He|(jx & _ & He)]; [by apply Hx|].
    apply rbind_Raise in He as [He|(js & _ & He)]; [|discriminate He].
    by apply IHitems.
  - apply rbind_Raise in He as [He|(js & _ & He)]; [|discriminate He].
    induction IH as [|[k x] items Hx _ IHitems]; [discriminate He|].
    apply rbind_Raise in He as [He|(jx & _ & He)]; [by apply Hx|].
    apply rbind_Raise in He as [He|(js & _ & He)]; [|discriminate He].
    by apply IHitems.
  - apply rbind_Raise in He as [He|(code & _ & He)]; [|discriminate He].
    left. unfold OTP.__str__, pyotp.now in He.
    by apply generate_otp_raises in He as [-> _].
  - injection He as <-. eauto.
Qed.

(** X22.  From the epoch on, a payload is written exactly when each of its
    objects is of a JSON type or an [OTP] with a secret that decodes; when
    it is not written, the encoder raises [TypeError], for an object of
    another class, or [ValueError], for a secret that does not decode. *)
Theorem encode_succeeds_iff_serialisable (clock : Z) (payload : pyobj) :
  0 <= clock ->
  ((exists j, OTPEncoder.encode clock payload = Ok j) <->
   serialisable payload = true)
  /\ (forall e, OTPEncoder.encode clock payload = Raise e ->
        e = ValueError \/ exists msg, e = TypeError msg).
Proof.
  intros Hc. split; [split|].
  - intros [j Hj]. by eapply encode_serialisable.
  - by apply encode_total.
  - intros e. apply encode_raises.
Qed.

Lemma encode_succeeds_iff_serialisable_witness :
  (exists j, OTPEncoder.encode 1700005500 (login_payload "JBSWY3DPEHPK3PXP") = Ok j)
  /\ OTPEncoder.encode 1700005500 (login_payload "not base32!")
     = Raise ValueError
  /\ OTPEncoder.encode 1700005500 (OList [OObject "Future"])
     = Raise (TypeError "Object of type Future is not JSON serializable").
Proof.
  destruct (encode_succeeds_iff_serialisable 1700005500
              (login_payload "JBSWY3DPEHPK3PXP")) as [[_ H] _]; [lia|].
  split; [apply H; vm_compute; reflexivity|].
  split; vm_compute; reflexivity.
Defined.

(** *** Secrets in lower case *)

Lemma upper_idempotent (c : Z) : base64.upper (base64.upper c) = base64.upper c.
Proof.
  unfold base64.upper.
  destruct ((97 <=? c) && (c <=? 122)) eqn:E; [|by rewrite E].
  apply andb_true_iff in E as [E1 E2].
  apply Z.leb_le in E1. apply Z.leb_le in E2.
  destruct (Z.leb_spec 97 (c - 32)); [lia|]. reflexivity.
Qed.

Lemma upper_byte (c : Z) : 0 <= c < 256 -> 0 <= base64.upper c < 256.
Proof.
  intros H. unfold base64.upper.
  destruct ((97 <=? c) && (c <=? 122)) eqn:E; [|done].
  apply andb_true_iff in E as [E1 E2].
  apply Z.leb_le in E1. apply Z.leb_le in E2. lia.
Qed.

Lemma bytes_of_string_upper (s : string) :
  bytes_of_string (str_upper s) = map base64.upper (bytes_of_string s).
Proof.
  unfold bytes_of_string, str_upper. rewrite chars_of_list, !map_map.
  apply map_ext. intros c.
  pose proof (N_ascii_bounded c) as Hb.
  assert (Hu : 0 <= base64.upper (Z.of_N (N_of_ascii c)) < 256)
    by (apply upper_byte; lia).
  rewrite N_ascii_embedding by lia. lia.
Qed.

(** [b32decode] reads its argument through its length and its upper
    case. *)
Lemma b32decode_ext (s s' : list Z) :
  length s = length s' -> map base64.upper s = map base64.upper s' ->
  base64.b32decode s = base64.b32decode s'.
Proof.
  intros Hl Hu. unfold base64.b32decode. rewrite Hl. cbv zeta.
  by rewrite !length_map, Hl, Hu.
Qed.

Lemma byte_secret_upper (secret : string) :
  pyotp.byte_secret (pyotp.new (str_upper secret))
  = pyotp.byte_secret (pyotp.new secret).
Proof.
  unfold pyotp.byte_secret. cbn [pyotp.secret pyotp.new]. cbv zeta.
  rewrite bytes_of_string_upper, length_map.
  destruct (negb _).
  - apply b32decode_ext.
    + by rewrite !length_app, length_map.
    + rewrite !map_app, map_map. f_equal.
      apply map_ext. intros c. apply upper_idempotent.
  - apply b32decode_ext.
    + by rewrite length_map.
    + rewrite map_map. apply map_ext. intros c. apply upper_idempotent.
Qed.

(** X23.  The case of the letters of a secret does not matter: a secret
    and its upper-case form are valid together and give the same code for
    every counter and at every reading of the clock. *)
Theorem secret_case_insensitive (secret : string) :
  (valid_secret (str_upper secret) <-> valid_secret secret)
  /\ (forall input,
        pyotp.generate_otp (pyotp.new (str_upper secret)) input
        = pyotp.generate_otp (pyotp.new secret) input)
  /\ (forall clock,
        OTP.__str__ (OTP.__init__ (str_upper secret)) clock
        = OTP.__str__ (OTP.__init__ secret) clock).
Proof.
  assert (H : forall input,
    pyotp.generate_otp (pyotp.new (str_upper secret)) input
    = pyotp.generate_otp (pyotp.new secret) input).
  { intros input. unfold pyotp.generate_otp.
    by rewrite byte_secret_upper. }
  split; [|split; [exact H|]].
  - unfold valid_secret. by rewrite byte_secret_upper.
  - intros clock. unfold OTP.__str__, OTP.__init__, pyotp.now. cbn. apply H.
Qed.

(** X24.  The code that [generate_2fa_code] shows in the configuration
    dialog is the code that the encoder would send for the same secret at
    the same reading of the clock; the callback changes no field of the
    dialog but [tfa-code], and where the encoder would raise, it raises the
    same exception and returns no values. *)
Theorem generate_2fa_code_preview (valuesDict : gmap string string)
    (secret : string) (clock : Z) :
  valuesDict !! "tfa-secret" = Some secret ->
  match generate_2fa_code valuesDict clock with
  | inr values =>
      exists code,
        values = <["tfa-code" := code]> valuesDict
        /\ OTPEncoder.encode clock (OOTP (OTP.__init__ secret))
           = Ok (JString code)
        /\ forall field, field <> "tfa-code" ->
             values !! field = valuesDict !! field
  | inl e =>
      OTPEncoder.encode clock (OOTP (OTP.__init__ secret)) = Raise e
  end.
Proof.
  intros Hs. unfold generate_2fa_code. rewrite Hs. cbn.
  unfold OTP.__str__, OTP.__init__. cbn.
  destruct (pyotp.now (pyotp.new secret) clock) as [e|code]; cbn; [done|].
  exists code. repeat split. intros field Hf. by rewrite lookup_insert_ne.
Qed.

Lemma generate_2fa_code_preview_witness :
  generate_2fa_code {[ "tfa-secret" := "JBSWY3DPEHPK3PXP" ]} 1700005500
  = Ok (<["tfa-code" := "712301"]> {[ "tfa-secret" := "JBSWY3DPEHPK3PXP" ]}).
Proof.
  pose proof (generate_2fa_code_preview
                {[ "tfa-secret" := "JBSWY3DPEHPK3PXP" ]}
                "JBSWY3DPEHPK3PXP" 1700005500 eq_refl) as H.
  destruct (generate_2fa_code _ _) as [e|values].
  - vm_compute in H. discriminate H.
  - destruct H as (code & -> & H & _). vm_compute in H.
    by injection H as <-.
Defined.
